(** * Ambilight: a shallow embedding of [pc_app/ambilight.py] and
    [pc_app/ambilight pro.py]

    The two Python programs capture the borders of a screen, reduce them to
    one colour per LED (73 LEDs: 19 left, 35 top, 19 right), post-process the
    colours and stream them to an Arduino over a serial line using the
    Adalight framing.

    Python integers are modelled by [Z], numpy [float32]/[float64] values by
    the IEEE-754 specification floats of the Standard Library ([SpecFloat])
    at precision 24/53, exceptions by an error monad, lists indexed in place
    by stdpp's list lookup and insert with Python's range checks written out. *)

From Stdlib Require Import ZArith String Ascii Bool Lia.
From Stdlib Require Import Floats.SpecFloat.
From stdpp Require Import base list.

Local Open Scope Z_scope.
(** ** Python exceptions as an error monad *)

Inductive exn : Type :=
  | IndexError
  | ZeroDivisionError
  | OverflowError
  | SerialException
  | KeyboardInterrupt
  | SystemExit (code : Z).

Inductive result (A : Type) : Type :=
  | Ok (a : A)
  | Raise (e : exn).
Arguments Ok {A} a.
Arguments Raise {A} e.

Definition bind {A B} (m : result A) (k : A -> result B) : result B :=
  match m with
  | Ok a => k a
  | Raise e => Raise e
  end.

Notation "'let*' x ':=' m 'in' k" := (bind m (fun x => k))
  (at level 10, x pattern, m at level 100, k at level 200).

(** ** Python integer and list primitives *)

(** [a % b]: the result has the sign of the divisor, as [Z.modulo];
    [b = 0] raises. *)
Definition py_mod (a b : Z) : result Z :=
  if b =? 0 then Raise ZeroDivisionError else Ok (a mod b).

(** The position a list subscript [l[i]] designates: negative subscripts count
    from the end, anything outside [-len, len) raises [IndexError]. *)
Definition py_index {A} (l : list A) (i : Z) : result nat :=
  let n := Z.of_nat (length l) in
  if (0 <=? i) && (i <? n) then Ok (Z.to_nat i)
  else if (- n <=? i) && (i <? 0) then Ok (Z.to_nat (i + n))
  else Raise IndexError.

(** [l[i]] *)
Definition py_getitem {A} (l : list A) (i : Z) : result A :=
  let* k := py_index l i in
  match l !! k with
  | Some x => Ok x
  | None => Raise IndexError
  end.

(** [l[i] = x] (also the model of [np.copyto(l[i], x)], which overwrites the
    array stored at position [i] with the values of [x]). *)
Definition py_setitem {A} (l : list A) (i : Z) (x : A) : result (list A) :=
  let* k := py_index l i in Ok (<[k := x]> l).

(** [range(n)] *)
Definition py_range (n : Z) : list Z := map Z.of_nat (seq 0 (Z.to_nat n)).

(** ** LED configuration (identical in both programs) *)

Definition NUM_LEDS_LEFT : Z := 19.
Definition NUM_LEDS_TOP : Z := 35.
Definition NUM_LEDS_RIGHT : Z := 19.
Definition NUM_LEDS_TOTAL : Z := NUM_LEDS_LEFT + NUM_LEDS_TOP + NUM_LEDS_RIGHT.
Definition CAPTURE_DEPTH : Z := 30.
Definition DOWNSAMPLE : Z := 2.
Definition BAUD_RATE : Z := 115200.
Definition BUFFER_SIZE : Z := 3.

(** ** [class RingBuffer] ([ambilight pro.py], lines 59-90)

    The lock makes [put] and [get] atomic, so an execution is a sequence of
    whole [put]s and [get]s. [np.copyto] and [.copy()] copy values, so the
    slots are modelled by values of the sample type [A]. *)

Module RingBuffer.
Section RingBuffer.
Context {A : Type}.

Record t : Type := mk {
  size : Z;
  buffers : list A;
  write_idx : Z;
  read_idx : Z;
  count : Z
}.

(** [__init__(self, size, shape, dtype)]; [zeros] is [np.zeros(shape, dtype)]. *)
Definition __init__ (size : Z) (zeros : A) : t :=
  {| size := size;
     buffers := map (fun _ => zeros) (py_range size);
     write_idx := 0;
     read_idx := 0;
     count := 0 |}.

Definition put (self : t) (data : A) : result t :=
  let* buffers' := py_setitem (buffers self) (write_idx self) data in
  let* write_idx' := py_mod (write_idx self + 1) (size self) in
  if count self <? size self then
    Ok {| size := size self; buffers := buffers'; write_idx := write_idx';
          read_idx := read_idx self; count := count self + 1 |}
  else
    let* read_idx' := py_mod (read_idx self + 1) (size self) in
    Ok {| size := size self; buffers := buffers'; write_idx := write_idx';
          read_idx := read_idx'; count := count self |}.

Definition get (self : t) : result (option A * t) :=
  if count self =? 0 then Ok (None, self)
  else
    let* idx := py_mod (write_idx self - 1) (size self) in
    let* data := py_getitem (buffers self) idx in
    Ok (Some data,
        {| size := size self; buffers := buffers self;
           write_idx := write_idx self;
           read_idx := write_idx self; count := 0 |}).

(** A finite sequence of operations on one buffer, and the values the
    [get]s return, in order. *)
Inductive op : Type :=
  | Put (data : A)
  | Get.

Fixpoint run_ops (self : t) (ops : list op) : result (list (option A) * t) :=
  match ops with
  | [] => Ok ([], self)
  | Put data :: ops' =>
      let* self' := put self data in run_ops self' ops'
  | Get :: ops' =>
      let* (r, self') := get self in
      let* (rs, self'') := run_ops self' ops' in
      Ok (r :: rs, self'')
  end.

(** The invariant of the cursors and the counter. *)
Definition inv (self : t) : Prop :=
  1 <= size self /\
  Z.of_nat (length (buffers self)) = size self /\
  0 <= count self <= size self /\
  0 <= write_idx self < size self /\
  0 <= read_idx self < size self.

End RingBuffer.
Arguments t : clear implicits.
Arguments op : clear implicits.
End RingBuffer.

(** ** numpy floating point

    [float32] and [float64] are IEEE-754 binary32 and binary64 with round to
    nearest even; [SpecFloat] gives their operations for any precision. *)

Module F64.
Definition prec : Z := 53.
Definition emax : Z := 1024.
Definition t : Type := spec_float.
Definition of_Z (z : Z) : t := binary_normalize prec emax z 0 false.
Definition sub : t -> t -> t := SFsub prec emax.
Definition div : t -> t -> t := SFdiv prec emax.
Definition eqb : t -> t -> bool := SFeqb.

(** The binary64 value of a decimal literal [n/d] with [n] and [d] exact:
    the correctly rounded quotient, which is what [float("1.2")] returns. *)
Definition of_ratio (n d : Z) : t := div (of_Z n) (of_Z d).
Definition one : t := of_Z 1.
End F64.

(** The float an arithmetic operator makes of an [int] operand: the nearest
    binary64 (ties to even); an [int] that rounds beyond the largest float
    raises [OverflowError], which is where the rounding of [SpecFloat]
    gives an infinity. *)
Definition py_float (z : Z) : result F64.t :=
  match F64.of_Z z with
  | S754_infinity _ => Raise OverflowError
  | x => Ok x
  end.

(** [a / b] on two floats: a zero divisor, of either sign, raises. *)
Definition py_truediv (a b : F64.t) : result F64.t :=
  if F64.eqb b (F64.of_Z 0) then Raise ZeroDivisionError else Ok (F64.div a b).

(** [a / b] with an [int] [a] and a float [b] ([brightness / 255.0]) *)
Definition py_truediv_int_float (a : Z) (b : F64.t) : result F64.t :=
  let* a := py_float a in py_truediv a b.

(** [a / b] with a float [a] and an [int] [b] ([1.0 / self.target_fps]) *)
Definition py_truediv_float_int (a : F64.t) (b : Z) : result F64.t :=
  let* b := py_float b in py_truediv a b.

Module F32.
Definition prec : Z := 24.
Definition emax : Z := 128.
Definition t : Type := spec_float.
Definition of_Z (z : Z) : t := binary_normalize prec emax z 0 false.
Definition add : t -> t -> t := SFadd prec emax.
Definition sub : t -> t -> t := SFsub prec emax.
Definition mul : t -> t -> t := SFmul prec emax.
Definition div : t -> t -> t := SFdiv prec emax.
Definition ltb : t -> t -> bool := SFltb.

(** A Python float (binary64) or a [float64] array element entering a
    [float32] computation is rounded to binary32. *)
Definition of_f64 (x : F64.t) : t :=
  match x with
  | S754_finite s m e => binary_round prec emax s m e
  | _ => x
  end.

(** Truncation toward zero of a finite value; [None] for NaN and infinities. *)
Definition trunc (x : t) : option Z :=
  match x with
  | S754_zero _ => Some 0
  | S754_finite s m e =>
      let a := if 0 <=? e then Z.shiftl (Z.pos m) e else Z.shiftr (Z.pos m) (- e) in
      Some (if s then - a else a)
  | _ => None
  end.

(** The integer part of [k * x], computed exactly (no rounding), for a
    finite [x >= 0] and [k > 0]: a way to state where [x] lies to a chosen
    number of decimals. *)
Definition floor_scaled (k : Z) (x : t) : option Z :=
  match x with
  | S754_zero _ => Some 0
  | S754_finite false m e =>
      Some (if 0 <=? e then k * Z.shiftl (Z.pos m) e else (k * Z.pos m) / 2 ^ (- e))
  | _ => None
  end.

(** [x.astype(np.uint8)]: the C conversion truncates toward zero. The
    program clips to [0, 255] first; what is left outside that range is NaN,
    for which the conversion is platform-defined (0 on x86-64). *)
Definition to_uint8 (x : t) : Z :=
  match trunc x with
  | Some z => z mod 256
  | None => 0
  end.

(** [np.clip(x, lo, hi)] = [minimum(maximum(x, lo), hi)]; NaN stays NaN. *)
Definition clip (x lo hi : t) : t :=
  if ltb x lo then lo else if ltb hi x then hi else x.
End F32.

(** One row of a [(NUM_LEDS_TOTAL, 3)] array. *)
Definition rgb32 : Type := (F32.t * F32.t * F32.t)%type.
Definition rgb8 : Type := (Z * Z * Z)%type.

Definition rgb_map (f : F32.t -> F32.t) (c : rgb32) : rgb32 :=
  let '(r, g, b) := c in (f r, f g, f b).
Definition rgb_map2 (f : F32.t -> F32.t -> F32.t) (c d : rgb32) : rgb32 :=
  let '(r, g, b) := c in let '(r', g', b') := d in (f r r', f g g', f b b').

(** ** Screen shots and slices *)

(** A pixel of [shot.raw]: the four bytes B, G, R, A. *)
Definition pixel : Type := (Z * Z * Z * Z)%type.
(** [np.frombuffer(shot.raw, np.uint8).reshape(shot.height, shot.width, 4)] *)
Definition image : Type := list (list pixel).

Record edge_images : Type := {
  left_img : image;
  top_img : image;
  right_img : image
}.

(** [slice(start, stop, step)] with an optional start and stop and a positive
    step, the only slices the programs build ([y:y+seg] has step 1,
    [slice(y, y+seg, ds)] has step [DOWNSAMPLE], [:] is
    [slice(None, None, 1)]). *)
Record slice : Type := {
  start : option Z;
  stop : option Z;
  step : Z
}.

(** [slice.indices(len)] for a positive step: a negative bound counts from the
    end, then both bounds are clamped to [0, len]. *)
Definition slice_bound (b : option Z) (default len : Z) : Z :=
  match b with
  | None => default
  | Some v => if v <? 0 then Z.max (v + len) 0 else Z.min v len
  end.

Definition slice_indices (s : slice) (len : Z) : list Z :=
  let lo := slice_bound (start s) 0 len in
  let hi := slice_bound (stop s) len len in
  map (fun k => lo + k * step s) (py_range ((hi - lo + step s - 1) / step s)).

(** [l[s]] *)
Definition py_slice {A} (l : list A) (s : slice) : list A :=
  omap (fun i => l !! Z.to_nat i) (slice_indices s (Z.of_nat (length l))).

(** [img[ys, xs, :3]] *)
Definition img_slice (img : image) (ys xs : slice) : image :=
  map (fun row => py_slice row xs) (py_slice img ys).

(** [a.mean()] of a [uint8] array: numpy accumulates in [float64] and
    divides by the number of items; the sum of bytes is exact in binary64 below
    2^53, so it is the integer sum. An empty array gives 0/0 = NaN. *)
Definition mean_u8 (vals : list Z) : F64.t :=
  F64.div (F64.of_Z (fold_right Z.add 0 vals)) (F64.of_Z (Z.of_nat (length vals))).

(** [segment[:, :, [2,1,0]].mean(axis=(0,1))] stored into a row of the
    [float32] array [colors]: the means of the R, G and B bytes (channels 2,
    1, 0 of the B,G,R,A pixel), rounded to [float32] by the assignment. *)
Definition segment_mean (segment : image) : rgb32 :=
  let px := concat segment in
  (F32.of_f64 (mean_u8 (map (fun '(b, g, r, a) => r) px)),
   F32.of_f64 (mean_u8 (map (fun '(b, g, r, a) => g) px)),
   F32.of_f64 (mean_u8 (map (fun '(b, g, r, a) => b) px))).

(** [for x in xs: body], threading the loop state and stopping at the first
    exception. *)
Fixpoint for_each {S X} (xs : list X) (body : S -> X -> result S) (s : S) : result S :=
  match xs with
  | [] => Ok s
  | x :: xs' => let* s' := body s x in for_each xs' body s'
  end.

(** [enumerate(l)] *)
Definition enumerate {X} (l : list X) : list (Z * X) :=
  imap (fun i x => (Z.of_nat i, x)) l.

(** A monitor of [mss().monitors]: entry 0 is the union of all monitors,
    entries 1.. are the physical monitors. *)
Record monitor : Type := {
  mon_left : Z;
  mon_top : Z;
  mon_width : Z;
  mon_height : Z
}.

(** A capture rectangle, the dict with keys 'left', 'top', 'width', 'height'. *)
Record region : Type := {
  reg_left : Z;
  reg_top : Z;
  reg_width : Z;
  reg_height : Z
}.

(** ** [class ScreenCapture] ([ambilight pro.py], lines 93-183) *)

Module ScreenCapture.

(** [self.regions], a dict with the three constant keys 'left', 'top', 'right'. *)
Record regions_t : Type := {
  left : region;
  top : region;
  right : region
}.

Record t : Type := {
  width : Z;
  height : Z;
  regions : regions_t;
  left_slices : list (slice * slice);
  top_slices : list (slice * slice);
  right_slices : list (slice * slice)
}.

(** [_setup_monitor(self, monitor_num)]: the monitor chosen from
    [self.sct.monitors], and the three capture regions. *)
Definition _setup_monitor (monitors : list monitor) (monitor_num : Z)
  : result (monitor * regions_t) :=
  let idx := Z.min (monitor_num + 1) (Z.of_nat (length monitors) - 1) in
  let* mon := py_getitem monitors idx in
  let d := CAPTURE_DEPTH in
  Ok (mon,
      {| left := {| reg_left := mon_left mon; reg_top := mon_top mon;
                    reg_width := d; reg_height := mon_height mon |};
         top := {| reg_left := mon_left mon; reg_top := mon_top mon;
                   reg_width := mon_width mon; reg_height := d |};
         right := {| reg_left := mon_left mon + mon_width mon - d; reg_top := mon_top mon;
                     reg_width := d; reg_height := mon_height mon |} |}).

(** [_precompute_indices(self)]: the (y slice, x slice) pair of every LED. *)
Definition _precompute_indices (width height : Z)
  : list (slice * slice) * list (slice * slice) * list (slice * slice) :=
  let v_seg := height / NUM_LEDS_LEFT in
  let h_seg := width / NUM_LEDS_TOP in
  let ds := DOWNSAMPLE in
  let all := {| start := None; stop := None; step := ds |} in
  let left_slices :=
    map (fun i => let y := height - (i + 1) * v_seg in
                  ({| start := Some y; stop := Some (y + v_seg); step := ds |}, all))
        (py_range NUM_LEDS_LEFT) in
  let top_slices :=
    map (fun i => let x := i * h_seg in
                  (all, {| start := Some x; stop := Some (x + h_seg); step := ds |}))
        (py_range NUM_LEDS_TOP) in
  let right_slices :=
    map (fun i => let y := i * v_seg in
                  ({| start := Some y; stop := Some (y + v_seg); step := ds |}, all))
        (py_range NUM_LEDS_RIGHT) in
  (left_slices, top_slices, right_slices).

(** [__init__(self, monitor_num)] *)
Definition __init__ (monitors : list monitor) (monitor_num : Z) : result t :=
  let* (mon, regs) := _setup_monitor monitors monitor_num in
  let '(ls, ts, rs) := _precompute_indices (mon_width mon) (mon_height mon) in
  Ok {| width := mon_width mon; height := mon_height mon; regions := regs;
        left_slices := ls; top_slices := ts; right_slices := rs |}.

(** [sample_colors_vectorized(self, left_img, top_img, right_img)].
    [uninit] is the content of the array [np.empty((NUM_LEDS_TOTAL, 3))]
    returns, which is arbitrary. *)
Definition sample_colors_vectorized (self : t) (uninit : Z -> rgb32)
    (imgs : edge_images) : result (list rgb32) :=
  let colors := map uninit (py_range NUM_LEDS_TOTAL) in
  let* colors :=
    for_each (enumerate (left_slices self))
      (fun colors '(i, (ys, xs)) =>
         py_setitem colors i (segment_mean (img_slice (left_img imgs) ys xs)))
      colors in
  let base := NUM_LEDS_LEFT in
  let* colors :=
    for_each (enumerate (top_slices self))
      (fun colors '(i, (ys, xs)) =>
         py_setitem colors (base + i) (segment_mean (img_slice (top_img imgs) ys xs)))
      colors in
  let base := NUM_LEDS_LEFT + NUM_LEDS_TOP in
  let* colors :=
    for_each (enumerate (right_slices self))
      (fun colors '(i, (ys, xs)) =>
         py_setitem colors (base + i) (segment_mean (img_slice (right_img imgs) ys xs)))
      colors in
  Ok colors.

End ScreenCapture.

(** ** [class ColorProcessor] ([ambilight pro.py], lines 186-220) *)

(** The saturation step on one row: [gray = colors.mean(axis=1)] is the
    [float32] sum of the three channels divided by 3, then
    [gray + (colors - gray) * saturation] with the Python float rounded to
    [float32]. *)
Definition gray_of (c : rgb32) : F32.t :=
  let '(r, g, b) := c in F32.div (F32.add (F32.add r g) b) (F32.of_Z 3).

Definition saturate (saturation : F64.t) (c : rgb32) : rgb32 :=
  let gray := gray_of c in
  rgb_map (fun x => F32.add gray (F32.mul (F32.sub x gray) (F32.of_f64 saturation))) c.

(** [colors *= brightness] on one row. *)
Definition brighten (brightness : F64.t) (c : rgb32) : rgb32 :=
  rgb_map (fun x => F32.mul x (F32.of_f64 brightness)) c.

(** The saturation and brightness steps, each skipped when its factor is 1.0. *)
Definition adjust (saturation brightness : F64.t) (colors : list rgb32) : list rgb32 :=
  let colors :=
    if negb (F64.eqb saturation F64.one) then map (saturate saturation) colors
    else colors in
  if negb (F64.eqb brightness F64.one) then map (brighten brightness) colors
  else colors.

(** [np.clip(colors, 0, 255, out=colors)] *)
Definition clip_row (c : rgb32) : rgb32 :=
  rgb_map (fun x => F32.clip x (F32.of_Z 0) (F32.of_Z 255)) c.

(** [colors.astype(np.uint8)] *)
Definition astype_uint8 (c : rgb32) : rgb8 :=
  let '(r, g, b) := c in (F32.to_uint8 r, F32.to_uint8 g, F32.to_uint8 b).

Module ColorProcessor.

Record t : Type := {
  brightness : F64.t;
  saturation : F64.t;
  smoothing : F64.t;
  prev_colors : option (list rgb32);   (* None until the first frame *)
  output : list rgb8
}.

Definition __init__ (brightness saturation smoothing : F64.t) : t :=
  {| brightness := brightness; saturation := saturation; smoothing := smoothing;
     prev_colors := None;
     output := map (fun _ => (0, 0, 0)) (py_range NUM_LEDS_TOTAL) |}.

(** [prev + alpha * (colors - prev)] on one row. *)
Definition ema (alpha : F64.t) (prev cur : rgb32) : rgb32 :=
  rgb_map2 (fun p c => F32.add p (F32.mul (F32.of_f64 alpha) (F32.sub c p))) prev cur.

(** [process(self, colors)]: the returned array (which is [self.output]) and
    the processor afterwards. All the arrays have [NUM_LEDS_TOTAL] rows, so
    numpy's element-wise operations are [map] and [zip_with]. The in-place
    steps write the caller's array, the copy [RingBuffer.get] made, which
    nothing reads again. *)
Definition process (self : t) (colors : list rgb32) : list rgb8 * t :=
  let colors := adjust (saturation self) (brightness self) colors in
  let '(colors, prev') :=
    match prev_colors self with
    | None => (colors, colors)
    | Some prev =>
        let colors := zip_with (ema (smoothing self)) prev colors in
        (colors, colors)
    end in
  let colors := map clip_row colors in
  let out := map astype_uint8 colors in
  (out,
   {| brightness := brightness self; saturation := saturation self;
      smoothing := smoothing self; prev_colors := Some prev'; output := out |}).

End ColorProcessor.

(** ** The outside world and a state-and-error monad

    The serial ports, the monitors and the Arduino are outside the program.
    [world] holds what the program can observe of them and a log of what it
    did to them. Python objects live on the heap and survive an exception, so
    stateful code is modelled in a monad that keeps the state when it raises. *)

Record port_info : Type := {
  device : string;
  description : string
}.

Inductive event : Type :=
  | EvListPorts                (* the ports were enumerated to be printed *)
  | EvAutoDetect               (* the ports were enumerated to pick one *)
  | EvOpen (port : string)     (* serial.Serial(port, BAUD_RATE, timeout=1) was called *)
  | EvWrite (data : list Z)    (* serial.write(data) returned *)
  | EvClose.                   (* serial.close() *)

Record world : Type := {
  monitors : list monitor;     (* mss.mss().monitors *)
  comports : list port_info;   (* serial.tools.list_ports.comports() *)
  openable : string -> bool;   (* does opening the port (and the handshake
                                  that follows) go through without an exception *)
  faults : list (option exn);  (* the outcome of the coming serial writes:
                                  [None] succeeds, [Some e] raises [e];
                                  writes beyond the list succeed *)
  log : list event             (* in order of occurrence *)
}.

Definition set_log (w : world) (l : list event) : world :=
  {| monitors := monitors w; comports := comports w; openable := openable w;
     faults := faults w; log := l |}.
Definition set_faults (w : world) (f : list (option exn)) : world :=
  {| monitors := monitors w; comports := comports w; openable := openable w;
     faults := f; log := log w |}.

Definition M (S A : Type) : Type := S -> result A * S.

Definition ret {S A} (a : A) : M S A := fun s => (Ok a, s).
Definition raise {S A} (e : exn) : M S A := fun s => (Raise e, s).
Definition bindM {S A B} (m : M S A) (k : A -> M S B) : M S B :=
  fun s => match m s with
           | (Ok a, s') => k a s'
           | (Raise e, s') => (Raise e, s')
           end.
Definition get_state {S} : M S S := fun s => (Ok s, s).
Definition modify {S} (f : S -> S) : M S unit := fun s => (Ok tt, f s).
Definition lift_result {S A} (r : result A) : M S A := fun s => (r, s).

Notation "'do!' x ':=' m 'in' k" := (bindM m (fun x => k))
  (at level 10, x pattern, m at level 100, k at level 200).

(** [try: body except: handler] (bare [except:], every exception is caught). *)
Definition try_exceptM {S A} (body : M S A) (handler : exn -> M S A) : M S A :=
  fun s => match body s with
           | (Ok a, s') => (Ok a, s')
           | (Raise e, s') => handler e s'
           end.

(** Run a computation on the world inside a computation on an object and the
    world. *)
Definition in_world {T A} (m : M world A) : M (T * world) A :=
  fun '(self, w) => match m w with (r, w') => (r, (self, w')) end.
Definition get_self {T} : M (T * world) T := fun '(self, w) => (Ok self, (self, w)).
Definition set_self {T} (self : T) : M (T * world) unit := fun '(_, w) => (Ok tt, (self, w)).

Definition emit (e : event) : M world unit :=
  modify (fun w => set_log w (log w ++ [e])).

(** [serial.write(data)] *)
Definition serial_write (data : list Z) : M world unit :=
  fun w => match faults w with
           | Some e :: rest => (Raise e, set_faults w rest)
           | None :: rest => emit (EvWrite data) (set_faults w rest)
           | [] => emit (EvWrite data) w
           end.

(** The value a Python function hands back. *)
Inductive pyret : Type :=
  | PyNone
  | PyBool (b : bool).

(** Truth value of an object in [if] and [not]. *)
Definition truthy (r : pyret) : bool :=
  match r with
  | PyNone => false
  | PyBool b => b
  end.

(** [ord(c)] *)
Definition ord (c : ascii) : Z := Z.of_N (N_of_ascii c).

(** The Adalight header built in both [__init__]s. *)
Definition build_header : list Z :=
  let count := NUM_LEDS_TOTAL - 1 in
  let hi := Z.land (Z.shiftr count 8) 255 in
  let lo := Z.land count 255 in
  [ord "A"; ord "d"; ord "a"; hi; lo; Z.lxor (Z.lxor hi lo) 85].

(** [colors.tobytes()] of a [(n, 3)] [uint8] array, row by row. *)
Definition tobytes (colors : list rgb8) : list Z :=
  flat_map (fun '(r, g, b) => [r; g; b]) colors.

(** [np.zeros((NUM_LEDS_TOTAL, 3), dtype=np.uint8)] *)
Definition zeros_uint8 : list rgb8 := map (fun _ => (0, 0, 0)) (py_range NUM_LEDS_TOTAL).
(** [np.zeros((NUM_LEDS_TOTAL, 3), dtype=np.float32)] *)
Definition zeros_float32 : list rgb32 :=
  map (fun _ => (F32.of_Z 0, F32.of_Z 0, F32.of_Z 0)) (py_range NUM_LEDS_TOTAL).

(** [k in s] on strings: [k] occurs in [s] as a substring. *)
Fixpoint py_in (k s : string) : bool :=
  String.prefix k s ||
  match s with
  | EmptyString => false
  | String _ s' => py_in k s'
  end.

(** The [serial.Serial] object. *)
Record Serial : Type := {
  port : string;
  is_open : bool
}.

(** [serial.Serial(port, BAUD_RATE, timeout=1)] and the wait for the 'Ada'
    handshake line, which only chooses between two messages. *)
Definition open_serial (p : string) : M world Serial :=
  do! _ := emit (EvOpen p) in
  do! w := get_state in
  if openable w p then ret {| port := p; is_open := true |}
  else raise SerialException.

(** ** [class SerialSender] ([ambilight pro.py], lines 223-293) *)

Module SerialSender.

Record t : Type := {
  serial : Serial;
  header : list Z
}.

Definition keywords : list string :=
  ["Arduino"; "CH340"; "USB-SERIAL"; "ttyUSB"; "ttyACM"]%string.

Definition matches (p : port_info) : bool :=
  existsb (fun k => py_in k (description p) || py_in k (device p)) keywords.

Definition _auto_detect : M world string :=
  do! _ := emit EvAutoDetect in
  do! w := get_state in
  let ports := comports w in
  match find matches ports with
  | Some p => ret (device p)
  | None =>
      match ports with
      | p :: _ => ret (device p)
      | [] => raise (SystemExit 1)
      end
  end.

Definition _connect (port : option string) : M world Serial :=
  do! port := match port with
              | None => _auto_detect
              | Some p => ret p
              end in
  try_exceptM (open_serial port)
    (fun e => match e with
              | KeyboardInterrupt | SystemExit _ => raise e   (* not an [Exception] *)
              | _ => do! _ := emit EvListPorts in raise (SystemExit 1)
              end).

Definition __init__ (port : option string) : M world t :=
  do! ser := _connect port in
  ret {| serial := ser; header := build_header |}.

Definition send (self : t) (colors : list rgb8) : M world pyret :=
  try_exceptM
    (do! _ := serial_write (header self ++ tobytes colors) in ret (PyBool true))
    (fun _ => ret (PyBool false)).

(** [close(self)]: the sender afterwards. [ctrl_c] says whether Ctrl+C
    arrives during [time.sleep(0.05)], between the black frame and
    [serial.close()]. *)
Definition close (ctrl_c : bool) (self : t) : M world t :=
  if is_open (serial self) then
    let black := zeros_uint8 in
    do! _ := send self black in
    if ctrl_c then raise KeyboardInterrupt
    else
      do! _ := emit EvClose in
      ret {| serial := {| port := port (serial self); is_open := false |};
             header := header self |}
  else ret self.

End SerialSender.

(** ** Command line ([main] of both programs)

    [argparse] is outside the program; [cli] is what it found on the command
    line, option by option, already converted ([type=str], [type=int],
    [type=float]). [parse_args] fills in the [default=] of every
    [add_argument]. *)

Record cli : Type := {
  cli_port : option string;
  cli_monitor : option Z;
  cli_fps : option Z;
  cli_brightness : option Z;
  cli_saturation : option F64.t;
  cli_smoothing : option F64.t;
  cli_list_ports : bool
}.

Record args : Type := {
  arg_port : string;
  arg_monitor : Z;
  arg_fps : Z;
  arg_brightness : Z;
  arg_saturation : F64.t;
  arg_smoothing : F64.t;
  arg_list_ports : bool
}.

Definition parse_args (c : cli) : args :=
  {| arg_port := default "COM3"%string (cli_port c);
     arg_monitor := default 0 (cli_monitor c);
     arg_fps := default 30 (cli_fps c);
     arg_brightness := default 255 (cli_brightness c);
     arg_saturation := default (F64.of_ratio 12 10) (cli_saturation c);
     arg_smoothing := default (F64.of_ratio 6 10) (cli_smoothing c);
     arg_list_ports := cli_list_ports c |}.

(** [list_ports()], and the same loop written out in [main] of
    [ambilight.py]. *)
Definition list_ports : M world unit := emit EvListPorts.

(** How a modelled main loop stopped. The schedule that drives it is finite;
    [Pending] says it was used up with the loop still running. The pacing
    sleeps, the FPS statistics and the printing of both loops are left out. *)
Inductive exit : Type :=
  | Pending
  | LoopEnded     (* the [while self.running] test failed *)
  | Broke         (* [break] *)
  | Interrupted.  (* [except KeyboardInterrupt] *)

(** Ctrl+C reaches the main thread as a [KeyboardInterrupt] raised at the
    statement it is executing. Inside the loop the [Interrupt] ticks of a
    schedule say between which iterations it arrives. (An iteration
    interrupted before its serial write leaves the outside world as an
    interrupt before the iteration does, one interrupted after the write as
    an interrupt after the iteration; an interrupt during the write itself is
    a fault of that write, see [faults], and the bare [except:] of [send]
    catches it.) Outside the loop, [run] can be interrupted before it enters
    its [try:] and while its [finally:] clause runs [cleanup], at one of
    the points below. A Ctrl+C that arrives earlier, while [__init__] runs,
    is not modelled: what is stated of [__init__] and of the start of [main]
    is stated of a start-up that is not interrupted. *)
Inductive cleanup_point : Type :=
  | BeforeBlack    (* after [self.running = False], before the black frame is
                      written (in [capture_thread.join(timeout=1.0)]) *)
  | BeforeClose    (* in [time.sleep(0.05)], between the black frame and
                      [serial.close()] *)
  | AfterClose.    (* after [serial.close()], in the last [print]; a second
                      Ctrl+C while the [except] clause prints ends the same
                      way, the [finally:] clause running [cleanup] in full *)

(** Before the [try:], [run] has two kinds of statements: the [print]s of its
    banner, and what follows [frame_time = 1.0 / self.target_fps] (nothing in
    [ambilight.py]; the start of the capture thread and [time.sleep(0.1)] in
    [ambilight pro.py]). *)
Inductive entry_point : Type :=
  | AtEntry          (* while the banner is printed, before
                        [self.running = True] *)
  | AfterFrameTime.  (* after [frame_time] is computed, before the [try:] *)

Record signals : Type := {
  before_try : option entry_point;    (* Ctrl+C arrives before [run] enters
                                         its [try:] *)
  in_cleanup : option cleanup_point   (* Ctrl+C arrives while [cleanup] runs *)
}.

(** Ctrl+C arrives, if at all, while the loop runs. *)
Definition no_signals : signals := {| before_try := None; in_cleanup := None |}.

(** [frame_time = 1.0 / self.target_fps], the statement of both [run]s
    between [self.running = True] and the [try:]. *)
Definition frame_time (target_fps : Z) : result F64.t :=
  py_truediv_float_int F64.one target_fps.

(** ** [class AmbilightPro] ([ambilight pro.py], lines 296-436) *)

Module AmbilightPro.

Record t : Type := {
  target_fps : Z;
  running : bool;
  capture : ScreenCapture.t;
  processor : ColorProcessor.t;
  sender : SerialSender.t;
  color_buffer : RingBuffer.t (list rgb32);
  capture_alive : bool     (* the capture thread has not died of an exception *)
}.

Definition set_running (self : t) (b : bool) : t :=
  {| target_fps := target_fps self; running := b; capture := capture self;
     processor := processor self; sender := sender self;
     color_buffer := color_buffer self; capture_alive := capture_alive self |}.
Definition set_processor (self : t) (p : ColorProcessor.t) : t :=
  {| target_fps := target_fps self; running := running self; capture := capture self;
     processor := p; sender := sender self;
     color_buffer := color_buffer self; capture_alive := capture_alive self |}.
Definition set_sender (self : t) (s : SerialSender.t) : t :=
  {| target_fps := target_fps self; running := running self; capture := capture self;
     processor := processor self; sender := s;
     color_buffer := color_buffer self; capture_alive := capture_alive self |}.
Definition set_color_buffer (self : t) (rb : RingBuffer.t (list rgb32)) : t :=
  {| target_fps := target_fps self; running := running self; capture := capture self;
     processor := processor self; sender := sender self;
     color_buffer := rb; capture_alive := capture_alive self |}.
Definition set_capture_alive (self : t) (b : bool) : t :=
  {| target_fps := target_fps self; running := running self; capture := capture self;
     processor := processor self; sender := sender self;
     color_buffer := color_buffer self; capture_alive := b |}.

(** [__init__]: [ScreenCapture(monitor)] comes first, then
    [brightness / 255.0], an argument of [ColorProcessor(...)], then
    [SerialSender(port)]. *)
Definition __init__ (port : option string) (monitor fps brightness : Z)
    (saturation smoothing : F64.t) : M world t :=
  do! w := get_state in
  do! cap := lift_result (ScreenCapture.__init__ (monitors w) monitor) in
  do! brightness := lift_result (py_truediv_int_float brightness (F64.of_Z 255)) in
  let proc := ColorProcessor.__init__ brightness saturation smoothing in
  do! snd := SerialSender.__init__ port in
  ret {| target_fps := Z.min fps 60;
         running := false;
         capture := cap;
         processor := proc;
         sender := snd;
         color_buffer := RingBuffer.__init__ BUFFER_SIZE zeros_float32;
         capture_alive := true |}.

(** What the two threads do, at the grain of the operations on the ring
    buffer, which its lock makes atomic; everything else an iteration
    touches belongs to one thread only. *)
Inductive tick : Type :=
  | Capture (uninit : Z -> rgb32) (imgs : edge_images)
      (* one iteration of [_capture_loop] that grabbed [imgs] *)
  | Consume
      (* one iteration of the [while] loop of [run] *)
  | Interrupt.
      (* Ctrl+C reaches the main thread between two iterations *)

(** One iteration of [_capture_loop]: sample and [put]. An exception ends
    the capture thread only. *)
Definition capture_step (self : t) (uninit : Z -> rgb32) (imgs : edge_images) : t :=
  if running self && capture_alive self then
    match (let* colors := ScreenCapture.sample_colors_vectorized (capture self) uninit imgs in
           RingBuffer.put (color_buffer self) colors) with
    | Ok rb => set_color_buffer self rb
    | Raise _ => set_capture_alive self false
    end
  else self.

(** One iteration of the [while self.running] loop of [run]: [true] to go
    on with the next iteration, [false] after [break]. *)
Definition consume : M (t * world) bool :=
  do! self := get_self in
  do! (colors, rb) := lift_result (RingBuffer.get (color_buffer self)) in
  do! _ := set_self (set_color_buffer self rb) in
  match colors with
  | None => ret true                                  (* sleep, [continue] *)
  | Some colors =>
      do! self := get_self in
      let '(output, proc) := ColorProcessor.process (processor self) colors in
      do! _ := set_self (set_processor self proc) in
      do! sent := in_world (SerialSender.send (sender self) output) in
      if negb (truthy sent) then ret false            (* "Serial error!", [break] *)
      else ret true
  end.

Fixpoint loop (sched : list tick) : M (t * world) exit :=
  do! self := get_self in
  if negb (running self) then ret LoopEnded
  else
    match sched with
    | [] => ret Pending
    | Capture uninit imgs :: rest =>
        do! _ := set_self (capture_step self uninit imgs) in loop rest
    | Interrupt :: _ => raise KeyboardInterrupt
    | Consume :: rest =>
        do! go_on := consume in
        if go_on then loop rest else ret Broke
    end.

(** [cleanup(self)], with the point at which Ctrl+C arrives while it runs,
    if it does. *)
Definition cleanup (ctrl_c : option cleanup_point) : M (t * world) unit :=
  do! self := get_self in
  do! _ := set_self (set_running self false) in
  match ctrl_c with
  | Some BeforeBlack => raise KeyboardInterrupt
  | _ =>
      do! self := get_self in
      do! snd := in_world (SerialSender.close
                             (match ctrl_c with Some BeforeClose => true | _ => false end)
                             (sender self)) in
      do! _ := set_self (set_sender self snd) in
      match ctrl_c with
      | Some AfterClose => raise KeyboardInterrupt
      | _ => ret tt
      end
  end.

(** [run(self)]. After the banner, [running] is set, [frame_time] is
    computed, the capture thread started, and after [time.sleep(0.1)] the
    loop runs, while the schedule lasts
    ([Pending] when it is used up first), inside [try: ... except
    KeyboardInterrupt: ... finally: self.cleanup()]. The captures made during
    the first sleep are the [Capture] ticks the schedule starts with. *)
Definition run (sig : signals) (sched : list tick) : M (t * world) exit :=
  match before_try sig with
  | Some AtEntry => raise KeyboardInterrupt
  | ctrl_c =>
      do! self := get_self in
      do! _ := set_self (set_running self true) in
      do! frame_time := lift_result (frame_time (target_fps self)) in
      match ctrl_c with
      | Some _ => raise KeyboardInterrupt
      | None =>
          fun s =>
            match loop sched s with
            | (Ok Pending, s') => (Ok Pending, s')
            | (Ok e, s') => (do! _ := cleanup (in_cleanup sig) in ret e) s'
            | (Raise KeyboardInterrupt, s') =>
                (do! _ := cleanup (in_cleanup sig) in ret Interrupted) s'
            | (Raise e, s') => (do! _ := cleanup (in_cleanup sig) in raise e) s'
            end
      end
  end.

(** [main()]. [args.port] is a [str], the one given or the default, so the
    controller is never built with [port=None]. [set_process_priority()]
    changes the priority of the process only. *)
Definition main (c : cli) (sig : signals) (sched : list tick) : M world unit :=
  let a := parse_args c in
  if arg_list_ports a then list_ports
  else
    do! app := __init__ (Some (arg_port a)) (arg_monitor a) (arg_fps a)
                        (arg_brightness a) (arg_saturation a) (arg_smoothing a) in
    fun w => match run sig sched (app, w) with
             | (Ok _, (_, w')) => (Ok tt, w')
             | (Raise e, (_, w')) => (Raise e, w')
             end.

End AmbilightPro.

(** ** [class Ambilight] ([ambilight.py], lines 52-266) *)

Module Ambilight.

Record t : Type := {
  monitor_num : Z;
  target_fps : Z;
  brightness : F64.t;
  saturation : F64.t;
  smoothing : F64.t;
  running : bool;
  width : Z;
  height : Z;
  left_region : region;
  top_region : region;
  right_region : region;
  v_seg : Z;
  h_seg : Z;
  serial : Serial;
  prev_colors : list rgb32;
  colors : list rgb32;
  output : list rgb8;
  first_frame : bool;
  header : list Z
}.

Definition set_running (self : t) (b : bool) : t :=
  {| monitor_num := monitor_num self; target_fps := target_fps self;
     brightness := brightness self; saturation := saturation self;
     smoothing := smoothing self; running := b;
     width := width self; height := height self;
     left_region := left_region self; top_region := top_region self;
     right_region := right_region self; v_seg := v_seg self; h_seg := h_seg self;
     serial := serial self; prev_colors := prev_colors self; colors := colors self;
     output := output self; first_frame := first_frame self;
     header := header self |}.
Definition set_serial (self : t) (s : Serial) : t :=
  {| monitor_num := monitor_num self; target_fps := target_fps self;
     brightness := brightness self; saturation := saturation self;
     smoothing := smoothing self; running := running self;
     width := width self; height := height self;
     left_region := left_region self; top_region := top_region self;
     right_region := right_region self; v_seg := v_seg self; h_seg := h_seg self;
     serial := s; prev_colors := prev_colors self; colors := colors self;
     output := output self; first_frame := first_frame self;
     header := header self |}.
Definition set_colors (self : t) (c : list rgb32) : t :=
  {| monitor_num := monitor_num self; target_fps := target_fps self;
     brightness := brightness self; saturation := saturation self;
     smoothing := smoothing self; running := running self;
     width := width self; height := height self;
     left_region := left_region self; top_region := top_region self;
     right_region := right_region self; v_seg := v_seg self; h_seg := h_seg self;
     serial := serial self; prev_colors := prev_colors self; colors := c;
     output := output self; first_frame := first_frame self;
     header := header self |}.
(** The fields [process_colors] assigns. *)
Definition set_processed (self : t) (prev cols : list rgb32) (out : list rgb8) : t :=
  {| monitor_num := monitor_num self; target_fps := target_fps self;
     brightness := brightness self; saturation := saturation self;
     smoothing := smoothing self; running := running self;
     width := width self; height := height self;
     left_region := left_region self; top_region := top_region self;
     right_region := right_region self; v_seg := v_seg self; h_seg := h_seg self;
     serial := serial self; prev_colors := prev; colors := cols;
     output := out; first_frame := false;
     header := header self |}.
(** [_setup_monitor(self)]: the monitor chosen from [self.sct.monitors]. *)
Definition _setup_monitor (monitors : list monitor) (monitor_num : Z) : result monitor :=
  let idx := Z.min (monitor_num + 1) (Z.of_nat (length monitors) - 1) in
  py_getitem monitors idx.

Definition keywords : list string :=
  ["Arduino"; "CH340"; "USB-SERIAL"; "USB Serial"]%string.

Definition matches (p : port_info) : bool :=
  existsb (fun k => py_in k (description p)) keywords.

(** The [if port is None:] block of [connect_serial]. *)
Definition auto_detect : M world string :=
  do! _ := emit EvAutoDetect in
  do! w := get_state in
  let ports := comports w in
  let port := match find matches ports with
              | Some p => Some (device p)
              | None => None
              end in
  let port := match port, ports with
              | None, p :: _ => Some (device p)
              | _, _ => port
              end in
  match port with
  | None => raise (SystemExit 1)
  | Some p => ret p
  end.

(** [connect_serial(self, port=None)] *)
Definition connect_serial (port : option string) : M world Serial :=
  do! port := match port with
              | None => auto_detect
              | Some p => ret p
              end in
  try_exceptM (open_serial port)
    (fun e => match e with
              | SerialException => raise (SystemExit 1)
              | _ => raise e
              end).

(** The object [__init__] builds once [brightness / 255.0] is computed
    ([brightness] here), the monitor [mon] is chosen and the serial port
    [ser] is open. *)
Definition make (mon : monitor) (ser : Serial) (monitor fps : Z)
    (brightness saturation smoothing : F64.t) : t :=
  let d := Z.min CAPTURE_DEPTH 50 in
     {| monitor_num := monitor;
         target_fps := Z.min fps 60;
         brightness := brightness;
         saturation := saturation;
         smoothing := smoothing;
         running := false;
         width := mon_width mon;
         height := mon_height mon;
         left_region := {| reg_left := mon_left mon; reg_top := mon_top mon;
                           reg_width := d; reg_height := mon_height mon |};
         top_region := {| reg_left := mon_left mon; reg_top := mon_top mon;
                          reg_width := mon_width mon; reg_height := d |};
         right_region := {| reg_left := mon_left mon + mon_width mon - d;
                            reg_top := mon_top mon;
                            reg_width := d; reg_height := mon_height mon |};
         v_seg := mon_height mon / NUM_LEDS_LEFT;
         h_seg := mon_width mon / NUM_LEDS_TOP;
         serial := ser;
         prev_colors := zeros_float32;
         colors := zeros_float32;
         output := zeros_uint8;
         first_frame := true;
         header := build_header |}.

(** [__init__]: [self.brightness = brightness / 255.0] (line 58) comes before
    [self._setup_monitor()] and [self.connect_serial(port)]. *)
Definition __init__ (port : option string) (monitor fps brightness : Z)
    (saturation smoothing : F64.t) : M world t :=
  do! brightness := lift_result (py_truediv_int_float brightness (F64.of_Z 255)) in
  do! w := get_state in
  do! mon := lift_result (_setup_monitor (monitors w) monitor) in
  do! ser := connect_serial port in
  ret (make mon ser monitor fps brightness saturation smoothing).

Definition all : slice := {| start := None; stop := None; step := 1 |}.
Definition rows (y seg : Z) : slice :=
  {| start := Some y; stop := Some (y + seg); step := 1 |}.

(** The slices [img[y:y+seg_h, :]] and [img[:, x:x+seg_w]] of the three loops
    of [capture_and_sample], LED by LED. *)
Definition left_slices (self : t) : list (slice * slice) :=
  map (fun i => (rows (height self - (i + 1) * v_seg self) (v_seg self), all))
      (py_range NUM_LEDS_LEFT).
Definition top_slices (self : t) : list (slice * slice) :=
  map (fun i => (all, rows (i * h_seg self) (h_seg self))) (py_range NUM_LEDS_TOP).
Definition right_slices (self : t) : list (slice * slice) :=
  map (fun i => (rows (i * v_seg self) (v_seg self), all)) (py_range NUM_LEDS_RIGHT).

(** [capture_and_sample(self)] on the three grabbed images: the array
    returned, which is [self.colors] written in place. *)
Definition capture_and_sample (self : t) (imgs : edge_images) : result (list rgb32) :=
  let colors := colors self in
  let seg_h := v_seg self in
  let* colors :=
    for_each (py_range NUM_LEDS_LEFT)
      (fun colors i =>
         let y := height self - (i + 1) * seg_h in
         py_setitem colors i (segment_mean (img_slice (left_img imgs) (rows y seg_h) all)))
      colors in
  let seg_w := h_seg self in
  let idx := NUM_LEDS_LEFT in
  let* colors :=
    for_each (py_range NUM_LEDS_TOP)
      (fun colors i =>
         let x := i * seg_w in
         py_setitem colors (idx + i)
           (segment_mean (img_slice (top_img imgs) all (rows x seg_w))))
      colors in
  let idx := NUM_LEDS_LEFT + NUM_LEDS_TOP in
  let* colors :=
    for_each (py_range NUM_LEDS_RIGHT)
      (fun colors i =>
         let y := i * seg_h in
         py_setitem colors (idx + i)
           (segment_mean (img_slice (right_img imgs) (rows y seg_h) all)))
      colors in
  Ok colors.

(** [prev * (1 - alpha) + colors * alpha] on one row; [1 - alpha] is computed
    by Python in binary64. *)
Definition blend (alpha : F64.t) (prev cur : rgb32) : rgb32 :=
  rgb_map2 (fun p c => F32.add (F32.mul p (F32.of_f64 (F64.sub F64.one alpha)))
                               (F32.mul c (F32.of_f64 alpha))) prev cur.

(** [process_colors(self, colors)] called, as [run] does, on [self.colors],
    the array [capture_and_sample] returned. The local name [colors] stays
    an alias of [self.colors] until an assignment rebinds it, and the
    in-place operations ([*=], [np.clip(..., out=colors)]) then write
    [self.colors] too. Returns [self.output]. *)
Definition process_colors (self : t) : list rgb8 * t :=
  let sat := negb (F64.eqb (saturation self) F64.one) in
  let colors := adjust (saturation self) (brightness self) (colors self) in
  let self_colors := if sat then Ambilight.colors self else colors in
  let '(colors, prev, alias) :=
    if first_frame self then (colors, colors, negb sat)
    else
      let colors := zip_with (blend (smoothing self)) (prev_colors self) colors in
      (colors, colors, false) in
  let colors := map clip_row colors in
  let self_colors := if alias then colors else self_colors in
  let out := map astype_uint8 colors in
  (out, set_processed self prev self_colors out).

(** [send(self, colors)]; no [return] statement, so the call evaluates to
    [None]. *)
Definition send (colors : list rgb8) : M (t * world) pyret :=
  do! self := get_self in
  do! _ := try_exceptM
             (in_world (serial_write (header self ++ tobytes colors)))
             (fun _ => do! self := get_self in set_self (set_running self false)) in
  ret PyNone.

Inductive tick : Type :=
  | Frame (imgs : edge_images)   (* one iteration, which grabbed [imgs] *)
  | Interrupt.                   (* Ctrl+C between two iterations *)

Fixpoint loop (sched : list tick) : M (t * world) exit :=
  do! self := get_self in
  if negb (running self) then ret LoopEnded
  else
    match sched with
    | [] => ret Pending
    | Interrupt :: _ => raise KeyboardInterrupt
    | Frame imgs :: rest =>
        do! colors := lift_result (capture_and_sample self imgs) in
        do! _ := set_self (set_colors self colors) in
        do! self := get_self in
        let '(out, self) := process_colors self in
        do! _ := set_self self in
        do! _ := send out in
        loop rest
    end.

(** [cleanup(self)], with the point at which Ctrl+C arrives while it runs,
    if it does. *)
Definition cleanup (ctrl_c : option cleanup_point) : M (t * world) unit :=
  do! self := get_self in
  do! _ := set_self (set_running self false) in
  match ctrl_c with
  | Some BeforeBlack => raise KeyboardInterrupt
  | _ =>
      do! self := get_self in
      if is_open (serial self) then
        do! _ := send zeros_uint8 in
        match ctrl_c with
        | Some BeforeClose => raise KeyboardInterrupt
        | _ =>
            do! _ := in_world (emit EvClose) in
            do! self := get_self in
            do! _ := set_self (set_serial self {| port := port (serial self);
                                                  is_open := false |}) in
            match ctrl_c with
            | Some AfterClose => raise KeyboardInterrupt
            | _ => ret tt
            end
        end
      else ret tt
  end.

(** [run(self)]: after the banner, [running] is set and [frame_time] is
    computed, then the loop runs inside
    [try: ... except KeyboardInterrupt: ... finally: self.cleanup()]. *)
Definition run (sig : signals) (sched : list tick) : M (t * world) exit :=
  match before_try sig with
  | Some AtEntry => raise KeyboardInterrupt
  | ctrl_c =>
      do! self := get_self in
      do! _ := set_self (set_running self true) in
      do! frame_time := lift_result (frame_time (target_fps self)) in
      match ctrl_c with
      | Some _ => raise KeyboardInterrupt
      | None =>
          fun s =>
            match loop sched s with
            | (Ok Pending, s') => (Ok Pending, s')
            | (Ok e, s') => (do! _ := cleanup (in_cleanup sig) in ret e) s'
            | (Raise KeyboardInterrupt, s') =>
                (do! _ := cleanup (in_cleanup sig) in ret Interrupted) s'
            | (Raise e, s') => (do! _ := cleanup (in_cleanup sig) in raise e) s'
            end
      end
  end.

(** [main()], as in the other program; [set_low_priority()] changes the
    priority of the process only. *)
Definition main (c : cli) (sig : signals) (sched : list tick) : M world unit :=
  let a := parse_args c in
  if arg_list_ports a then list_ports
  else
    do! app := __init__ (Some (arg_port a)) (arg_monitor a) (arg_fps a)
                        (arg_brightness a) (arg_saturation a) (arg_smoothing a) in
    fun w => match run sig sched (app, w) with
             | (Ok _, (_, w')) => (Ok tt, w')
             | (Raise e, (_, w')) => (Raise e, w')
             end.

End Ambilight.

(** ** Vocabulary of the statements *)

(** The colours of one edge: the mean of every LED's slice of the image. *)
Definition edge_means (img : image) (slices : list (slice * slice)) : list rgb32 :=
  map (fun '(ys, xs) => segment_mean (img_slice img ys xs)) slices.

(** The pixel in row [y] and column [x] of an image, if it has one. *)
Definition pixel_at (img : image) (y x : nat) : option pixel :=
  match img !! y with
  | Some row => row !! x
  | None => None
  end.

(** Pixel [p] of an axis of [len] pixels lies in the range [start, stop) of
    slice [s], its LED's segment, whatever the stride. *)
Definition in_segment (s : slice) (len p : Z) : Prop :=
  slice_bound (start s) 0 len <= p < slice_bound (stop s) len len.

(** The segments [segs] of an axis of [len] pixels do not overlap and cover
    exactly the pixels [lo, hi). *)
Definition partitions (segs : list slice) (len lo hi : Z) : Prop :=
  (forall i j si sj p,
      segs !! i = Some si -> segs !! j = Some sj ->
      in_segment si len p -> in_segment sj len p -> i = j) /\
  (forall p, (exists i si, segs !! i = Some si /\ in_segment si len p) <-> lo <= p < hi).

(** A frame on the wire: the header followed by 3 bytes for each of the 73 LEDs. *)
Definition frame_ok (data : list Z) : Prop :=
  exists payload, data = build_header ++ payload /\ length payload = 219%nat.

(** From [w] to [w'] the program did [evs] to the outside world. *)
Definition did (evs : list event) (w w' : world) : Prop :=
  log w' = log w ++ evs.

(** What a run started from the command line with port [p] may do: list the
    ports, open [p], write well-formed frames, close. *)
Definition allowed (p : string) (e : event) : Prop :=
  match e with
  | EvListPorts | EvClose => True
  | EvAutoDetect => False
  | EvOpen q => q = p
  | EvWrite data => frame_ok data
  end.

(** From [w] to [w'] the program did only what is [allowed] for port [p]. *)
Definition steps (p : string) (w w' : world) : Prop :=
  exists evs, did evs w w' /\ Forall (allowed p) evs.

(** The slices of a [ScreenCapture] are those [_precompute_indices] computes
    from its width and height, as [__init__] leaves them. *)
Definition ScreenCapture_wf (cap : ScreenCapture.t) : Prop :=
  ScreenCapture._precompute_indices (ScreenCapture.width cap) (ScreenCapture.height cap)
  = (ScreenCapture.left_slices cap, ScreenCapture.top_slices cap,
     ScreenCapture.right_slices cap).

Definition rows73 {X} (l : list X) : Prop := length l = 73%nat.

(** The shape invariant of the multithreaded program: every array has
    [NUM_LEDS_TOTAL] rows. *)
Definition AmbilightPro_wf (self : AmbilightPro.t) : Prop :=
  ScreenCapture_wf (AmbilightPro.capture self) /\
  match ColorProcessor.prev_colors (AmbilightPro.processor self) with
  | Some prev => rows73 prev
  | None => True
  end /\
  SerialSender.header (AmbilightPro.sender self) = build_header /\
  RingBuffer.inv (AmbilightPro.color_buffer self) /\
  Forall rows73 (RingBuffer.buffers (AmbilightPro.color_buffer self)).

(** The same for the single-threaded program, with the segment sizes
    [__init__] computes. *)
Definition Ambilight_wf (self : Ambilight.t) : Prop :=
  rows73 (Ambilight.colors self) /\
  rows73 (Ambilight.prev_colors self) /\
  Ambilight.header self = build_header /\
  Ambilight.v_seg self = Ambilight.height self / NUM_LEDS_LEFT /\
  Ambilight.h_seg self = Ambilight.width self / NUM_LEDS_TOP.

(** ** Sample inputs *)

Module Sample.
Definition primary : monitor :=
  {| mon_left := 0; mon_top := 0; mon_width := 1920; mon_height := 1080 |}.
(** One physical monitor: [monitors[0]] is the union of all, [monitors[1]]
    the monitor itself. *)
Definition one_monitor : list monitor := [primary; primary].

Definition second : monitor :=
  {| mon_left := 1920; mon_top := 0; mon_width := 1280; mon_height := 1024 |}.
Definition both : monitor :=
  {| mon_left := 0; mon_top := 0; mon_width := 3200; mon_height := 1080 |}.
Definition two_monitors : list monitor := [both; primary; second].

Definition ftdi : port_info :=
  {| device := "/dev/ttyUSB0"; description := "FT232R USB UART" |}.
Definition uno : port_info :=
  {| device := "/dev/ttyACM0"; description := "Arduino Uno" |}.
Definition builtin : port_info :=
  {| device := "/dev/ttyS0"; description := "n/a" |}.

Definition w0 : world :=
  {| monitors := one_monitor;
     comports := [builtin; uno];
     openable := fun _ => true;
     faults := [];
     log := [] |}.

(** A USB serial adapter enumerated before the Arduino. *)
Definition w_two : world :=
  {| monitors := one_monitor;
     comports := [ftdi; uno];
     openable := fun _ => true;
     faults := [];
     log := [] |}.

(** The same with a serial line that fails at the first write. *)
Definition w_fail : world :=
  {| monitors := one_monitor;
     comports := [builtin; uno];
     openable := fun _ => true;
     faults := [Some SerialException];
     log := [] |}.

Definition com3 : Serial := {| port := "COM3"; is_open := true |}.

Definition no_options : cli :=
  {| cli_port := None; cli_monitor := None; cli_fps := None;
     cli_brightness := None; cli_saturation := None; cli_smoothing := None;
     cli_list_ports := false |}.

(** An all-black screen shot of [h] rows and [w] columns. *)
Definition black (h w : nat) : image := replicate h (replicate w (0, 0, 0, 255)).
Definition imgs : edge_images :=
  {| left_img := black 38 2; top_img := black 2 70; right_img := black 38 2 |}.
(** Some content for an uninitialised array. *)
Definition garbage : Z -> rgb32 := fun _ => (S754_nan, S754_nan, S754_nan).

(** The world once "COM3" has been opened. *)
Definition w1 : world :=
  {| monitors := one_monitor;
     comports := [builtin; uno];
     openable := fun _ => true;
     faults := [];
     log := [EvOpen "COM3"] |}.

(** What [ScreenCapture(0)] is on that monitor. *)
Definition capture : ScreenCapture.t :=
  {| ScreenCapture.width := 1920; ScreenCapture.height := 1080;
     ScreenCapture.regions :=
       {| ScreenCapture.left :=
            {| reg_left := 0; reg_top := 0; reg_width := 30; reg_height := 1080 |};
          ScreenCapture.top :=
            {| reg_left := 0; reg_top := 0; reg_width := 1920; reg_height := 30 |};
          ScreenCapture.right :=
            {| reg_left := 1890; reg_top := 0; reg_width := 30; reg_height := 1080 |} |};
     ScreenCapture.left_slices := (ScreenCapture._precompute_indices 1920 1080).1.1;
     ScreenCapture.top_slices := (ScreenCapture._precompute_indices 1920 1080).1.2;
     ScreenCapture.right_slices := (ScreenCapture._precompute_indices 1920 1080).2 |}.

(** What [AmbilightPro(port="COM3")] is with the defaults of the command
    line. *)
Definition pro : AmbilightPro.t :=
  {| AmbilightPro.target_fps := 30;
     AmbilightPro.running := false;
     AmbilightPro.capture := capture;
     AmbilightPro.processor :=
       ColorProcessor.__init__ (F64.div (F64.of_Z 255) (F64.of_Z 255))
         (F64.of_ratio 12 10) (F64.of_ratio 6 10);
     AmbilightPro.sender := {| SerialSender.serial := com3; SerialSender.header := build_header |};
     AmbilightPro.color_buffer := RingBuffer.__init__ BUFFER_SIZE zeros_float32;
     AmbilightPro.capture_alive := true |}.

(** The same while [run] is looping, with one captured sample waiting in the
    ring buffer. *)
Definition loaded : RingBuffer.t (list rgb32) :=
  {| RingBuffer.size := 3;
     RingBuffer.buffers := [zeros_float32; zeros_float32; zeros_float32];
     RingBuffer.write_idx := 1;
     RingBuffer.read_idx := 0;
     RingBuffer.count := 1 |}.
Definition taken : RingBuffer.t (list rgb32) :=
  {| RingBuffer.size := 3;
     RingBuffer.buffers := [zeros_float32; zeros_float32; zeros_float32];
     RingBuffer.write_idx := 1;
     RingBuffer.read_idx := 1;
     RingBuffer.count := 0 |}.
Definition pro_loaded : AmbilightPro.t :=
  AmbilightPro.set_color_buffer (AmbilightPro.set_running pro true) loaded.

(** What [Ambilight(port="COM3")] is with the same defaults. *)
Definition basic : Ambilight.t :=
  Ambilight.make primary com3 0 30 (F64.div (F64.of_Z 255) (F64.of_Z 255))
    (F64.of_ratio 12 10) (F64.of_ratio 6 10).

(** 73 rows of one colour. *)
Definition solid (r g b : Z) : list rgb32 :=
  map (fun _ => (F32.of_Z r, F32.of_Z g, F32.of_Z b)) (py_range NUM_LEDS_TOTAL).
End Sample.

(** ** Vocabulary of the further properties *)

Section Mailbox.
Context {A : Type}.

(** A mailbox with one slot: a put replaces the content, a get takes it
    out. What its gets return, one after the other. *)
Fixpoint mailbox (slot : option A) (ops : list (RingBuffer.op A)) : list (option A) :=
  match ops with
  | [] => []
  | RingBuffer.Put data :: ops' => mailbox (Some data) ops'
  | RingBuffer.Get :: ops' => slot :: mailbox None ops'
  end.

(** The number of puts since the last get, starting from [n]. *)
Fixpoint unread (n : Z) (ops : list (RingBuffer.op A)) : Z :=
  match ops with
  | [] => n
  | RingBuffer.Put _ :: ops' => unread (n + 1) ops'
  | RingBuffer.Get :: ops' => unread 0 ops'
  end.

(** The ring buffer [rb] stands for the mailbox [slot] after [n] unread
    puts. *)
Definition holds (rb : RingBuffer.t A) (slot : option A) (n : Z) : Prop :=
  RingBuffer.inv rb /\
  0 <= n /\
  RingBuffer.count rb = Z.min n (RingBuffer.size rb) /\
  (n = 0 <-> slot = None) /\
  RingBuffer.read_idx rb = (RingBuffer.write_idx rb - RingBuffer.count rb) mod RingBuffer.size rb /\
  (forall d, slot = Some d ->
     RingBuffer.buffers rb !! Z.to_nat ((RingBuffer.write_idx rb - 1) mod RingBuffer.size rb)
     = Some d).
End Mailbox.

(** The event of writing the frame that carries the colours [out]. *)
Definition frame_of (out : list rgb8) : event := EvWrite (build_header ++ tobytes out).

(** What [cleanup] does to the serial port when it finds it open: the black
    frame, unless its write raised, and then [close()]; less if Ctrl+C cuts
    it short. *)
Definition cleanup_events (ctrl_c : option cleanup_point) (black_written : bool)
  : list event :=
  match ctrl_c with
  | Some BeforeBlack => []
  | Some BeforeClose => if black_written then [frame_of zeros_uint8] else []
  | _ => (if black_written then [frame_of zeros_uint8] else []) ++ [EvClose]
  end.

(** Whether it leaves the port open, and how it ends. *)
Definition open_after_cleanup (ctrl_c : option cleanup_point) : bool :=
  match ctrl_c with
  | Some BeforeBlack | Some BeforeClose => true
  | _ => false
  end.
Definition cleanup_result (ctrl_c : option cleanup_point) : result unit :=
  match ctrl_c with
  | None => Ok tt
  | Some _ => Raise KeyboardInterrupt
  end.

(** What [run] returns when its loop was left as [l]: [cleanup] runs in the
    [finally:] clause, and an exception raised there replaces the result. *)
Definition run_result (ctrl_c : option cleanup_point) (l : exit) : result exit :=
  match l with
  | Pending => Ok Pending
  | _ => let* _ := cleanup_result ctrl_c in Ok l
  end.

(** The samples the consumer of the multithreaded program can still take
    from the ring buffer: the latest one, if there is any. *)
Definition pending (self : AmbilightPro.t) : nat :=
  if 0 <? RingBuffer.count (AmbilightPro.color_buffer self) then 1 else 0.

(** The iterations of the capture thread and of the main loop in a schedule. *)
Fixpoint captures (sched : list AmbilightPro.tick) : nat :=
  match sched with
  | [] => 0
  | AmbilightPro.Capture _ _ :: rest => S (captures rest)
  | _ :: rest => captures rest
  end.
Fixpoint consumes (sched : list AmbilightPro.tick) : nat :=
  match sched with
  | [] => 0
  | AmbilightPro.Consume :: rest => S (consumes rest)
  | _ :: rest => consumes rest
  end.

(** The iterations of the single-threaded loop before the first Ctrl+C. *)
Fixpoint frames_before_interrupt (sched : list Ambilight.tick) : nat :=
  match sched with
  | Ambilight.Frame _ :: rest => S (frames_before_interrupt rest)
  | _ => 0
  end.

(** A [float32] that [astype(np.uint8)] turns into 0 whatever is done to it:
    a zero of either sign, or NaN. *)
Definition dark (x : F32.t) : Prop :=
  match x with
  | S754_zero _ | S754_nan => True
  | _ => False
  end.
Definition dark_row (c : rgb32) : Prop :=
  let '(r, g, b) := c in dark r /\ dark g /\ dark b.

(** [x] is a number: not NaN, not an infinity. *)
Definition is_finite (x : F32.t) : bool :=
  match x with
  | S754_zero _ | S754_finite _ _ _ => true
  | _ => false
  end.
Definition no_infinity (x : F32.t) : bool :=
  match x with
  | S754_infinity _ => false
  | _ => true
  end.
Definition no_infinity_row (c : rgb32) : bool :=
  let '(r, g, b) := c in no_infinity r && no_infinity g && no_infinity b.

(** [x] and [y] are the same value: equal, or two zeros (of any sign). *)
Definition same_value (x y : F32.t) : Prop :=
  x = y \/ exists s s', x = S754_zero s /\ y = S754_zero s'.
Definition same_row (c d : rgb32) : Prop :=
  let '(r, g, b) := c in let '(r', g', b') := d in
  same_value r r' /\ same_value g g' /\ same_value b b'.

(** [process] called on successive samples, as the loop of [run] does: the
    arrays it returns, in order. *)
Fixpoint process_frames (pr : ColorProcessor.t) (samples : list (list rgb32))
  : list (list rgb8) :=
  match samples with
  | [] => []
  | colors :: rest =>
      let '(out, pr') := ColorProcessor.process pr colors in
      out :: process_frames pr' rest
  end.

(** ** More sample inputs *)

Module Scenario.
(** No serial port can be opened. *)
Definition w_unplugged : world :=
  {| monitors := Sample.one_monitor;
     comports := [Sample.builtin];
     openable := fun _ => false;
     faults := [];
     log := [] |}.

(** No monitor at all ([mss().monitors] empty). *)
Definition w_headless : world :=
  {| monitors := [];
     comports := [Sample.builtin; Sample.uno];
     openable := fun _ => true;
     faults := [];
     log := [] |}.

Definition list_ports_only : cli :=
  {| cli_port := None; cli_monitor := None; cli_fps := None;
     cli_brightness := None; cli_saturation := None; cli_smoothing := None;
     cli_list_ports := true |}.

(** [--fps 0] *)
Definition fps_zero : cli :=
  {| cli_port := None; cli_monitor := None; cli_fps := Some 0;
     cli_brightness := None; cli_saturation := None; cli_smoothing := None;
     cli_list_ports := false |}.

(** Two captures, two iterations of the main loop, a third capture, Ctrl+C. *)
Definition two_then_one : list AmbilightPro.tick :=
  [AmbilightPro.Capture Sample.garbage Sample.imgs;
   AmbilightPro.Capture Sample.garbage Sample.imgs;
   AmbilightPro.Consume; AmbilightPro.Consume;
   AmbilightPro.Capture Sample.garbage Sample.imgs;
   AmbilightPro.Interrupt].

(** Screen shots of the three edges of a 1920x1080 monitor, all black. *)
Definition shots : edge_images :=
  {| left_img := Sample.black 1080 30;
     top_img := Sample.black 30 1920;
     right_img := Sample.black 1080 30 |}.

(** Two iterations of the single-threaded loop, Ctrl+C. *)
Definition two_frames : list Ambilight.tick :=
  [Ambilight.Frame Sample.imgs; Ambilight.Frame Sample.imgs; Ambilight.Interrupt].
End Scenario.

(** * Properties *)

Ltac munfold :=
  unfold bindM, ret, raise, get_state, modify, lift_result, try_exceptM,
    in_world, get_self, set_self, emit in *.

Ltac splits := repeat match goal with |- _ /\ _ => split end.

(** ** Python primitives *)

Lemma py_range_length n : length (py_range n) = Z.to_nat n.
Proof. unfold py_range. by rewrite length_map, length_seq. Qed.

Lemma py_index_in_range {A} (l : list A) (i : Z) :
  0 <= i < Z.of_nat (length l) -> py_index l i = Ok (Z.to_nat i).
Proof.
  intros H. unfold py_index.
  destruct (0 <=? i) eqn:E1; [|lia].
  destruct (i <? Z.of_nat (length l)) eqn:E2; [done|lia].
Qed.

Lemma py_setitem_in_range {A} (l : list A) (i : Z) (x : A) :
  0 <= i < Z.of_nat (length l) -> py_setitem l i x = Ok (<[Z.to_nat i := x]> l).
Proof. intros H. unfold py_setitem. by rewrite py_index_in_range. Qed.

Lemma py_getitem_in_range {A} (l : list A) (i : Z) :
  0 <= i < Z.of_nat (length l) -> exists x, l !! Z.to_nat i = Some x /\ py_getitem l i = Ok x.
Proof.
  intros H. unfold py_getitem. rewrite py_index_in_range by done. simpl.
  destruct (lookup_lt_is_Some_2 l (Z.to_nat i)) as [x Hx]; [lia|].
  exists x. by rewrite Hx.
Qed.

Lemma py_mod_pos a b : 0 < b -> py_mod a b = Ok (a mod b).
Proof. intros H. unfold py_mod. destruct (b =? 0) eqn:E; [lia|done]. Qed.


Lemma py_range_lookup n (k : nat) :
  (k < Z.to_nat n)%nat -> py_range n !! k = Some (Z.of_nat k).
Proof.
  intros H. unfold py_range. rewrite list_lookup_fmap.
  rewrite lookup_seq_lt by done. done.
Qed.


Lemma elem_of_py_range n k : k ∈ py_range n <-> 0 <= k < n.
Proof.
  unfold py_range. rewrite list_elem_of_fmap. split.
  - intros (i & -> & Hi). apply elem_of_seq in Hi. lia.
  - intros Hk. exists (Z.to_nat k). split; [lia|]. apply elem_of_seq. lia.
Qed.

(** The largest [int] that has a float is [2^1024 - 2^970 - 1]; one more
    rounds to [2^1024] and raises. *)
Lemma py_float_overflow :
  py_float (2 ^ 1024 - 2 ^ 970 - 1) = Ok (F64.of_Z (2 ^ 1024 - 2 ^ 971)) /\
  py_float (2 ^ 1024 - 2 ^ 970) = Raise OverflowError /\
  py_float (- (2 ^ 1024 - 2 ^ 970)) = Raise OverflowError /\
  py_float (10 ^ 400) = Raise OverflowError.
Proof. repeat split; by vm_compute. Qed.

(** ** The ring buffer *)

Section RingBufferFacts.
Context {A : Type}.
Implicit Types (rb : RingBuffer.t A) (d : A).

Lemma init_inv size d : 1 <= size -> RingBuffer.inv (RingBuffer.__init__ size d).
Proof.
  intros H. unfold RingBuffer.inv, RingBuffer.__init__; simpl.
  rewrite length_map, py_range_length. lia.
Qed.

Lemma put_inv rb d :
  RingBuffer.inv rb ->
  exists rb', RingBuffer.put rb d = Ok rb' /\ RingBuffer.inv rb' /\
              RingBuffer.size rb' = RingBuffer.size rb.
Proof.
  intros (Hs & Hl & Hc & Hw & Hr). unfold RingBuffer.put.
  rewrite py_setitem_in_range by lia. simpl.
  rewrite py_mod_pos by lia. simpl.
  pose proof (Z.mod_pos_bound (RingBuffer.write_idx rb + 1) (RingBuffer.size rb)).
  pose proof (Z.mod_pos_bound (RingBuffer.read_idx rb + 1) (RingBuffer.size rb)).
  destruct (RingBuffer.count rb <? RingBuffer.size rb) eqn:E.
  - eexists. split; [done|]. unfold RingBuffer.inv; simpl. rewrite length_insert. lia.
  - rewrite py_mod_pos by lia. simpl.
    eexists. split; [done|]. unfold RingBuffer.inv; simpl. rewrite length_insert. lia.
Qed.

Lemma get_inv rb :
  RingBuffer.inv rb ->
  exists r rb', RingBuffer.get rb = Ok (r, rb') /\ RingBuffer.inv rb' /\
                RingBuffer.size rb' = RingBuffer.size rb /\
                (r = None <-> RingBuffer.count rb = 0) /\
                RingBuffer.count rb' = 0.
Proof.
  intros (Hs & Hl & Hc & Hw & Hr). unfold RingBuffer.get.
  destruct (RingBuffer.count rb =? 0) eqn:E.
  - exists None, rb. unfold RingBuffer.inv. intuition lia.
  - rewrite py_mod_pos by lia. simpl.
    pose proof (Z.mod_pos_bound (RingBuffer.write_idx rb - 1) (RingBuffer.size rb)).
    destruct (py_getitem_in_range (RingBuffer.buffers rb)
                ((RingBuffer.write_idx rb - 1) mod RingBuffer.size rb)) as (x & _ & ->); [lia|].
    simpl. eexists _, _. split; [done|]. unfold RingBuffer.inv; simpl.
    repeat split; try lia; try done.
Qed.

Lemma run_ops_inv ops : forall rb,
  RingBuffer.inv rb ->
  exists outs rb', RingBuffer.run_ops rb ops = Ok (outs, rb') /\ RingBuffer.inv rb' /\
                   RingBuffer.size rb' = RingBuffer.size rb.
Proof.
  induction ops as [|[d|] ops IH]; intros rb Hinv; simpl.
  - exists [], rb. auto.
  - destruct (put_inv rb d Hinv) as (rb1 & -> & Hinv1 & Hs1). simpl.
    destruct (IH rb1 Hinv1) as (outs & rb' & -> & ? & ?).
    exists outs, rb'. split; [done|]. split; [done|congruence].
  - destruct (get_inv rb Hinv) as (r & rb1 & -> & Hinv1 & Hs1 & _). simpl.
    destruct (IH rb1 Hinv1) as (outs & rb' & -> & ? & ?). simpl.
    exists (r :: outs), rb'. split; [done|]. split; [done|congruence].
Qed.
End RingBufferFacts.

(** C9. After any finite sequence of [put]s and [get]s on a ring buffer
    created with [size >= 1], no operation has raised, [0 <= count <= size],
    [write_idx] and [read_idx] are in [0, size), [get] returns [None] exactly
    when [count = 0], [count] is 0 after it, and a second [get] right after it
    returns [None]. *)
Theorem ring_buffer_invariant {A} (size : Z) (zeros : A) (ops : list (RingBuffer.op A)) :
  1 <= size ->
  exists outs rb,
    RingBuffer.run_ops (RingBuffer.__init__ size zeros) ops = Ok (outs, rb) /\
    RingBuffer.size rb = size /\
    0 <= RingBuffer.count rb <= size /\
    0 <= RingBuffer.write_idx rb < size /\
    0 <= RingBuffer.read_idx rb < size /\
    exists r rb1,
      RingBuffer.get rb = Ok (r, rb1) /\
      (r = None <-> RingBuffer.count rb = 0) /\
      RingBuffer.count rb1 = 0 /\
      RingBuffer.get rb1 = Ok (None, rb1).
Proof.
  intros Hsize.
  destruct (run_ops_inv ops _ (init_inv size zeros Hsize)) as (outs & rb & Hrun & Hinv & Hs).
  simpl in Hs. exists outs, rb. split; [done|].
  destruct (get_inv rb Hinv) as (r & rb1 & Hget & Hinv1 & Hs1 & Hnone & Hc1).
  destruct Hinv as (? & ? & ? & ? & ?).
  rewrite Hs in *. repeat split; try lia.
  exists r, rb1. repeat split; try tauto.
  unfold RingBuffer.get. by rewrite Hc1.
Qed.

Lemma ring_buffer_invariant_witness :
  exists outs rb,
    RingBuffer.run_ops (RingBuffer.__init__ 3 0)
      [RingBuffer.Put 7; RingBuffer.Put 8; RingBuffer.Get; RingBuffer.Get; RingBuffer.Put 9] = Ok (outs, rb) /\
    RingBuffer.size rb = 3 /\
    0 <= RingBuffer.count rb <= 3 /\
    0 <= RingBuffer.write_idx rb < 3 /\
    0 <= RingBuffer.read_idx rb < 3 /\
    exists r rb1,
      RingBuffer.get rb = Ok (r, rb1) /\
      (r = None <-> RingBuffer.count rb = 0) /\
      RingBuffer.count rb1 = 0 /\
      RingBuffer.get rb1 = Ok (None, rb1).
Proof. apply (ring_buffer_invariant 3 0); lia. Defined.

(** C2. On a ring buffer of capacity [N] with [2 <= N < 4], starting empty,
    putting [F1], [F2], [F3], [F4] in that order raises nothing; the next [get]
    returns [F4], and the [get] after that returns [None]. *)
Theorem exchange_latest_wins {A} (N : Z) (zeros F1 F2 F3 F4 : A) :
  2 <= N < 4 ->
  exists rb4 rb5,
    RingBuffer.run_ops (RingBuffer.__init__ N zeros)
      [RingBuffer.Put F1; RingBuffer.Put F2; RingBuffer.Put F3; RingBuffer.Put F4]
      = Ok ([], rb4) /\
    RingBuffer.get rb4 = Ok (Some F4, rb5) /\
    RingBuffer.get rb5 = Ok (None, rb5).
Proof.
  intros HN. assert (N = 2 \/ N = 3) as [-> | ->] by lia.
  - eexists _, _. repeat split; reflexivity.
  - eexists _, _. repeat split; reflexivity.
Qed.

Lemma exchange_latest_wins_witness :
  exists rb4 rb5,
    RingBuffer.run_ops (RingBuffer.__init__ 3 0)
      [RingBuffer.Put 1; RingBuffer.Put 2; RingBuffer.Put 3; RingBuffer.Put 4]
      = Ok ([], rb4) /\
    RingBuffer.get rb4 = Ok (Some 4, rb5) /\
    RingBuffer.get rb5 = Ok (None, rb5).
Proof. apply (exchange_latest_wins 3 0 1 2 3 4); lia. Defined.

(** ** The samplers *)

(** A loop that stores one value per item at consecutive positions from [b]
    overwrites exactly that block. *)
Lemma for_each_store {X A} (items : list X) (idx : X -> Z) (val : X -> A)
    (body : list A -> X -> result (list A)) (b : nat) (l : list A) :
  (forall l x, body l x = py_setitem l (idx x) (val x)) ->
  (forall k x, items !! k = Some x -> idx x = Z.of_nat (b + k)) ->
  (b + length items <= length l)%nat ->
  for_each items body l = Ok (take b l ++ map val items ++ drop (b + length items) l).
Proof.
  intros Hbody. revert b l.
  induction items as [|x items IH]; intros b l Hidx Hlen; simpl in *.
  - by rewrite Nat.add_0_r, take_drop.
  - rewrite Hbody, (Hidx 0%nat x eq_refl), Nat.add_0_r.
    rewrite py_setitem_in_range; [|lia]. simpl. rewrite Nat2Z.id.
    rewrite (IH (S b)).
    + f_equal.
      rewrite (take_S_r _ _ (val x)) by (apply list_lookup_insert_eq; lia).
      rewrite take_insert_ge by lia. rewrite drop_insert_lt by lia.
      rewrite <- app_assoc. simpl.
      by replace (S (b + length items)) with (b + S (length items))%nat by lia.
    + intros k y Hk. rewrite (Hidx (S k) y Hk). lia.
    + rewrite length_insert. lia.
Qed.

Lemma in_segment_range (a b stp len p : Z) :
  0 <= a -> a <= b -> b <= len ->
  in_segment {| start := Some a; stop := Some b; step := stp |} len p <-> a <= p < b.
Proof.
  intros Ha Hab Hb. unfold in_segment, slice_bound; simpl.
  destruct (a <? 0) eqn:E1; [lia|]. destruct (b <? 0) eqn:E2; [lia|].
  rewrite !Z.min_l by lia. done.
Qed.

Lemma lookup_map_py_range {B} (f : Z -> B) (n : Z) (i : nat) (y : B) :
  map f (py_range n) !! i = Some y <-> (Z.of_nat i < n /\ y = f (Z.of_nat i)).
Proof.
  rewrite list_lookup_fmap. split.
  - intros H. destruct (py_range n !! i) as [k|] eqn:E; [|done].
    assert (i < Z.to_nat n)%nat as Hi.
    { apply lookup_lt_Some in E. by rewrite py_range_length in E. }
    rewrite py_range_lookup in E by done. simplify_eq/=. split; [lia|done].
  - intros [Hi ->]. rewrite py_range_lookup by lia. done.
Qed.

(** Segments [i*seg, (i+1)*seg) counted from the start of the axis. *)
Lemma partitions_ascending (f : Z -> slice) (n len seg stp : Z) :
  0 < n -> 0 <= len -> seg = len / n ->
  (forall i, f i = {| start := Some (i * seg); stop := Some (i * seg + seg); step := stp |}) ->
  partitions (map f (py_range n)) len 0 (len - len mod n).
Proof.
  intros Hn Hlen Hseg Hf.
  assert (0 <= seg) by (subst; apply Z.div_pos; lia).
  assert (len = n * seg + len mod n) as Hdm by (subst seg; apply Z.div_mod; lia).
  pose proof (Z.mod_pos_bound len n Hn) as Hmod.
  assert (forall i : nat, Z.of_nat i < n -> forall p,
            in_segment (f (Z.of_nat i)) len p <->
            Z.of_nat i * seg <= p < Z.of_nat i * seg + seg) as Hin.
  { intros i Hi p. rewrite Hf. apply in_segment_range; nia. }
  split.
  - intros i j si sj p Hi Hj Hpi Hpj.
    apply lookup_map_py_range in Hi as [Hi ->], Hj as [Hj ->].
    apply Hin in Hpi, Hpj; try done. nia.
  - intros p. split.
    + intros (i & si & Hi & Hp). apply lookup_map_py_range in Hi as [Hi ->].
      apply Hin in Hp; [|done]. nia.
    + intros Hp. assert (0 < seg) by nia.
      exists (Z.to_nat (p / seg)), (f (p / seg)).
      assert (0 <= p / seg) by (apply Z.div_pos; lia).
      assert (p / seg < n).
      { apply Z.div_lt_upper_bound; nia. }
      rewrite lookup_map_py_range, Z2Nat.id by done. split; [done|].
      rewrite <- (Z2Nat.id (p / seg)) by done. apply Hin; [lia|].
      rewrite Z2Nat.id by done.
      pose proof (Z.div_mod p seg). pose proof (Z.mod_pos_bound p seg). nia.
Qed.

(** Segments [len - (i+1)*seg, len - i*seg) counted from the end of the axis. *)
Lemma partitions_descending (f : Z -> slice) (n len seg stp : Z) :
  0 < n -> 0 <= len -> seg = len / n ->
  (forall i, f i = {| start := Some (len - (i + 1) * seg);
                      stop := Some (len - (i + 1) * seg + seg); step := stp |}) ->
  partitions (map f (py_range n)) len (len mod n) len.
Proof.
  intros Hn Hlen Hseg Hf.
  assert (0 <= seg) by (subst; apply Z.div_pos; lia).
  assert (len = n * seg + len mod n) as Hdm by (subst seg; apply Z.div_mod; lia).
  pose proof (Z.mod_pos_bound len n Hn) as Hmod.
  assert (forall i : nat, Z.of_nat i < n -> forall p,
            in_segment (f (Z.of_nat i)) len p <->
            len - (Z.of_nat i + 1) * seg <= p < len - (Z.of_nat i + 1) * seg + seg) as Hin.
  { intros i Hi p. rewrite Hf. apply in_segment_range; nia. }
  split.
  - intros i j si sj p Hi Hj Hpi Hpj.
    apply lookup_map_py_range in Hi as [Hi ->], Hj as [Hj ->].
    apply Hin in Hpi, Hpj; try done. nia.
  - intros p. split.
    + intros (i & si & Hi & Hp). apply lookup_map_py_range in Hi as [Hi ->].
      apply Hin in Hp; [|done]. nia.
    + intros Hp. assert (0 < seg) by nia.
      set (q := (len - 1 - p) / seg).
      assert (0 <= q) by (apply Z.div_pos; lia).
      assert (q < n) by (apply Z.div_lt_upper_bound; nia).
      exists (Z.to_nat q), (f q).
      rewrite lookup_map_py_range, Z2Nat.id by done. split; [done|].
      rewrite <- (Z2Nat.id q) by done. apply Hin; [lia|].
      rewrite Z2Nat.id by done.
      pose proof (Z.div_mod (len - 1 - p) seg) as Hq.
      pose proof (Z.mod_pos_bound (len - 1 - p) seg). fold q in Hq. nia.
Qed.

Lemma enumerate_lookup {X} (l : list X) (k : nat) (ix : Z * X) :
  enumerate l !! k = Some ix -> ix.1 = Z.of_nat k.
Proof.
  unfold enumerate. rewrite list_lookup_imap.
  destruct (l !! k); simpl; [|done]. by intros [= <-].
Qed.

Lemma map_enumerate {X B} (g : X -> B) (l : list X) :
  map (fun ix => g ix.2) (enumerate l) = map g l.
Proof.
  unfold enumerate. generalize Z.of_nat as h.
  induction l as [|x l IH]; intros h; simpl; [done|].
  f_equal. apply (IH (h ∘ S)).
Qed.

Lemma precompute_lengths_aux w h :
  length (ScreenCapture._precompute_indices w h).1.1 = 19%nat /\
  length (ScreenCapture._precompute_indices w h).1.2 = 35%nat /\
  length (ScreenCapture._precompute_indices w h).2 = 19%nat.
Proof.
  unfold ScreenCapture._precompute_indices. cbv zeta. cbn [fst snd].
  rewrite !length_map, !py_range_length. done.
Qed.

Lemma precompute_lengths w h ls ts rs :
  ScreenCapture._precompute_indices w h = (ls, ts, rs) ->
  length ls = 19%nat /\ length ts = 35%nat /\ length rs = 19%nat.
Proof. intros H. pose proof (precompute_lengths_aux w h) as Hlen. by rewrite H in Hlen. Qed.

Lemma length_uninit (uninit : Z -> rgb32) :
  length (map uninit (py_range NUM_LEDS_TOTAL)) = 73%nat.
Proof. by rewrite length_map, py_range_length. Qed.

Lemma sample_colors_vectorized_eq cap uninit imgs :
  ScreenCapture_wf cap ->
  ScreenCapture.sample_colors_vectorized cap uninit imgs =
  Ok (edge_means (left_img imgs) (ScreenCapture.left_slices cap) ++
      edge_means (top_img imgs) (ScreenCapture.top_slices cap) ++
      edge_means (right_img imgs) (ScreenCapture.right_slices cap)).
Proof.
  intros Hwf. apply precompute_lengths in Hwf as (Hl & Ht & Hr).
  unfold ScreenCapture.sample_colors_vectorized.
  pose proof (length_uninit uninit) as Hu.
  set (c0 := map uninit (py_range NUM_LEDS_TOTAL)) in *.
  rewrite (for_each_store _ fst
             (fun ix => let '(ys, xs) := ix.2 in segment_mean (img_slice (left_img imgs) ys xs))
             _ 0%nat).
  2:{ by intros l [i [ys xs]]. }
  2:{ intros k x Hk. by apply enumerate_lookup in Hk. }
  2:{ unfold enumerate. rewrite length_imap. lia. }
  simpl.
  rewrite (for_each_store _ (fun ix => NUM_LEDS_LEFT + ix.1)
             (fun ix => let '(ys, xs) := ix.2 in segment_mean (img_slice (top_img imgs) ys xs))
             _ 19%nat).
  2:{ by intros l [i [ys xs]]. }
  2:{ intros k x Hk. apply enumerate_lookup in Hk. rewrite Hk. unfold NUM_LEDS_LEFT. lia. }
  2:{ unfold enumerate. rewrite !length_app, !length_map, !length_imap, length_drop. lia. }
  simpl.
  rewrite (for_each_store _ (fun ix => NUM_LEDS_LEFT + NUM_LEDS_TOP + ix.1)
             (fun ix => let '(ys, xs) := ix.2 in segment_mean (img_slice (right_img imgs) ys xs))
             _ 54%nat).
  2:{ by intros l [i [ys xs]]. }
  2:{ intros k x Hk. apply enumerate_lookup in Hk. rewrite Hk.
      unfold NUM_LEDS_LEFT, NUM_LEDS_TOP. lia. }
  2:{ unfold enumerate.
      rewrite !length_app, !length_map, !length_imap, !length_take, !length_drop,
        !length_app, !length_map, !length_imap, !length_drop. lia. }
  simpl. f_equal.
  rewrite !(map_enumerate (fun s => let '(ys, xs) := s in segment_mean (img_slice _ ys xs))).
  fold (edge_means (left_img imgs) (ScreenCapture.left_slices cap)).
  fold (edge_means (top_img imgs) (ScreenCapture.top_slices cap)).
  fold (edge_means (right_img imgs) (ScreenCapture.right_slices cap)).
  unfold enumerate. rewrite !length_imap, Hl, Ht, Hr.
  assert (length (edge_means (left_img imgs) (ScreenCapture.left_slices cap)) = 19%nat) as HL
    by (unfold edge_means; by rewrite length_map).
  assert (length (edge_means (top_img imgs) (ScreenCapture.top_slices cap)) = 35%nat) as HT
    by (unfold edge_means; by rewrite length_map).
  set (L := edge_means _ (ScreenCapture.left_slices cap)) in *.
  set (T := edge_means _ (ScreenCapture.top_slices cap)) in *.
  set (R := edge_means _ (ScreenCapture.right_slices cap)) in *.
  rewrite (take_app_length' L) by done.
  set (D := drop 54 (L ++ drop 19 c0)).
  assert (length D = 19%nat) as HD.
  { unfold D. rewrite length_drop, length_app, length_drop. lia. }
  rewrite (app_assoc L T D), (take_app_length' (L ++ T)) by (rewrite length_app; lia).
  rewrite drop_ge by (rewrite !length_app; lia).
  by rewrite app_nil_r, <- app_assoc.
Qed.

Lemma capture_and_sample_eq self imgs :
  length (Ambilight.colors self) = 73%nat ->
  Ambilight.capture_and_sample self imgs =
  Ok (edge_means (left_img imgs) (Ambilight.left_slices self) ++
      edge_means (top_img imgs) (Ambilight.top_slices self) ++
      edge_means (right_img imgs) (Ambilight.right_slices self)).
Proof.
  intros Hc. unfold Ambilight.capture_and_sample.
  set (c0 := Ambilight.colors self) in *.
  set (valL := fun i : Z => segment_mean (img_slice (left_img imgs)
                 (Ambilight.rows (Ambilight.height self - (i + 1) * Ambilight.v_seg self)
                                 (Ambilight.v_seg self)) Ambilight.all)).
  set (valT := fun i : Z => segment_mean (img_slice (top_img imgs) Ambilight.all
                 (Ambilight.rows (i * Ambilight.h_seg self) (Ambilight.h_seg self)))).
  set (valR := fun i : Z => segment_mean (img_slice (right_img imgs)
                 (Ambilight.rows (i * Ambilight.v_seg self) (Ambilight.v_seg self))
                 Ambilight.all)).
  assert (forall n (k : nat) x, py_range n !! k = Some x -> x = Z.of_nat k) as Hrange.
  { intros n k x Hk. assert (k < Z.to_nat n)%nat.
    { apply lookup_lt_Some in Hk. by rewrite py_range_length in Hk. }
    rewrite py_range_lookup in Hk by done. congruence. }
  rewrite (for_each_store _ id valL _ 0%nat); [|done| |].
  2:{ intros k x Hk. apply Hrange in Hk. done. }
  2:{ rewrite py_range_length. unfold NUM_LEDS_LEFT. lia. }
  cbn [bind].
  rewrite (for_each_store _ (fun i => NUM_LEDS_LEFT + i) valT _ 19%nat); [|done| |].
  2:{ intros k x Hk. apply Hrange in Hk. unfold NUM_LEDS_LEFT. lia. }
  2:{ rewrite !length_app, !length_map, !py_range_length, length_drop.
      unfold NUM_LEDS_LEFT, NUM_LEDS_TOP. lia. }
  cbn [bind].
  rewrite (for_each_store _ (fun i => NUM_LEDS_LEFT + NUM_LEDS_TOP + i) valR _ 54%nat);
    [|done| |].
  2:{ intros k x Hk. apply Hrange in Hk. unfold NUM_LEDS_LEFT, NUM_LEDS_TOP. lia. }
  2:{ rewrite !length_app, !length_map, !length_take, !length_drop, !py_range_length,
        !length_app, !length_map, !length_drop, !py_range_length.
      unfold NUM_LEDS_LEFT, NUM_LEDS_TOP, NUM_LEDS_RIGHT. lia. }
  cbn [bind]. f_equal.
  unfold edge_means, Ambilight.left_slices, Ambilight.top_slices, Ambilight.right_slices.
  rewrite !map_map.
  change (map (fun i => segment_mean (img_slice (left_img imgs) _ _)) (py_range NUM_LEDS_LEFT))
    with (map valL (py_range NUM_LEDS_LEFT)).
  change (map (fun i => segment_mean (img_slice (top_img imgs) _ _)) (py_range NUM_LEDS_TOP))
    with (map valT (py_range NUM_LEDS_TOP)).
  change (map (fun i => segment_mean (img_slice (right_img imgs) _ _)) (py_range NUM_LEDS_RIGHT))
    with (map valR (py_range NUM_LEDS_RIGHT)).
  rewrite !py_range_length.
  set (L := map valL _). set (T := map valT _). set (R := map valR _).
  assert (length L = 19%nat) as HL by (unfold L; by rewrite length_map, py_range_length).
  assert (length T = 35%nat) as HT by (unfold T; by rewrite length_map, py_range_length).
  change (Z.to_nat NUM_LEDS_LEFT) with 19%nat.
  change (Z.to_nat NUM_LEDS_TOP) with 35%nat.
  change (Z.to_nat NUM_LEDS_RIGHT) with 19%nat.
  change (take 0 c0) with (@nil rgb32). cbn [app Nat.add].
  rewrite (take_app_length' L (drop 19 c0) 19 (eq_sym HL)).
  set (D := drop 54 (L ++ drop 19 c0)).
  assert (length D = 19%nat) as HD.
  { unfold D. rewrite length_drop, length_app, length_drop. lia. }
  rewrite (app_assoc L T D), (take_app_length' (L ++ T)) by (rewrite length_app; lia).
  rewrite drop_ge by (rewrite !length_app; lia).
  by rewrite app_nil_r, <- app_assoc.
Qed.

(** The pixels a slice selects lie in its segment, and with stride 1 they
    are the whole segment. *)
Lemma slice_indices_in_segment (s : slice) (len p : Z) :
  1 <= step s -> p ∈ slice_indices s len -> in_segment s len p.
Proof.
  intros Hstep Hp. unfold slice_indices, in_segment in *.
  set (lo := slice_bound (start s) 0 len) in *.
  set (hi := slice_bound (stop s) len len) in *.
  apply list_elem_of_fmap in Hp as (k & -> & Hk). apply elem_of_py_range in Hk.
  pose proof (Z.mul_div_le (hi - lo + step s - 1) (step s)).
  nia.
Qed.

Lemma segment_in_slice_indices (s : slice) (len p : Z) :
  step s = 1 -> in_segment s len p -> p ∈ slice_indices s len.
Proof.
  intros Hstep Hp. unfold slice_indices, in_segment in *. rewrite Hstep.
  set (lo := slice_bound (start s) 0 len) in *.
  set (hi := slice_bound (stop s) len len) in *.
  apply list_elem_of_fmap. exists (p - lo). split; [lia|].
  apply elem_of_py_range. rewrite Z.div_1_r. lia.
Qed.

(** ** The colour processors *)

(** C3. On the first sample of a run ([prev_colors] still [None] in the
    multithreaded program, [first_frame] still set in the single-threaded
    one), for every smoothing coefficient (so for every one below 1), the
    output is the saturation- and brightness-adjusted sample, clipped and
    truncated, with no blending with the previous state (the zero array of the
    single-threaded program does not enter), and the smoothing state becomes
    that adjusted sample. *)
Theorem first_frame_not_blended :
  (forall (p : ColorProcessor.t) (colors : list rgb32),
      ColorProcessor.prev_colors p = None ->
      let raw := adjust (ColorProcessor.saturation p) (ColorProcessor.brightness p) colors in
      let '(out, p') := ColorProcessor.process p colors in
      out = map astype_uint8 (map clip_row raw) /\
      ColorProcessor.prev_colors p' = Some raw) /\
  (forall (self : Ambilight.t),
      Ambilight.first_frame self = true ->
      let raw := adjust (Ambilight.saturation self) (Ambilight.brightness self)
                        (Ambilight.colors self) in
      let '(out, self') := Ambilight.process_colors self in
      out = map astype_uint8 (map clip_row raw) /\
      Ambilight.prev_colors self' = raw /\
      Ambilight.first_frame self' = false).
Proof.
  split.
  - intros p colors Hprev. unfold ColorProcessor.process. rewrite Hprev. simpl. done.
  - intros self Hfirst. unfold Ambilight.process_colors. rewrite Hfirst. simpl. done.
Qed.

Lemma first_frame_not_blended_witness :
  (let raw := adjust (F64.of_ratio 12 10) F64.one (Sample.solid 200 100 100) in
   let '(out, p') :=
     ColorProcessor.process
       (ColorProcessor.__init__ F64.one (F64.of_ratio 12 10) (F64.of_ratio 6 10))
       (Sample.solid 200 100 100) in
   out = map astype_uint8 (map clip_row raw) /\
   ColorProcessor.prev_colors p' = Some raw) /\
  (let raw := adjust (Ambilight.saturation Sample.basic) (Ambilight.brightness Sample.basic)
                     (Ambilight.colors Sample.basic) in
   let '(out, self') := Ambilight.process_colors Sample.basic in
   out = map astype_uint8 (map clip_row raw) /\
   Ambilight.prev_colors self' = raw /\
   Ambilight.first_frame self' = false).
Proof.
  split.
  - apply (proj1 first_frame_not_blended
             (ColorProcessor.__init__ F64.one (F64.of_ratio 12 10) (F64.of_ratio 6 10))).
    reflexivity.
  - apply (proj2 first_frame_not_blended Sample.basic). reflexivity.
Defined.

Lemma saturation_example_counterexample :
  let p := ColorProcessor.__init__ (F64.div (F64.of_Z 255) (F64.of_Z 255))
             (F64.of_ratio 12 10) (F64.of_ratio 6 10) in
  (ColorProcessor.process p (Sample.solid 200 100 100)).1 !! 0%nat = Some (213, 93, 93) /\
  (ColorProcessor.process p (Sample.solid 200 100 100)).1 !! 0%nat <> Some (255, 93, 93).
Proof. split; [vm_compute; reflexivity | vm_compute; discriminate]. Qed.

(** C5, as amended. For the colour (200, 100, 100), saturation 1.2 and
    brightness 255/255 = 1 on a first frame: gray is 133.33 (to two decimals),
    the value before clipping is (213.33, 93.33, 93.33), and the output of both
    processors is exactly (213, 93, 93). *)
Theorem saturation_example (smoothing : F64.t) (mon : monitor) (ser : Serial) :
  let c := (F32.of_Z 200, F32.of_Z 100, F32.of_Z 100) in
  let sat := F64.of_ratio 12 10 in
  let one := F64.div (F64.of_Z 255) (F64.of_Z 255) in
  py_truediv_int_float 255 (F64.of_Z 255) = Ok one /\
  F32.floor_scaled 100 (gray_of c) = Some 13333 /\
  (let '(r, g, b) := saturate sat c in
   F32.floor_scaled 100 r = Some 21333 /\
   F32.floor_scaled 100 g = Some 9333 /\
   F32.floor_scaled 100 b = Some 9333) /\
  adjust sat one (Sample.solid 200 100 100) = map (saturate sat) (Sample.solid 200 100 100) /\
  (ColorProcessor.process (ColorProcessor.__init__ one sat smoothing)
     (Sample.solid 200 100 100)).1 = map (fun _ => (213, 93, 93)) (py_range 73) /\
  (Ambilight.process_colors
     (Ambilight.set_colors (Ambilight.make mon ser 0 30 one sat smoothing)
        (Sample.solid 200 100 100))).1 = map (fun _ => (213, 93, 93)) (py_range 73).
Proof.
  repeat split; vm_compute; reflexivity.
Qed.

(** ** What a run does to the outside world *)

Section Steps.
Variable p : string.

Lemma steps_refl w : steps p w w.
Proof. exists []. split; [unfold did; by rewrite app_nil_r | constructor]. Qed.

Lemma steps_trans w1 w2 w3 : steps p w1 w2 -> steps p w2 w3 -> steps p w1 w3.
Proof.
  intros (e1 & H1 & F1) (e2 & H2 & F2). exists (e1 ++ e2). split.
  - unfold did in *. by rewrite H2, H1, app_assoc.
  - by apply Forall_app.
Qed.

Lemma steps_log w w' : log w' = log w -> steps p w w'.
Proof. intros H. exists []. split; [unfold did; by rewrite app_nil_r | constructor]. Qed.

Lemma steps_emit e w : allowed p e -> steps p w (emit e w).2.
Proof. intros H. exists [e]. split; [done | by constructor]. Qed.

Lemma tobytes_length colors : length (tobytes colors) = (3 * length colors)%nat.
Proof.
  unfold tobytes. induction colors as [|[[r g] b] colors IH]; simpl; [done|].
  rewrite IH. lia.
Qed.

Lemma frame_ok_tobytes colors : rows73 colors -> frame_ok (build_header ++ tobytes colors).
Proof. intros H. exists (tobytes colors). split; [done|]. rewrite tobytes_length, H. done. Qed.

Lemma serial_write_cases data w :
  (exists e rest, faults w = Some e :: rest /\
                  serial_write data w = (Raise e, set_faults w rest)) \/
  (exists w', serial_write data w = (Ok tt, w') /\ did [EvWrite data] w w' /\
              (forall e rest, faults w <> Some e :: rest)).
Proof.
  unfold serial_write. destruct (faults w) as [|[e|] rest] eqn:E.
  - right. eexists. split; [done|]. split; [done|]. congruence.
  - left. by exists e, rest.
  - right. eexists. split; [done|]. split; [done|]. congruence.
Qed.

Lemma send_steps (s : SerialSender.t) colors w :
  SerialSender.header s = build_header -> rows73 colors ->
  exists b w', SerialSender.send s colors w = (Ok (PyBool b), w') /\ steps p w w'.
Proof.
  intros Hh Hc. unfold SerialSender.send. munfold.
  destruct (serial_write_cases (SerialSender.header s ++ tobytes colors) w)
    as [(e & rest & _ & ->) | (w' & -> & Hdid & _)].
  - exists false. eexists. split; [done|]. by apply steps_log.
  - exists true, w'. split; [done|]. exists [EvWrite (SerialSender.header s ++ tobytes colors)].
    split; [done|]. constructor; [|constructor]. simpl. rewrite Hh. by apply frame_ok_tobytes.
Qed.

Lemma zeros_uint8_rows : rows73 zeros_uint8.
Proof. reflexivity. Qed.
Lemma zeros_float32_rows : rows73 zeros_float32.
Proof. reflexivity. Qed.

Lemma close_steps ctrl_c (s : SerialSender.t) w :
  SerialSender.header s = build_header ->
  exists r w', SerialSender.close ctrl_c s w = (r, w') /\ steps p w w' /\
    match r with
    | Ok s' => is_open (SerialSender.serial s') = false /\
               SerialSender.header s' = SerialSender.header s
    | Raise e => e = KeyboardInterrupt /\ ctrl_c = true /\
                 is_open (SerialSender.serial s) = true
    end.
Proof.
  intros Hh. unfold SerialSender.close.
  destruct (is_open (SerialSender.serial s)) eqn:Eo.
  - unfold bindM at 1.
    destruct (send_steps s zeros_uint8 w Hh zeros_uint8_rows) as (b & w1 & -> & Hs).
    destruct ctrl_c.
    + munfold. eexists _, _. split; [done|]. by split.
    + munfold. simpl. eexists _, _. split; [done|]. split; [|done].
      eapply steps_trans; [exact Hs|]. by apply (steps_emit EvClose).
  - exists (Ok s), w. split; [done|]. split; [apply steps_refl|done].
Qed.
End Steps.

Lemma adjust_length s b colors : length (adjust s b colors) = length colors.
Proof.
  unfold adjust.
  destruct (negb (F64.eqb s F64.one)), (negb (F64.eqb b F64.one));
    by rewrite ?length_map.
Qed.

Lemma process_rows (pr : ColorProcessor.t) colors :
  rows73 colors ->
  match ColorProcessor.prev_colors pr with Some prev => rows73 prev | None => True end ->
  rows73 (ColorProcessor.process pr colors).1 /\
  match ColorProcessor.prev_colors (ColorProcessor.process pr colors).2 with
  | Some prev => rows73 prev
  | None => True
  end.
Proof.
  unfold rows73, ColorProcessor.process. intros Hc Hp.
  destruct (ColorProcessor.prev_colors pr) as [prev|]; simpl.
  - rewrite !length_map, length_zip_with, adjust_length. lia.
  - rewrite !length_map, adjust_length. done.
Qed.

Lemma edge_means_length img slices : length (edge_means img slices) = length slices.
Proof. unfold edge_means. by rewrite length_map. Qed.

Lemma sample_rows cap uninit imgs :
  ScreenCapture_wf cap ->
  exists colors, ScreenCapture.sample_colors_vectorized cap uninit imgs = Ok colors /\
                 rows73 colors.
Proof.
  intros Hwf. rewrite sample_colors_vectorized_eq by done.
  eexists. split; [done|].
  apply precompute_lengths in Hwf as (Hl & Ht & Hr).
  unfold rows73. rewrite !length_app, !edge_means_length. lia.
Qed.

Lemma put_rows (rb : RingBuffer.t (list rgb32)) colors :
  RingBuffer.inv rb -> Forall rows73 (RingBuffer.buffers rb) -> rows73 colors ->
  exists rb', RingBuffer.put rb colors = Ok rb' /\ RingBuffer.inv rb' /\
              Forall rows73 (RingBuffer.buffers rb').
Proof.
  intros Hinv Hall Hc.
  destruct (put_inv rb colors Hinv) as (rb' & Hput & Hinv' & _).
  exists rb'. split; [done|]. split; [done|].
  destruct Hinv as (Hs & Hl & Hcnt & Hw & Hr).
  unfold RingBuffer.put in Hput.
  rewrite py_setitem_in_range in Hput by lia. simpl in Hput.
  rewrite py_mod_pos in Hput by lia. simpl in Hput.
  destruct (RingBuffer.count rb <? RingBuffer.size rb).
  - injection Hput as <-. simpl. by apply Forall_insert.
  - rewrite py_mod_pos in Hput by lia. simpl in Hput.
    injection Hput as <-. simpl. by apply Forall_insert.
Qed.

Lemma get_rows (rb : RingBuffer.t (list rgb32)) :
  RingBuffer.inv rb -> Forall rows73 (RingBuffer.buffers rb) ->
  exists r rb', RingBuffer.get rb = Ok (r, rb') /\ RingBuffer.inv rb' /\
                Forall rows73 (RingBuffer.buffers rb') /\
                match r with Some colors => rows73 colors | None => True end.
Proof.
  intros Hinv Hall.
  destruct (get_inv rb Hinv) as (r & rb' & Hget & Hinv' & _).
  exists r, rb'. split; [done|]. split; [done|].
  destruct Hinv as (Hs & Hl & Hcnt & Hw & Hr).
  unfold RingBuffer.get in Hget.
  destruct (RingBuffer.count rb =? 0).
  - by injection Hget as <- <-.
  - rewrite py_mod_pos in Hget by lia. simpl in Hget.
    pose proof (Z.mod_pos_bound (RingBuffer.write_idx rb - 1) (RingBuffer.size rb)).
    destruct (py_getitem_in_range (RingBuffer.buffers rb)
                ((RingBuffer.write_idx rb - 1) mod RingBuffer.size rb))
      as (x & Hx & Hgi); [lia|].
    rewrite Hgi in Hget. simpl in Hget. injection Hget as <- <-. simpl.
    split; [done|]. by eapply (Forall_lookup_1 rows73).
Qed.

Section Pro.
Variable p : string.
Implicit Types (self : AmbilightPro.t) (w : world).

Lemma capture_step_wf self uninit imgs :
  AmbilightPro_wf self ->
  AmbilightPro_wf (AmbilightPro.capture_step self uninit imgs) /\
  AmbilightPro.sender (AmbilightPro.capture_step self uninit imgs) = AmbilightPro.sender self /\
  AmbilightPro.running (AmbilightPro.capture_step self uninit imgs) = AmbilightPro.running self.
Proof.
  intros (Hcap & Hprev & Hh & Hinv & Hall). unfold AmbilightPro.capture_step.
  destruct (AmbilightPro.running self && AmbilightPro.capture_alive self); [|done].
  destruct (sample_rows (AmbilightPro.capture self) uninit imgs Hcap) as (colors & -> & Hc).
  simpl.
  destruct (put_rows _ colors Hinv Hall Hc) as (rb' & -> & Hinv' & Hall').
  done.
Qed.

Lemma consume_spec self w :
  AmbilightPro_wf self ->
  exists go self' w',
    AmbilightPro.consume (self, w) = (Ok go, (self', w')) /\
    AmbilightPro_wf self' /\
    AmbilightPro.sender self' = AmbilightPro.sender self /\
    AmbilightPro.running self' = AmbilightPro.running self /\
    steps p w w'.
Proof.
  intros (Hcap & Hprev & Hh & Hinv & Hall). unfold AmbilightPro.consume. munfold.
  destruct (get_rows _ Hinv Hall) as (r & rb' & -> & Hinv' & Hall' & Hr).
  destruct r as [colors|]; simpl.
  - destruct (process_rows (AmbilightPro.processor self) colors Hr Hprev) as [Hout Hprev'].
    destruct (ColorProcessor.process (AmbilightPro.processor self) colors) as [out pr'].
    simpl in *.
    destruct (send_steps p (AmbilightPro.sender self) out w Hh Hout) as (b & w' & -> & Hst).
    simpl. destruct b; simpl; eexists _, _, _; (split; [done|]);
      (split; [by unfold AmbilightPro_wf|]); by splits.
  - eexists _, _, _. split; [done|]. split; [by unfold AmbilightPro_wf|].
    splits; try done. apply steps_refl.
Qed.

Lemma loop_spec sched : forall self w,
  AmbilightPro_wf self ->
  exists r self' w',
    AmbilightPro.loop sched (self, w) = (r, (self', w')) /\
    (r = Raise KeyboardInterrupt \/ exists e, r = Ok e) /\
    AmbilightPro_wf self' /\
    AmbilightPro.sender self' = AmbilightPro.sender self /\
    steps p w w'.
Proof.
  induction sched as [|tk sched IH]; intros self w Hwf.
  - simpl. munfold. destruct (negb (AmbilightPro.running self));
      eexists _, _, _; (split; [done|]); (split; [right; eauto|]);
      splits; try done; apply steps_refl.
  - simpl. munfold. destruct (negb (AmbilightPro.running self)).
    { eexists _, _, _. split; [done|]. split; [right; eauto|].
      splits; try done; apply steps_refl. }
    destruct tk as [uninit imgs| |].
    + destruct (capture_step_wf self uninit imgs Hwf) as (Hwf' & Hs' & _).
      destruct (IH _ w Hwf') as (r & self' & w' & -> & Hr & Hwf'' & Hs'' & Hst).
      eexists _, _, _. split; [done|]. splits; try done. congruence.
    + destruct (consume_spec self w Hwf) as (go & self1 & w1 & -> & Hwf1 & Hs1 & _ & Hst1).
      destruct go.
      * destruct (IH _ w1 Hwf1) as (r & self' & w' & -> & Hr & Hwf'' & Hs'' & Hst).
        eexists _, _, _. split; [done|]. splits; try done; [congruence|].
        by eapply steps_trans.
      * eexists _, _, _. split; [done|]. split; [right; eauto|]. by splits.
    + eexists _, _, _. split; [done|]. split; [by left|].
      splits; try done; apply steps_refl.
Qed.

Lemma set_running_wf self b : AmbilightPro_wf self -> AmbilightPro_wf (AmbilightPro.set_running self b).
Proof. done. Qed.

Lemma cleanup_spec cp self w :
  AmbilightPro_wf self ->
  exists r self' w',
    AmbilightPro.cleanup cp (self, w) = (r, (self', w')) /\
    AmbilightPro.running self' = false /\
    steps p w w' /\
    match r with
    | Ok _ => is_open (SerialSender.serial (AmbilightPro.sender self')) = false
    | Raise e => e = KeyboardInterrupt /\ cp <> None
    end.
Proof.
  intros (Hcap & Hprev & Hh & Hinv & Hall). unfold AmbilightPro.cleanup.
  destruct cp as [[| |]|]; munfold; simpl.
  - eexists _, _, _. split; [done|]. split; [done|]. split; [apply steps_refl|done].
  - destruct (close_steps p true (AmbilightPro.sender self) w Hh) as (r & w' & -> & Hst & Hr).
    destruct r as [s'|e]; eexists _, _, _; (split; [done|]);
      (split; [done|]); (split; [done|]); [by destruct Hr|].
    by destruct Hr as [-> _].
  - destruct (close_steps p false (AmbilightPro.sender self) w Hh) as (r & w' & -> & Hst & Hr).
    destruct r as [s'|e]; [|by destruct Hr as (_ & ? & _)].
    eexists _, _, _. split; [done|]. by splits.
  - destruct (close_steps p false (AmbilightPro.sender self) w Hh) as (r & w' & -> & Hst & Hr).
    destruct r as [s'|e]; [|by destruct Hr as (_ & ? & _)].
    eexists _, _, _. split; [done|]. split; [done|]. split; [done|]. by destruct Hr.
Qed.

Lemma run_spec sig sched self w :
  AmbilightPro_wf self ->
  exists r self' w',
    AmbilightPro.run sig sched (self, w) = (r, (self', w')) /\ steps p w w'.
Proof.
  intros Hwf. unfold AmbilightPro.run.
  destruct (before_try sig) as [[|]|];
    [eexists _, _, _; split; [done|]; apply steps_refl|..];
    unfold bindM at 1 2 3, get_self, set_self, lift_result; cbn beta iota;
    (destruct (frame_time _) as [ft|e];
     [|eexists _, _, _; split; [done|]; apply steps_refl]).
  { eexists _, _, _. split; [done|]. apply steps_refl. }
  destruct (loop_spec sched (AmbilightPro.set_running self true) w
              (set_running_wf self true Hwf))
    as (r & self1 & w1 & -> & Hr & Hwf1 & _ & Hst1).
  destruct (cleanup_spec (in_cleanup sig) self1 w1 Hwf1)
    as (rc & self2 & w2 & Hcl & _ & Hst2 & _).
  unfold bindM. destruct Hr as [-> | [e ->]].
  - rewrite Hcl. destruct rc; eexists _, _, _; (split; [done|]); by eapply steps_trans.
  - destruct e; rewrite ?Hcl; try destruct rc; eexists _, _, _; (split; [done|]);
      try done; by eapply steps_trans.
Qed.
End Pro.

Lemma process_colors_wf (self : Ambilight.t) :
  Ambilight_wf self ->
  rows73 (Ambilight.process_colors self).1 /\
  Ambilight_wf (Ambilight.process_colors self).2 /\
  Ambilight.running (Ambilight.process_colors self).2 = Ambilight.running self /\
  Ambilight.serial (Ambilight.process_colors self).2 = Ambilight.serial self.
Proof.
  intros (Hc & Hp & Hh & Hv & Hs). unfold Ambilight.process_colors, Ambilight_wf, rows73 in *.
  destruct (Ambilight.first_frame self), (negb (F64.eqb (Ambilight.saturation self) F64.one));
    simpl; rewrite ?length_map, ?length_zip_with, ?adjust_length, ?Hc, ?Hp; done.
Qed.

Section Basic.
Variable p : string.
Implicit Types (self : Ambilight.t) (w : world).

Lemma basic_send_spec colors self w :
  Ambilight.header self = build_header -> rows73 colors ->
  exists self' w',
    Ambilight.send colors (self, w) = (Ok PyNone, (self', w')) /\
    (self' = self \/ self' = Ambilight.set_running self false) /\
    steps p w w'.
Proof.
  intros Hh Hc. unfold Ambilight.send. munfold.
  destruct (serial_write_cases (Ambilight.header self ++ tobytes colors) w)
    as [(e & rest & _ & ->) | (w' & -> & Hdid & _)].
  - eexists _, _. split; [done|]. split; [by right|]. by apply steps_log.
  - eexists _, _. split; [done|]. split; [by left|].
    exists [EvWrite (Ambilight.header self ++ tobytes colors)].
    split; [done|]. constructor; [|constructor]. simpl. rewrite Hh. by apply frame_ok_tobytes.
Qed.

Lemma set_running_basic_wf self b : Ambilight_wf self -> Ambilight_wf (Ambilight.set_running self b).
Proof. done. Qed.

Lemma basic_loop_spec sched : forall self w,
  Ambilight_wf self ->
  exists r self' w',
    Ambilight.loop sched (self, w) = (r, (self', w')) /\
    (r = Raise KeyboardInterrupt \/ exists e, r = Ok e) /\
    Ambilight_wf self' /\
    Ambilight.serial self' = Ambilight.serial self /\
    steps p w w'.
Proof.
  induction sched as [|tk sched IH]; intros self w Hwf.
  - simpl. munfold. destruct (negb (Ambilight.running self));
      eexists _, _, _; (split; [done|]); (split; [right; eauto|]);
      splits; try done; apply steps_refl.
  - simpl. munfold. destruct (negb (Ambilight.running self)).
    { eexists _, _, _. split; [done|]. split; [right; eauto|].
      splits; try done; apply steps_refl. }
    destruct tk as [imgs|].
    + rewrite capture_and_sample_eq by apply Hwf.
      set (colors := _ ++ _ ++ _).
      assert (rows73 colors) as Hc.
      { unfold rows73, colors, Ambilight.left_slices, Ambilight.top_slices,
          Ambilight.right_slices.
        by rewrite !length_app, !edge_means_length, !length_map, !py_range_length. }
      assert (Ambilight_wf (Ambilight.set_colors self colors)) as Hwf1.
      { destruct Hwf as (? & ? & ? & ? & ?). by unfold Ambilight_wf. }
      destruct (process_colors_wf _ Hwf1) as (Hout & Hwf2 & _ & Hser).
      destruct (Ambilight.process_colors (Ambilight.set_colors self colors)) as [out self2].
      simpl in *.
      destruct (basic_send_spec out self2 w (proj1 (proj2 (proj2 Hwf2))) Hout)
        as (self3 & w3 & -> & Hself3 & Hst).
      assert (Ambilight_wf self3 /\ Ambilight.serial self3 = Ambilight.serial self)
        as [Hwf3 Hser3].
      { destruct Hself3 as [-> | ->]; done. }
      destruct (IH self3 w3 Hwf3) as (r & self' & w' & -> & Hr & Hwf' & Hs' & Hst').
      eexists _, _, _. split; [done|]. splits; try done; [congruence|].
      by eapply steps_trans.
    + eexists _, _, _. split; [done|]. split; [by left|].
      splits; try done; apply steps_refl.
Qed.

Lemma basic_cleanup_spec cp self w :
  Ambilight_wf self ->
  exists r self' w',
    Ambilight.cleanup cp (self, w) = (r, (self', w')) /\
    Ambilight.running self' = false /\
    steps p w w' /\
    match r with
    | Ok _ => is_open (Ambilight.serial self') = false
    | Raise e => e = KeyboardInterrupt /\ cp <> None
    end.
Proof.
  intros Hwf. unfold Ambilight.cleanup.
  unfold bindM at 1 2, get_self at 1, set_self at 1. cbn beta iota.
  assert (cp = Some BeforeBlack \/ cp <> Some BeforeBlack) as [-> | Hcp]
    by (destruct cp as [[| |]|]; auto).
  { eexists _, _, _. split; [done|]. split; [done|]. split; [apply steps_refl|done]. }
  assert (forall X (a b : X), match cp with Some BeforeBlack => a | _ => b end = b) as ->
    by (intros; by destruct cp as [[| |]|]).
  unfold bindM at 1, get_self at 1. cbn beta iota. cbn [Ambilight.serial Ambilight.set_running].
  destruct (is_open (Ambilight.serial self)) eqn:Eo.
  - unfold bindM at 1.
    destruct (basic_send_spec zeros_uint8 (Ambilight.set_running self false) w
                (proj1 (proj2 (proj2 Hwf))) zeros_uint8_rows)
      as (self1 & w1 & -> & Hself1 & Hst).
    assert (Ambilight.running self1 = false) as Hr1 by (by destruct Hself1 as [-> | ->]).
    destruct cp as [[| |]|]; try done; munfold; simpl; eexists _, _, _; (split; [done|]);
      (split; [done|]);
      try (split; [eapply steps_trans; [exact Hst|]; by apply (steps_emit p EvClose)|done]).
    split; [done|done].
  - eexists _, _, _. split; [done|]. simpl. splits; try done. apply steps_refl.
Qed.

Lemma basic_run_spec sig sched self w :
  Ambilight_wf self ->
  exists r self' w',
    Ambilight.run sig sched (self, w) = (r, (self', w')) /\ steps p w w'.
Proof.
  intros Hwf. unfold Ambilight.run.
  destruct (before_try sig) as [[|]|];
    [eexists _, _, _; split; [done|]; apply steps_refl|..];
    unfold bindM at 1 2 3, get_self, set_self, lift_result; cbn beta iota;
    (destruct (frame_time _) as [ft|e];
     [|eexists _, _, _; split; [done|]; apply steps_refl]).
  { eexists _, _, _. split; [done|]. apply steps_refl. }
  destruct (basic_loop_spec sched (Ambilight.set_running self true) w
              (set_running_basic_wf self true Hwf))
    as (r & self1 & w1 & -> & Hr & Hwf1 & _ & Hst1).
  destruct (basic_cleanup_spec (in_cleanup sig) self1 w1 Hwf1)
    as (rc & self2 & w2 & Hcl & _ & Hst2 & _).
  unfold bindM. destruct Hr as [-> | [e ->]].
  - rewrite Hcl. destruct rc; eexists _, _, _; (split; [done|]); by eapply steps_trans.
  - destruct e; rewrite ?Hcl; try destruct rc; eexists _, _, _; (split; [done|]);
      try done; by eapply steps_trans.
Qed.
End Basic.

Lemma screen_capture_init_wf monitors monitor_num cap :
  ScreenCapture.__init__ monitors monitor_num = Ok cap -> ScreenCapture_wf cap.
Proof.
  unfold ScreenCapture.__init__, ScreenCapture_wf. 
  destruct (ScreenCapture._setup_monitor monitors monitor_num) as [[mon regs]|e]; [|done].
  simpl. destruct (ScreenCapture._precompute_indices (mon_width mon) (mon_height mon))
    as [[ls ts] rs] eqn:E.
  intros [= <-]. simpl. done.
Qed.




Lemma pro_init_wf port monitor fps br sat sm w self w' :
  AmbilightPro.__init__ port monitor fps br sat sm w = (Ok self, w') ->
  AmbilightPro_wf self.
Proof.
  unfold AmbilightPro.__init__, SerialSender.__init__. munfold.
  destruct (ScreenCapture.__init__ (monitors w) monitor) as [cap|e] eqn:Ecap; [|done].
  destruct (py_truediv_int_float br (F64.of_Z 255)) as [b|e]; [|done].
  destruct (SerialSender._connect port w) as [[ser|e] w1]; [|done].
  intros [= <- <-]. unfold AmbilightPro_wf. simpl.
  split; [by eapply screen_capture_init_wf|].
  splits; try done; try (by apply init_inv). by repeat constructor.
Qed.

Lemma basic_make_wf mon ser monitor fps br sat sm :
  Ambilight_wf (Ambilight.make mon ser monitor fps br sat sm).
Proof. unfold Ambilight_wf. simpl. splits; done. Qed.

Lemma basic_init_wf port monitor fps br sat sm w self w' :
  Ambilight.__init__ port monitor fps br sat sm w = (Ok self, w') ->
  Ambilight_wf self.
Proof.
  unfold Ambilight.__init__. munfold.
  destruct (py_truediv_int_float br (F64.of_Z 255)) as [b|e]; [|done].
  destruct (Ambilight._setup_monitor (monitors w) monitor) as [mon|e]; [|done].
  destruct (Ambilight.connect_serial port w) as [[ser|e] w1]; [|done].
  intros [= <- <-]. apply basic_make_wf.
Qed.



(** ** LED layout and segments *)

Lemma pro_partitions (cap : ScreenCapture.t) :
  ScreenCapture_wf cap ->
  0 <= ScreenCapture.width cap -> 0 <= ScreenCapture.height cap ->
  let w := ScreenCapture.width cap in
  let h := ScreenCapture.height cap in
  partitions (map fst (ScreenCapture.left_slices cap)) h (h mod 19) h /\
  partitions (map snd (ScreenCapture.top_slices cap)) w 0 (w - w mod 35) /\
  partitions (map fst (ScreenCapture.right_slices cap)) h 0 (h - h mod 19).
Proof.
  intros Hwf Hw Hh w h. fold w h in Hw, Hh.
  unfold ScreenCapture_wf, ScreenCapture._precompute_indices in Hwf. cbv zeta in Hwf.
  fold w h in Hwf.
  pose proof (f_equal (fun t => t.1.1) Hwf) as Hl.
  pose proof (f_equal (fun t => t.1.2) Hwf) as Ht.
  pose proof (f_equal snd Hwf) as Hr.
  cbn [fst snd] in Hl, Ht, Hr. rewrite <- Hl, <- Ht, <- Hr, !map_map.
  cbn [fst snd]. split; [|split].
  - by apply (partitions_descending _ NUM_LEDS_LEFT h (h / NUM_LEDS_LEFT) DOWNSAMPLE).
  - by apply (partitions_ascending _ NUM_LEDS_TOP w (w / NUM_LEDS_TOP) DOWNSAMPLE).
  - by apply (partitions_ascending _ NUM_LEDS_RIGHT h (h / NUM_LEDS_LEFT) DOWNSAMPLE).
Qed.

Lemma basic_partitions (self : Ambilight.t) :
  Ambilight_wf self ->
  0 <= Ambilight.width self -> 0 <= Ambilight.height self ->
  let w := Ambilight.width self in
  let h := Ambilight.height self in
  partitions (map fst (Ambilight.left_slices self)) h (h mod 19) h /\
  partitions (map snd (Ambilight.top_slices self)) w 0 (w - w mod 35) /\
  partitions (map fst (Ambilight.right_slices self)) h 0 (h - h mod 19).
Proof.
  intros (_ & _ & _ & Hv & Hs) Hw Hh w h. fold w h in Hw, Hh, Hv, Hs.
  unfold Ambilight.left_slices, Ambilight.top_slices, Ambilight.right_slices, Ambilight.rows.
  fold w h. rewrite !map_map. cbn [fst snd]. split; [|split].
  - by apply (partitions_descending _ NUM_LEDS_LEFT h (Ambilight.v_seg self) 1).
  - by apply (partitions_ascending _ NUM_LEDS_TOP w (Ambilight.h_seg self) 1).
  - by apply (partitions_ascending _ NUM_LEDS_RIGHT h (Ambilight.v_seg self) 1).
Qed.

(** C4. With the LED counts (19, 35, 19) both samplers return 73 colours:
    the 19 of the left edge at indices [0, 19), the 35 of the top edge at
    [19, 54), the 19 of the right edge at [54, 73), each the mean of its LED's
    slice. On every edge the segments of the LEDs do not overlap, and they
    cover the whole pixel range of the edge except one contiguous remainder of
    (edge length mod LED count) pixels: the first rows of the left edge, the
    last rows of the right edge, the last columns of the top edge; it is
    empty when the LED count divides the edge length. *)
Theorem led_layout_and_segments :
  (NUM_LEDS_LEFT, NUM_LEDS_TOP, NUM_LEDS_RIGHT, NUM_LEDS_TOTAL) = (19, 35, 19, 73) /\
  (forall monitors monitor_num cap,
      ScreenCapture.__init__ monitors monitor_num = Ok cap -> ScreenCapture_wf cap) /\
  (forall port monitor fps brightness saturation smoothing w self w',
      Ambilight.__init__ port monitor fps brightness saturation smoothing w = (Ok self, w') ->
      Ambilight_wf self) /\
  (forall cap uninit imgs,
      ScreenCapture_wf cap ->
      let L := edge_means (left_img imgs) (ScreenCapture.left_slices cap) in
      let T := edge_means (top_img imgs) (ScreenCapture.top_slices cap) in
      let R := edge_means (right_img imgs) (ScreenCapture.right_slices cap) in
      ScreenCapture.sample_colors_vectorized cap uninit imgs = Ok (L ++ T ++ R) /\
      length L = 19%nat /\ length T = 35%nat /\ length R = 19%nat /\
      length (L ++ T ++ R) = 73%nat) /\
  (forall cap,
      ScreenCapture_wf cap ->
      0 <= ScreenCapture.width cap -> 0 <= ScreenCapture.height cap ->
      let w := ScreenCapture.width cap in
      let h := ScreenCapture.height cap in
      partitions (map fst (ScreenCapture.left_slices cap)) h (h mod 19) h /\
      partitions (map snd (ScreenCapture.top_slices cap)) w 0 (w - w mod 35) /\
      partitions (map fst (ScreenCapture.right_slices cap)) h 0 (h - h mod 19)) /\
  (forall self imgs,
      Ambilight_wf self ->
      let L := edge_means (left_img imgs) (Ambilight.left_slices self) in
      let T := edge_means (top_img imgs) (Ambilight.top_slices self) in
      let R := edge_means (right_img imgs) (Ambilight.right_slices self) in
      Ambilight.capture_and_sample self imgs = Ok (L ++ T ++ R) /\
      length L = 19%nat /\ length T = 35%nat /\ length R = 19%nat /\
      length (L ++ T ++ R) = 73%nat) /\
  (forall self,
      Ambilight_wf self ->
      0 <= Ambilight.width self -> 0 <= Ambilight.height self ->
      let w := Ambilight.width self in
      let h := Ambilight.height self in
      partitions (map fst (Ambilight.left_slices self)) h (h mod 19) h /\
      partitions (map snd (Ambilight.top_slices self)) w 0 (w - w mod 35) /\
      partitions (map fst (Ambilight.right_slices self)) h 0 (h - h mod 19)).
Proof.
  split; [reflexivity|].
  split; [exact screen_capture_init_wf|].
  split; [exact basic_init_wf|].
  split; [|split; [exact pro_partitions|split; [|exact basic_partitions]]].
  - intros cap uninit imgs Hwf L T R.
    split; [by apply sample_colors_vectorized_eq|].
    apply precompute_lengths in Hwf as (Hl & Ht & Hr).
    unfold L, T, R. rewrite !length_app, !edge_means_length, Hl, Ht, Hr. done.
  - intros self imgs Hwf L T R.
    split; [apply capture_and_sample_eq, Hwf|].
    unfold L, T, R, Ambilight.left_slices, Ambilight.top_slices, Ambilight.right_slices.
    rewrite !length_app, !edge_means_length, !length_map, !py_range_length. done.
Qed.

Lemma led_layout_and_segments_witness :
  let w := ScreenCapture.width Sample.capture in
  let h := ScreenCapture.height Sample.capture in
  partitions (map fst (ScreenCapture.left_slices Sample.capture)) h (h mod 19) h /\
  partitions (map snd (ScreenCapture.top_slices Sample.capture)) w 0 (w - w mod 35) /\
  partitions (map fst (ScreenCapture.right_slices Sample.capture)) h 0 (h - h mod 19).
Proof.
  apply (proj1 (proj2 (proj2 (proj2 (proj2 led_layout_and_segments)))) Sample.capture).
  - reflexivity.
  - simpl. lia.
  - simpl. lia.
Defined.

(** ** Wire framing and the command line *)

Lemma allowed_writes q evs data :
  Forall (allowed q) evs -> EvWrite data ∈ evs -> frame_ok data.
Proof. intros Hall Hin. by apply (proj1 (Forall_forall _ _) Hall _ Hin). Qed.



Lemma send_writes (s : SerialSender.t) colors w :
  (forall e rest, faults w <> Some e :: rest) ->
  exists w', SerialSender.send s colors w = (Ok (PyBool true), w') /\
             log w' = log w ++ [EvWrite (SerialSender.header s ++ tobytes colors)].
Proof.
  intros Hf. unfold SerialSender.send. munfold.
  destruct (serial_write_cases (SerialSender.header s ++ tobytes colors) w)
    as [(e & rest & E & _) | (w' & -> & Hdid & _)]; [by destruct (Hf e rest)|].
  by exists w'.
Qed.

Lemma basic_send_writes colors (self : Ambilight.t) w :
  (forall e rest, faults w <> Some e :: rest) ->
  exists w', Ambilight.send colors (self, w) = (Ok PyNone, (self, w')) /\
             log w' = log w ++ [EvWrite (Ambilight.header self ++ tobytes colors)].
Proof.
  intros Hf. unfold Ambilight.send. munfold.
  destruct (serial_write_cases (Ambilight.header self ++ tobytes colors) w)
    as [(e & rest & E & _) | (w' & -> & Hdid & _)]; [by destruct (Hf e rest)|].
  by exists w'.
Qed.

(** C1. With 73 LEDs the header built at start-up is the six bytes
    [0x41, 0x64, 0x61, 0x00, 0x48, 0x1D] ('A', 'd', 'a', the high and low byte
    of 73 - 1 = 72, and their XOR with 0x55); the bytes of a 73-row colour
    array are 3 * 73 = 219. [send], in both programs, hands the serial port
    one frame, the header followed by [colors.tobytes()], which the port
    writes unless the write raises; for the header of [__init__] and a 73-row
    array that is 6 + 219 = 225 bytes. And every frame [run] writes to the
    serial port, the black frame of [cleanup] included, is that header
    followed by a payload of 219 bytes, wherever Ctrl+C arrives. *)
Theorem wire_framing :
  NUM_LEDS_TOTAL = 73 /\
  build_header = [0x41; 0x64; 0x61; 0x00; 0x48; 0x1D] /\
  (forall colors : list rgb8, length colors = 73%nat -> length (tobytes colors) = 219%nat) /\
  (forall (s : SerialSender.t) colors w,
      (forall e rest, faults w <> Some e :: rest) ->
      exists w', SerialSender.send s colors w = (Ok (PyBool true), w') /\
                 log w' = log w ++ [EvWrite (SerialSender.header s ++ tobytes colors)]) /\
  (forall colors (self : Ambilight.t) w,
      (forall e rest, faults w <> Some e :: rest) ->
      exists w', Ambilight.send colors (self, w) = (Ok PyNone, (self, w')) /\
                 log w' = log w ++ [EvWrite (Ambilight.header self ++ tobytes colors)]) /\
  (forall colors : list rgb8,
      length colors = 73%nat ->
      frame_ok (build_header ++ tobytes colors) /\
      length (build_header ++ tobytes colors) = 225%nat) /\
  (forall port monitor fps brightness saturation smoothing w self w1 sig sched,
      AmbilightPro.__init__ port monitor fps brightness saturation smoothing w = (Ok self, w1) ->
      SerialSender.header (AmbilightPro.sender self) = build_header /\
      exists evs, did evs w1 (AmbilightPro.run sig sched (self, w1)).2.2 /\
                  forall data, EvWrite data ∈ evs -> frame_ok data) /\
  (forall port monitor fps brightness saturation smoothing w self w1 sig sched,
      Ambilight.__init__ port monitor fps brightness saturation smoothing w = (Ok self, w1) ->
      Ambilight.header self = build_header /\
      exists evs, did evs w1 (Ambilight.run sig sched (self, w1)).2.2 /\
                  forall data, EvWrite data ∈ evs -> frame_ok data).
Proof.
  split; [reflexivity|]. split; [reflexivity|].
  split; [intros colors H; rewrite tobytes_length, H; reflexivity|].
  split; [exact send_writes|]. split; [exact basic_send_writes|].
  split.
  { intros colors H. split; [by apply frame_ok_tobytes|].
    rewrite length_app, tobytes_length, H. reflexivity. }
  split.
  - intros port monitor fps br sat sm w self w1 sig sched Hinit.
    apply pro_init_wf in Hinit. split; [apply Hinit|].
    destruct (run_spec ""%string sig sched self w1 Hinit)
      as (r & self' & w' & -> & evs & Hd & Hall).
    exists evs. split; [done|]. intros data. by apply (allowed_writes ""%string).
  - intros port monitor fps br sat sm w self w1 sig sched Hinit.
    apply basic_init_wf in Hinit. split; [apply Hinit|].
    destruct (basic_run_spec ""%string sig sched self w1 Hinit)
      as (r & self' & w' & -> & evs & Hd & Hall).
    exists evs. split; [done|]. intros data. by apply (allowed_writes ""%string).
Qed.

Lemma wire_framing_witness :
  (exists w', SerialSender.send (AmbilightPro.sender Sample.pro) zeros_uint8 Sample.w1
              = (Ok (PyBool true), w') /\
              log w' = log Sample.w1
                       ++ [EvWrite (SerialSender.header (AmbilightPro.sender Sample.pro)
                                    ++ tobytes zeros_uint8)]) /\
  (SerialSender.header (AmbilightPro.sender Sample.pro) = build_header /\
   exists evs,
     did evs Sample.w1
       (AmbilightPro.run no_signals
          [AmbilightPro.Capture Sample.garbage Sample.imgs; AmbilightPro.Consume]
          (Sample.pro, Sample.w1)).2.2 /\
     forall data, EvWrite data ∈ evs -> frame_ok data).
Proof.
  split.
  - apply (proj1 (proj2 (proj2 (proj2 wire_framing))) (AmbilightPro.sender Sample.pro)
             zeros_uint8 Sample.w1).
    intros e rest H. discriminate H.
  - apply (proj1 (proj2 (proj2 (proj2 (proj2 (proj2 (proj2 wire_framing))))))
             (Some "COM3"%string) 0 30 255
             (F64.of_ratio 12 10) (F64.of_ratio 6 10) Sample.w0).
    vm_compute. reflexivity.
Defined.





(** ** Failure of a serial write *)

Lemma serial_write_total data w :
  (exists e w', serial_write data w = (Raise e, w')) \/
  (exists w', serial_write data w = (Ok tt, w')).
Proof.
  destruct (serial_write_cases data w) as [(e & rest & _ & H) | (w' & H & _)]; eauto.
Qed.

Lemma send_raise (s : SerialSender.t) colors w e w' :
  serial_write (SerialSender.header s ++ tobytes colors) w = (Raise e, w') ->
  SerialSender.send s colors w = (Ok (PyBool false), w').
Proof. intros H. unfold SerialSender.send. munfold. by rewrite H. Qed.

Lemma send_ok (s : SerialSender.t) colors w w' :
  serial_write (SerialSender.header s ++ tobytes colors) w = (Ok tt, w') ->
  SerialSender.send s colors w = (Ok (PyBool true), w').
Proof. intros H. unfold SerialSender.send. munfold. by rewrite H. Qed.

Lemma send_total (s : SerialSender.t) colors w :
  exists b w', SerialSender.send s colors w = (Ok (PyBool b), w').
Proof.
  destruct (serial_write_total (SerialSender.header s ++ tobytes colors) w)
    as [(e & w' & H) | (w' & H)].
  - exists false, w'. by apply send_raise with e.
  - exists true, w'. by apply send_ok.
Qed.

Lemma cleanup_total cp (self : AmbilightPro.t) w :
  exists r self' w',
    AmbilightPro.cleanup cp (self, w) = (r, (self', w')) /\
    AmbilightPro.running self' = false /\
    match r with
    | Ok _ => is_open (SerialSender.serial (AmbilightPro.sender self')) = false
    | Raise e => e = KeyboardInterrupt /\ cp <> None
    end.
Proof.
  unfold AmbilightPro.cleanup, SerialSender.close.
  destruct cp as [[| |]|]; munfold; simpl; try (by eexists _, _, _);
    destruct (is_open (SerialSender.serial (AmbilightPro.sender self))) eqn:Eo;
    try (destruct (send_total (AmbilightPro.sender self) zeros_uint8 w) as (b & w' & ->));
    simpl; by eexists _, _, _.
Qed.

Lemma basic_send_raise colors (self : Ambilight.t) w e w' :
  serial_write (Ambilight.header self ++ tobytes colors) w = (Raise e, w') ->
  Ambilight.send colors (self, w) = (Ok PyNone, (Ambilight.set_running self false, w')).
Proof. intros H. unfold Ambilight.send. munfold. by rewrite H. Qed.

Lemma basic_send_ok colors (self : Ambilight.t) w w' :
  serial_write (Ambilight.header self ++ tobytes colors) w = (Ok tt, w') ->
  Ambilight.send colors (self, w) = (Ok PyNone, (self, w')).
Proof. intros H. unfold Ambilight.send. munfold. by rewrite H. Qed.

Lemma basic_cleanup_total cp (self : Ambilight.t) w :
  exists r self' w',
    Ambilight.cleanup cp (self, w) = (r, (self', w')) /\
    Ambilight.running self' = false /\
    match r with
    | Ok _ => is_open (Ambilight.serial self') = false
    | Raise e => e = KeyboardInterrupt /\ cp <> None
    end.
Proof.
  unfold Ambilight.cleanup.
  unfold bindM at 1 2, get_self at 1, set_self at 1. cbn beta iota.
  assert (cp = Some BeforeBlack \/ cp <> Some BeforeBlack) as [-> | Hcp]
    by (destruct cp as [[| |]|]; auto).
  { by eexists _, _, _. }
  assert (forall X (a b : X), match cp with Some BeforeBlack => a | _ => b end = b) as ->
    by (intros; by destruct cp as [[| |]|]).
  unfold bindM at 1, get_self at 1. cbn beta iota. cbn [Ambilight.serial Ambilight.set_running].
  destruct (is_open (Ambilight.serial self)) eqn:Eo; [|by eexists _, _, _].
  unfold bindM at 1.
  destruct (serial_write_total (Ambilight.header (Ambilight.set_running self false)
                                ++ tobytes zeros_uint8) w) as [(e & w' & H) | (w' & H)].
  - rewrite (basic_send_raise _ _ _ _ _ H).
    destruct cp as [[| |]|]; try done; munfold; simpl; by eexists _, _, _.
  - rewrite (basic_send_ok _ _ _ _ H).
    destruct cp as [[| |]|]; try done; munfold; simpl; by eexists _, _, _.
Qed.

(** C7, as amended. [SerialSender.send] returns [False] when the serial
    write raises and [True] when it succeeds, and never raises itself; an
    iteration of the loop of [AmbilightPro.run] whose [send] fails leaves the
    loop by [break] whatever would follow, and [run] then runs [cleanup], which
    clears [running] and closes the port. [Ambilight.send] returns [None] in
    both cases and never raises; when the write raises it clears [running],
    the [while self.running] loop ends before the next iteration, and [run]
    runs [cleanup]. (The loop runs once [frame_time] is computed and the
    [try:] entered; if Ctrl+C arrives while [cleanup] runs, [running] is
    cleared all the same and [run] ends with [KeyboardInterrupt].) *)
Theorem send_failure_is_fatal :
  (forall (s : SerialSender.t) colors w,
      (forall e w', serial_write (SerialSender.header s ++ tobytes colors) w = (Raise e, w') ->
                    SerialSender.send s colors w = (Ok (PyBool false), w')) /\
      (forall w', serial_write (SerialSender.header s ++ tobytes colors) w = (Ok tt, w') ->
                  SerialSender.send s colors w = (Ok (PyBool true), w')) /\
      (exists b w', SerialSender.send s colors w = (Ok (PyBool b), w'))) /\
  (forall self w rest colors rb e w',
      AmbilightPro.running self = true ->
      RingBuffer.get (AmbilightPro.color_buffer self) = Ok (Some colors, rb) ->
      serial_write
        (SerialSender.header (AmbilightPro.sender self) ++
         tobytes (ColorProcessor.process (AmbilightPro.processor self) colors).1) w
        = (Raise e, w') ->
      AmbilightPro.loop (AmbilightPro.Consume :: rest) (self, w)
      = (Ok Broke,
         (AmbilightPro.set_processor (AmbilightPro.set_color_buffer self rb)
            (ColorProcessor.process (AmbilightPro.processor self) colors).2, w'))) /\
  (forall sig sched self w s1 ft,
      frame_time (AmbilightPro.target_fps self) = Ok ft ->
      before_try sig = None ->
      AmbilightPro.loop sched (AmbilightPro.set_running self true, w) = (Ok Broke, s1) ->
      exists r self2 w2,
        AmbilightPro.cleanup (in_cleanup sig) s1 = (r, (self2, w2)) /\
        AmbilightPro.running self2 = false /\
        (in_cleanup sig = None -> r = Ok tt) /\
        match r with
        | Ok _ =>
            AmbilightPro.run sig sched (self, w) = (Ok Broke, (self2, w2)) /\
            is_open (SerialSender.serial (AmbilightPro.sender self2)) = false
        | Raise e =>
            AmbilightPro.run sig sched (self, w) = (Raise e, (self2, w2)) /\
            e = KeyboardInterrupt
        end) /\
  (forall colors (self : Ambilight.t) w,
      (forall e w', serial_write (Ambilight.header self ++ tobytes colors) w = (Raise e, w') ->
                    Ambilight.send colors (self, w)
                    = (Ok PyNone, (Ambilight.set_running self false, w'))) /\
      (forall w', serial_write (Ambilight.header self ++ tobytes colors) w = (Ok tt, w') ->
                  Ambilight.send colors (self, w) = (Ok PyNone, (self, w')))) /\
  (forall self w imgs rest colors e w',
      Ambilight.running self = true ->
      Ambilight.capture_and_sample self imgs = Ok colors ->
      let '(out, self') := Ambilight.process_colors (Ambilight.set_colors self colors) in
      serial_write (Ambilight.header self ++ tobytes out) w = (Raise e, w') ->
      Ambilight.loop (Ambilight.Frame imgs :: rest) (self, w)
      = (Ok LoopEnded, (Ambilight.set_running self' false, w'))) /\
  (forall sig sched self w s1 ft,
      frame_time (Ambilight.target_fps self) = Ok ft ->
      before_try sig = None ->
      Ambilight.loop sched (Ambilight.set_running self true, w) = (Ok LoopEnded, s1) ->
      exists r self2 w2,
        Ambilight.cleanup (in_cleanup sig) s1 = (r, (self2, w2)) /\
        Ambilight.running self2 = false /\
        (in_cleanup sig = None -> r = Ok tt) /\
        match r with
        | Ok _ =>
            Ambilight.run sig sched (self, w) = (Ok LoopEnded, (self2, w2)) /\
            is_open (Ambilight.serial self2) = false
        | Raise e =>
            Ambilight.run sig sched (self, w) = (Raise e, (self2, w2)) /\
            e = KeyboardInterrupt
        end).
Proof.
  split; [|split; [|split; [|split; [|split]]]].
  - intros s colors w. split; [|split].
    + intros e w'. apply send_raise.
    + intros w'. apply send_ok.
    + apply send_total.
  - intros self w rest colors rb e w' Hrun Hget Hw.
    cbn [AmbilightPro.loop]. unfold AmbilightPro.consume. munfold. cbn beta iota.
    rewrite Hrun. cbn [negb]. cbn beta iota. rewrite Hget. simpl.
    destruct (ColorProcessor.process (AmbilightPro.processor self) colors) as [out pr] eqn:Ep.
    simpl in *. by rewrite (send_raise _ _ _ _ _ Hw).
  - intros sig sched self w [self1 w1] ft Hft Hsig Hloop.
    unfold AmbilightPro.run. rewrite Hsig. munfold.
    cbn [AmbilightPro.target_fps AmbilightPro.set_running]. rewrite Hft, Hloop.
    destruct (cleanup_total (in_cleanup sig) self1 w1) as (r & self2 & w2 & Hcl & Hr & Ho).
    rewrite Hcl. exists r, self2, w2. split; [done|]. split; [done|]. split.
    + intros Hn. destruct r as [[]|e]; [done|]. by destruct Ho as [_ ?].
    + destruct r as [[]|e]; [done|]. by destruct Ho.
  - intros colors self w. split.
    + intros e w'. apply basic_send_raise.
    + intros w'. apply basic_send_ok.
  - intros self w imgs rest colors e w' Hrun Hcap.
    destruct (Ambilight.process_colors (Ambilight.set_colors self colors)) as [out self'] eqn:Ep.
    assert (Ambilight.header self' = Ambilight.header self) as Hh.
    { unfold Ambilight.process_colors in Ep.
      destruct (Ambilight.first_frame (Ambilight.set_colors self colors));
        injection Ep as _ <-; done. }
    intros Hw. cbn [Ambilight.loop]. munfold. cbn beta iota.
    rewrite Hrun. cbn [negb]. cbn beta iota. rewrite Hcap. simpl. rewrite Ep.
    rewrite <- Hh in Hw. rewrite (basic_send_raise _ _ _ _ _ Hw).
    destruct rest; simpl; munfold; done.
  - intros sig sched self w [self1 w1] ft Hft Hsig Hloop.
    unfold Ambilight.run. rewrite Hsig. munfold.
    cbn [Ambilight.target_fps Ambilight.set_running]. rewrite Hft, Hloop.
    destruct (basic_cleanup_total (in_cleanup sig) self1 w1)
      as (r & self2 & w2 & Hcl & Hr & Ho).
    rewrite Hcl. exists r, self2, w2. split; [done|]. split; [done|]. split.
    + intros Hn. destruct r as [[]|e]; [done|]. by destruct Ho as [_ ?].
    + destruct r as [[]|e]; [done|]. by destruct Ho.
Qed.

Lemma send_failure_is_fatal_witness :
  AmbilightPro.loop [AmbilightPro.Consume; AmbilightPro.Consume] (Sample.pro_loaded, Sample.w_fail)
  = (Ok Broke,
     (AmbilightPro.set_processor (AmbilightPro.set_color_buffer Sample.pro_loaded Sample.taken)
        (ColorProcessor.process (AmbilightPro.processor Sample.pro_loaded) zeros_float32).2,
      set_faults Sample.w_fail [])).
Proof.
  apply (proj1 (proj2 send_failure_is_fatal) Sample.pro_loaded Sample.w_fail
           [AmbilightPro.Consume] zeros_float32 Sample.taken SerialException
           (set_faults Sample.w_fail [])).
  - reflexivity.
  - reflexivity.
  - reflexivity.
Defined.

Lemma send_returns_boolean_counterexample :
  (serial_write (Ambilight.header Sample.basic ++ tobytes zeros_uint8) Sample.w0).1 = Ok tt /\
  (Ambilight.send zeros_uint8 (Sample.basic, Sample.w0)).1 = Ok PyNone /\
  ~ (exists b, (Ambilight.send zeros_uint8 (Sample.basic, Sample.w0)).1 = Ok (PyBool b)).
Proof.
  split; [reflexivity|]. split; [reflexivity|].
  intros [b Hb]. vm_compute in Hb. discriminate.
Qed.

(** ** Port auto-detection *)

Lemma find_first {X} (f : X -> bool) (pre post : list X) (x : X) :
  (forall q, q ∈ pre -> f q = false) -> f x = true ->
  find f (pre ++ x :: post) = Some x.
Proof.
  intros Hpre Hx. induction pre as [|y pre IH]; simpl.
  - by rewrite Hx.
  - rewrite (Hpre y) by apply list_elem_of_here. apply IH.
    intros q Hq. apply Hpre. by apply list_elem_of_further.
Qed.

Lemma find_unique {X} (f : X -> bool) (l : list X) (x : X) :
  x ∈ l -> f x = true -> (forall q, q ∈ l -> f q = true -> q = x) ->
  find f l = Some x.
Proof.
  intros Hin Hx Huniq. induction l as [|y l IH]; [by apply elem_of_nil in Hin|].
  simpl. destruct (f y) eqn:Ey.
  - f_equal. apply Huniq; [apply list_elem_of_here|done].
  - apply IH.
    + apply elem_of_cons in Hin as [->|Hin]; [congruence|done].
    + intros q Hq. apply Huniq. by apply list_elem_of_further.
Qed.

Lemma find_no_match {X} (f : X -> bool) (l : list X) :
  (forall q, q ∈ l -> f q = false) -> find f l = None.
Proof.
  intros H. induction l as [|y l IH]; [done|]. simpl.
  rewrite (H y) by apply list_elem_of_here. apply IH.
  intros q Hq. apply H. by apply list_elem_of_further.
Qed.

(** C6, as amended. Auto-detection picks the first port, in enumeration
    order, that matches: in the multithreaded program a port matches when a
    keyword occurs in its description or in its device name, in the
    single-threaded one when a keyword occurs in its description. So when
    exactly one port matches, its device is selected; when the list is not
    empty and no port matches, the first port is selected; when the list is
    empty, detection ends the program with [sys.exit(1)]. *)
Theorem auto_detect_selection :
  (forall w pre p post,
      comports w = pre ++ p :: post ->
      (forall q, q ∈ pre -> SerialSender.matches q = false) ->
      SerialSender.matches p = true ->
      (SerialSender._auto_detect w).1 = Ok (device p)) /\
  (forall w p,
      p ∈ comports w -> SerialSender.matches p = true ->
      (forall q, q ∈ comports w -> SerialSender.matches q = true -> q = p) ->
      (SerialSender._auto_detect w).1 = Ok (device p)) /\
  (forall w p rest,
      comports w = p :: rest ->
      (forall q, q ∈ comports w -> SerialSender.matches q = false) ->
      (SerialSender._auto_detect w).1 = Ok (device p)) /\
  (forall w,
      comports w = [] ->
      (SerialSender._auto_detect w).1 = Raise (SystemExit 1) /\
      (SerialSender._connect None w).1 = Raise (SystemExit 1)) /\
  (forall w pre p post,
      comports w = pre ++ p :: post ->
      (forall q, q ∈ pre -> Ambilight.matches q = false) ->
      Ambilight.matches p = true ->
      (Ambilight.auto_detect w).1 = Ok (device p)) /\
  (forall w p,
      p ∈ comports w -> Ambilight.matches p = true ->
      (forall q, q ∈ comports w -> Ambilight.matches q = true -> q = p) ->
      (Ambilight.auto_detect w).1 = Ok (device p)) /\
  (forall w p rest,
      comports w = p :: rest ->
      (forall q, q ∈ comports w -> Ambilight.matches q = false) ->
      (Ambilight.auto_detect w).1 = Ok (device p)) /\
  (forall w,
      comports w = [] ->
      (Ambilight.auto_detect w).1 = Raise (SystemExit 1) /\
      (Ambilight.connect_serial None w).1 = Raise (SystemExit 1)).
Proof.
  split; [|split; [|split; [|split; [|split; [|split; [|split]]]]]].
  - intros w pre p post Hports Hpre Hp.
    unfold SerialSender._auto_detect. munfold. simpl.
    by rewrite Hports, (find_first _ _ _ _ Hpre Hp).
  - intros w p Hin Hp Huniq.
    unfold SerialSender._auto_detect. munfold. simpl.
    by rewrite (find_unique _ _ _ Hin Hp Huniq).
  - intros w p rest Hports Hnone.
    unfold SerialSender._auto_detect. munfold. simpl.
    by rewrite (find_no_match _ _ Hnone), Hports.
  - intros w Hports.
    unfold SerialSender._connect, SerialSender._auto_detect. munfold. simpl.
    by rewrite Hports.
  - intros w pre p post Hports Hpre Hp.
    unfold Ambilight.auto_detect. munfold. simpl.
    by rewrite Hports, (find_first _ _ _ _ Hpre Hp).
  - intros w p Hin Hp Huniq.
    unfold Ambilight.auto_detect. munfold. simpl.
    by rewrite (find_unique _ _ _ Hin Hp Huniq).
  - intros w p rest Hports Hnone.
    unfold Ambilight.auto_detect. munfold. simpl.
    by rewrite (find_no_match _ _ Hnone), Hports.
  - intros w Hports.
    unfold Ambilight.connect_serial, Ambilight.auto_detect. munfold. simpl.
    by rewrite Hports.
Qed.

Lemma auto_detect_selection_witness :
  (SerialSender._auto_detect Sample.w0).1 = Ok (device Sample.uno).
Proof.
  apply (proj1 auto_detect_selection Sample.w0 [Sample.builtin] Sample.uno []).
  - reflexivity.
  - intros q Hq. apply list_elem_of_singleton in Hq as ->. reflexivity.
  - reflexivity.
Defined.

Lemma auto_detect_description_counterexample :
  filter (fun p => existsb (fun k => py_in k (description p)) SerialSender.keywords)
         (comports Sample.w_two) = [Sample.uno] /\
  (SerialSender._auto_detect Sample.w_two).1 = Ok (device Sample.ftdi) /\
  device Sample.ftdi <> device Sample.uno.
Proof. split; [reflexivity|]. split; [reflexivity|]. discriminate. Qed.

(** ** Monitor selection *)

(** C8. With one physical monitor ([monitors] of length 2), the monitor
    index -4 makes both [_setup_monitor]s raise [IndexError] instead of
    clamping. Indices that Python's negative subscripts still accept wrap
    around: -3 selects [monitors[-2]], and with two monitors -2 selects the
    last one, not the nearest. *)
Theorem negative_monitor_index_fails :
  ScreenCapture._setup_monitor Sample.one_monitor (-4) = Raise IndexError /\
  Ambilight._setup_monitor Sample.one_monitor (-4) = Raise IndexError /\
  ScreenCapture.__init__ Sample.one_monitor (-4) = Raise IndexError /\
  Ambilight._setup_monitor Sample.one_monitor (-3) = py_getitem Sample.one_monitor 0 /\
  Ambilight._setup_monitor Sample.two_monitors (-2) = Ok Sample.second.
Proof. repeat split; reflexivity. Qed.

Lemma setup_monitor_in_range (monitors : list monitor) (monitor_num : Z) :
  monitors <> [] -> -1 <= monitor_num ->
  exists mon,
    Ambilight._setup_monitor monitors monitor_num = Ok mon /\
    monitors !! Z.to_nat (Z.min (monitor_num + 1) (Z.of_nat (length monitors) - 1)) = Some mon /\
    (exists regs, ScreenCapture._setup_monitor monitors monitor_num = Ok (mon, regs)).
Proof.
  intros Hne Hn.
  assert (0 < length monitors)%nat by (destruct monitors; [done|simpl; lia]).
  set (idx := Z.min (monitor_num + 1) (Z.of_nat (length monitors) - 1)).
  destruct (py_getitem_in_range monitors idx) as (mon & Hl & Hg); [unfold idx; lia|].
  exists mon. unfold Ambilight._setup_monitor, ScreenCapture._setup_monitor.
  fold idx. rewrite Hg. simpl. eauto.
Qed.

(** * Further properties *)

(** ** The ring buffer as a mailbox *)

Section MailboxFacts.
Context {A : Type}.
Implicit Types (rb : RingBuffer.t A) (slot : option A).

Lemma holds_init size (z : A) : 1 <= size -> holds (RingBuffer.__init__ size z) None 0.
Proof.
  intros H. split; [by apply init_inv|]. simpl.
  split; [lia|]. split; [lia|]. split; [done|].
  split; [by rewrite Z.mod_0_l by lia|done].
Qed.

Lemma holds_put rb slot n d :
  holds rb slot n ->
  exists rb', RingBuffer.put rb d = Ok rb' /\ holds rb' (Some d) (n + 1) /\
              RingBuffer.size rb' = RingBuffer.size rb.
Proof.
  intros (Hinv & Hn & Hc & Hslot & Hr & Hb).
  pose proof Hinv as (Hs & Hl & Hcnt & Hw & Hrd).
  unfold RingBuffer.put.
  rewrite py_setitem_in_range by lia. simpl.
  rewrite py_mod_pos by lia. simpl.
  set (sz := RingBuffer.size rb) in *. set (w := RingBuffer.write_idx rb) in *.
  set (c := RingBuffer.count rb) in *. set (r := RingBuffer.read_idx rb) in *.
  pose proof (Z.mod_pos_bound (w + 1) sz ltac:(lia)) as Hw1.
  pose proof (Z.mod_pos_bound (r + 1) sz ltac:(lia)) as Hr1.
  assert (((w + 1) mod sz - 1) mod sz = w) as Hback.
  { rewrite Zminus_mod_idemp_l. replace (w + 1 - 1) with w by lia.
    apply Z.mod_small. lia. }
  destruct (c <? sz) eqn:E.
  - eexists. split; [done|]. split; [|done].
    split. { unfold RingBuffer.inv; simpl. rewrite length_insert. fold sz w c r. lia. }
    simpl. fold sz w c r. split; [lia|]. split; [lia|]. split; [split; [lia|done]|].
    split.
    + rewrite Zminus_mod_idemp_l. rewrite Hr. f_equal. lia.
    + intros d' [= <-]. rewrite Hback. apply list_lookup_insert_eq. lia.
  - rewrite py_mod_pos by lia. simpl.
    eexists. split; [done|]. split; [|done].
    split. { unfold RingBuffer.inv; simpl. rewrite length_insert. fold sz w c r. lia. }
    simpl. fold sz w c r. split; [lia|]. split; [lia|]. split; [split; [lia|done]|].
    split.
    + rewrite Zminus_mod_idemp_l. rewrite Hr, Zplus_mod_idemp_l. f_equal. lia.
    + intros d' [= <-]. rewrite Hback. apply list_lookup_insert_eq. lia.
Qed.

Lemma holds_get rb slot n :
  holds rb slot n ->
  exists rb', RingBuffer.get rb = Ok (slot, rb') /\ holds rb' None 0 /\
              RingBuffer.size rb' = RingBuffer.size rb.
Proof.
  intros (Hinv & Hn & Hc & Hslot & Hr & Hb).
  pose proof Hinv as (Hs & Hl & Hcnt & Hw & Hrd).
  unfold RingBuffer.get. destruct (RingBuffer.count rb =? 0) eqn:E.
  - assert (n = 0) as Hn0 by lia. apply Hslot in Hn0 as ->.
    exists rb. split; [done|]. split; [|done]. split; [done|]. split; [lia|].
    split; [lia|]. split; [done|]. split; [done|done].
  - rewrite py_mod_pos by lia. simpl.
    destruct slot as [d|]; [|assert (n = 0) by (by apply Hslot); lia].
    pose proof (Z.mod_pos_bound (RingBuffer.write_idx rb - 1) (RingBuffer.size rb) ltac:(lia)).
    destruct (py_getitem_in_range (RingBuffer.buffers rb)
                ((RingBuffer.write_idx rb - 1) mod RingBuffer.size rb))
      as (x & Hx & ->); [lia|].
    rewrite (Hb d eq_refl) in Hx. injection Hx as <-. simpl.
    eexists. split; [done|]. split; [|done].
    split. { unfold RingBuffer.inv; simpl. lia. }
    simpl. split; [lia|]. split; [lia|]. split; [done|].
    split; [|done]. rewrite Z.sub_0_r. symmetry. apply Z.mod_small. lia.
Qed.

Lemma holds_run ops : forall rb slot n,
  holds rb slot n ->
  exists rb', RingBuffer.run_ops rb ops = Ok (mailbox slot ops, rb') /\
              RingBuffer.count rb' = Z.min (unread n ops) (RingBuffer.size rb') /\
              RingBuffer.size rb' = RingBuffer.size rb /\
              RingBuffer.read_idx rb'
              = (RingBuffer.write_idx rb' - RingBuffer.count rb') mod RingBuffer.size rb'.
Proof.
  induction ops as [|[d|] ops IH]; intros rb slot n H; simpl.
  - exists rb. split; [done|]. destruct H as (_ & _ & Hc & _ & Hr & _). done.
  - destruct (holds_put rb slot n d H) as (rb1 & Hput & H1 & Hs1).
    rewrite Hput. simpl.
    destruct (IH rb1 _ _ H1) as (rb' & -> & ? & Hsz & ?).
    exists rb'. split; [done|]. split; [done|]. split; [congruence|done].
  - destruct (holds_get rb slot n H) as (rb1 & Hget & H1 & Hs1).
    rewrite Hget. simpl.
    destruct (IH rb1 _ _ H1) as (rb' & -> & ? & Hsz & ?). simpl.
    exists rb'. split; [done|]. split; [done|]. split; [congruence|done].
Qed.
End MailboxFacts.

(** X1. A ring buffer of any capacity [size >= 1] behaves, for its two
    threads, as a mailbox with one slot: whatever the sequence of [put]s and
    [get]s, no operation raises, and every [get] returns the value of the
    last [put] if there was one since the previous [get], and [None]
    otherwise. Older unread values are never delivered, and no value is
    delivered twice. *)
Theorem ring_buffer_is_a_mailbox {A} (size : Z) (zeros : A) (ops : list (RingBuffer.op A)) :
  1 <= size ->
  exists rb, RingBuffer.run_ops (RingBuffer.__init__ size zeros) ops = Ok (mailbox None ops, rb).
Proof.
  intros H. destruct (holds_run ops _ _ _ (holds_init size zeros H)) as (rb & Hrun & _).
  by exists rb.
Qed.

Lemma ring_buffer_is_a_mailbox_witness :
  exists rb, RingBuffer.run_ops (RingBuffer.__init__ 1 0)
               [RingBuffer.Put 5; RingBuffer.Put 6; RingBuffer.Get; RingBuffer.Get]
             = Ok (mailbox None [RingBuffer.Put 5; RingBuffer.Put 6; RingBuffer.Get; RingBuffer.Get], rb).
Proof. apply (ring_buffer_is_a_mailbox 1 0). lia. Defined.

(** X2. After any sequence of [put]s and [get]s on a ring buffer created
    with [size >= 1], [count] is the number of [put]s since the last [get],
    capped at [size], and [read_idx] is [count] slots behind [write_idx]:
    [read_idx = (write_idx - count) mod size]. *)
Theorem ring_buffer_counts_unread {A} (size : Z) (zeros : A) (ops : list (RingBuffer.op A)) :
  1 <= size ->
  exists outs rb,
    RingBuffer.run_ops (RingBuffer.__init__ size zeros) ops = Ok (outs, rb) /\
    RingBuffer.count rb = Z.min (unread 0 ops) size /\
    RingBuffer.read_idx rb = (RingBuffer.write_idx rb - RingBuffer.count rb) mod size.
Proof.
  intros H.
  destruct (holds_run ops _ _ _ (holds_init size zeros H)) as (rb & Hrun & Hc & Hsz & Hr).
  simpl in Hsz. rewrite Hsz in *. by exists (mailbox None ops), rb.
Qed.

Lemma ring_buffer_counts_unread_witness :
  exists outs rb,
    RingBuffer.run_ops (RingBuffer.__init__ 2 0)
      [RingBuffer.Put 5; RingBuffer.Put 6; RingBuffer.Put 7] = Ok (outs, rb) /\
    RingBuffer.count rb = Z.min (unread 0 [RingBuffer.Put 5; RingBuffer.Put 6; RingBuffer.Put 7]) 2 /\
    RingBuffer.read_idx rb = (RingBuffer.write_idx rb - RingBuffer.count rb) mod 2.
Proof. apply (ring_buffer_counts_unread 2 0). lia. Defined.

(** ** The pixels behind an LED *)

Lemma elem_of_slice_indices (s : slice) (len p : Z) :
  1 <= step s ->
  p ∈ slice_indices s len <->
  in_segment s len p /\ (p - slice_bound (start s) 0 len) mod step s = 0.
Proof.
  intros Hstep. split.
  - intros Hp. split; [by apply slice_indices_in_segment|].
    unfold slice_indices in Hp. apply list_elem_of_fmap in Hp as (k & -> & _).
    replace (_ + k * step s - _) with (k * step s) by lia. apply Z.mod_mul. lia.
  - intros [Hin Hmod]. unfold slice_indices, in_segment in *.
    set (lo := slice_bound (start s) 0 len) in *.
    set (hi := slice_bound (stop s) len len) in *.
    apply Z.mod_divide in Hmod as [k Hk]; [|lia].
    apply list_elem_of_fmap. exists k. split; [lia|].
    apply elem_of_py_range. split; [nia|].
    assert (k + 1 <= (hi - lo + step s - 1) / step s)
      by (apply Z.div_le_lower_bound; nia).
    lia.
Qed.

Lemma pro_slices (cap : ScreenCapture.t) :
  ScreenCapture_wf cap ->
  let w := ScreenCapture.width cap in
  let h := ScreenCapture.height cap in
  let ds := DOWNSAMPLE in
  let all := {| start := None; stop := None; step := ds |} in
  ScreenCapture.left_slices cap
  = map (fun i => ({| start := Some (h - (i + 1) * (h / 19));
                      stop := Some (h - (i + 1) * (h / 19) + h / 19); step := ds |}, all))
        (py_range 19) /\
  ScreenCapture.top_slices cap
  = map (fun i => (all, {| start := Some (i * (w / 35));
                           stop := Some (i * (w / 35) + w / 35); step := ds |}))
        (py_range 35) /\
  ScreenCapture.right_slices cap
  = map (fun i => ({| start := Some (i * (h / 19));
                      stop := Some (i * (h / 19) + h / 19); step := ds |}, all))
        (py_range 19).
Proof.
  intros Hwf w h ds all.
  unfold ScreenCapture_wf, ScreenCapture._precompute_indices in Hwf. cbv zeta in Hwf.
  pose proof (f_equal (fun t => t.1.1) Hwf) as Hl.
  pose proof (f_equal (fun t => t.1.2) Hwf) as Ht.
  pose proof (f_equal snd Hwf) as Hr.
  cbn [fst snd] in Hl, Ht, Hr. by rewrite <- Hl, <- Ht, <- Hr.
Qed.

Lemma in_segment_all (stp len p : Z) :
  0 <= len -> in_segment {| start := None; stop := None; step := stp |} len p <-> 0 <= p < len.
Proof. intros H. unfold in_segment. simpl. done. Qed.

Lemma omap_lookup_total {X Y} (f : X -> option Y) (xs : list X) (k : nat) :
  (forall x, x ∈ xs -> is_Some (f x)) ->
  omap f xs !! k = match xs !! k with Some x => f x | None => None end.
Proof.
  revert k. induction xs as [|x xs IH]; intros k Hall; [done|].
  destruct (Hall x (list_elem_of_here _ _)) as [y Hy]. simpl. rewrite Hy.
  destruct k as [|k]; simpl; [done|].
  apply IH. intros x' Hx'. apply Hall. by apply list_elem_of_further.
Qed.

Lemma list_lookup_map {X Y} (f : X -> Y) (l : list X) (k : nat) :
  map f l !! k = match l !! k with Some x => Some (f x) | None => None end.
Proof. revert k. induction l as [|x l IH]; intros [|k]; simpl; auto. Qed.

Lemma slice_bound_range (b : option Z) (d len : Z) :
  0 <= d <= len -> 0 <= slice_bound b d len <= len.
Proof.
  intros H. unfold slice_bound. destruct b as [v|]; [|done].
  destruct (v <? 0) eqn:E; lia.
Qed.

Lemma slice_indices_lookup (s : slice) (len : Z) (k : nat) :
  1 <= step s ->
  slice_indices s len !! k
  = if slice_bound (start s) 0 len + Z.of_nat k * step s <? slice_bound (stop s) len len
    then Some (slice_bound (start s) 0 len + Z.of_nat k * step s) else None.
Proof.
  intros Hstep. unfold slice_indices.
  set (lo := slice_bound (start s) 0 len). set (hi := slice_bound (stop s) len len).
  cbv zeta. rewrite list_lookup_fmap.
  destruct (lo + Z.of_nat k * step s <? hi) eqn:E.
  - rewrite py_range_lookup; [done|].
    assert (Z.of_nat k + 1 <= (hi - lo + step s - 1) / step s)
      by (apply Z.div_le_lower_bound; nia).
    lia.
  - rewrite lookup_ge_None_2; [done|]. rewrite py_range_length.
    assert ((hi - lo + step s - 1) / step s < Z.of_nat k + 1)
      by (apply Z.div_lt_upper_bound; nia).
    lia.
Qed.

Lemma py_slice_lookup {X} (l : list X) (s : slice) (k : nat) :
  1 <= step s ->
  let len := Z.of_nat (length l) in
  py_slice l s !! k
  = if slice_bound (start s) 0 len + Z.of_nat k * step s <? slice_bound (stop s) len len
    then l !! Z.to_nat (slice_bound (start s) 0 len + Z.of_nat k * step s) else None.
Proof.
  intros Hstep len. unfold py_slice. fold len.
  rewrite omap_lookup_total.
  - rewrite slice_indices_lookup by done. by destruct (_ <? _).
  - intros p Hp. apply slice_indices_in_segment in Hp; [|done].
    unfold in_segment in Hp.
    pose proof (slice_bound_range (start s) 0 len ltac:(lia)).
    pose proof (slice_bound_range (stop s) len len ltac:(lia)).
    apply lookup_lt_is_Some_2. lia.
Qed.

(** Pixel [(a, b)] of [img[ys, xs]] is the pixel of [img] in the [a]-th row
    and the [b]-th column the slices select. *)
Lemma img_slice_pixel (img : image) (ys xs : slice) (a b : nat) :
  1 <= step ys -> 1 <= step xs ->
  let h := Z.of_nat (length img) in
  pixel_at (img_slice img ys xs) a b
  = if slice_bound (start ys) 0 h + Z.of_nat a * step ys <? slice_bound (stop ys) h h
    then match img !! Z.to_nat (slice_bound (start ys) 0 h + Z.of_nat a * step ys) with
         | Some row =>
             let w := Z.of_nat (length row) in
             if slice_bound (start xs) 0 w + Z.of_nat b * step xs
                <? slice_bound (stop xs) w w
             then row !! Z.to_nat (slice_bound (start xs) 0 w + Z.of_nat b * step xs)
             else None
         | None => None
         end
    else None.
Proof.
  intros Hy Hx h. unfold pixel_at, img_slice, image. rewrite list_lookup_map.
  rewrite py_slice_lookup by done. fold h.
  destruct (_ <? _); [|done].
  destruct (@lookup nat (list pixel) (list (list pixel)) _
              (Z.to_nat (slice_bound (start ys) 0 h + Z.of_nat a * step ys)) img)
    as [row|]; [|done].
  by rewrite py_slice_lookup.
Qed.

(** A segment of rows, [img[y0:y0+seg:d, ::d]]: the edges on the left and on
    the right. *)
Lemma rows_segment_pixel (img : image) (y0 seg d : Z) (a b : nat) :
  1 <= d -> 0 <= y0 -> 0 <= seg -> y0 + seg <= Z.of_nat (length img) ->
  pixel_at (img_slice img {| start := Some y0; stop := Some (y0 + seg); step := d |}
              {| start := None; stop := None; step := d |}) a b
  = if Z.of_nat a * d <? seg
    then pixel_at img (Z.to_nat (y0 + Z.of_nat a * d)) (Z.to_nat (Z.of_nat b * d))
    else None.
Proof.
  intros Hd Hy0 Hseg Hlen. rewrite img_slice_pixel by done. cbv zeta.
  unfold slice_bound; simpl.
  destruct (y0 <? 0) eqn:E1; [lia|]. destruct (y0 + seg <? 0) eqn:E2; [lia|].
  rewrite !Z.min_l by lia.
  destruct (Z.of_nat a * d <? seg) eqn:E3.
  - destruct (y0 + Z.of_nat a * d <? y0 + seg) eqn:E4; [|lia].
    unfold pixel_at, image. rewrite !Z.add_0_l.
    destruct (@lookup nat (list pixel) (list (list pixel)) _
                (Z.to_nat (y0 + Z.of_nat a * d)) img) as [row|]; [|done].
    destruct (Z.of_nat b * d <? Z.of_nat (length row)) eqn:E5; [done|].
    symmetry. apply lookup_ge_None_2. lia.
  - destruct (y0 + Z.of_nat a * d <? y0 + seg) eqn:E4; [lia|done].
Qed.

(** A segment of columns, [img[::d, x0:x0+seg:d]]: the edge at the top. *)
Lemma cols_segment_pixel (img : image) (x0 seg d w : Z) (a b : nat) :
  1 <= d -> 0 <= x0 -> 0 <= seg -> x0 + seg <= w ->
  Forall (fun row => length row = Z.to_nat w) img ->
  pixel_at (img_slice img {| start := None; stop := None; step := d |}
              {| start := Some x0; stop := Some (x0 + seg); step := d |}) a b
  = if Z.of_nat b * d <? seg
    then pixel_at img (Z.to_nat (Z.of_nat a * d)) (Z.to_nat (x0 + Z.of_nat b * d))
    else None.
Proof.
  intros Hd Hx0 Hseg Hw Hrows. rewrite img_slice_pixel by done. cbv zeta.
  unfold slice_bound at 1 2; simpl.
  unfold pixel_at, image. rewrite !Z.add_0_l.
  destruct (Z.of_nat a * d <? Z.of_nat (length img)) eqn:E1; cycle 1.
  { rewrite (lookup_ge_None_2 img) by lia. by destruct (Z.of_nat b * d <? seg). }
  destruct (@lookup nat (list pixel) (list (list pixel)) _
              (Z.to_nat (Z.of_nat a * d)) img) as [row|] eqn:Erow;
    [|by destruct (Z.of_nat b * d <? seg)].
  assert (length row = Z.to_nat w) as Hrow.
  { eapply (proj1 (Forall_forall _ _) Hrows). by eapply list_elem_of_lookup_2. }
  unfold slice_bound; simpl.
  destruct (x0 <? 0) eqn:E2; [lia|]. destruct (x0 + seg <? 0) eqn:E3; [lia|].
  rewrite !Z.min_l by lia.
  destruct (Z.of_nat b * d <? seg) eqn:E4.
  - destruct (x0 + Z.of_nat b * d <? x0 + seg) eqn:E5; [done|lia].
  - destruct (x0 + Z.of_nat b * d <? x0 + seg) eqn:E5; [lia|done].
Qed.

Lemma edge_means_lookup (img : image) (slices : list (slice * slice)) (i : nat) ys xs :
  slices !! i = Some (ys, xs) ->
  edge_means img slices !! i = Some (segment_mean (img_slice img ys xs)).
Proof. intros H. unfold edge_means. by rewrite list_lookup_map, H. Qed.

Lemma three_edges_lookup (L T R : list rgb32) :
  length L = 19%nat -> length T = 35%nat ->
  forall i : nat,
    ((i < 19)%nat -> (L ++ T ++ R) !! i = L !! i) /\
    ((i < 35)%nat -> (L ++ T ++ R) !! (19 + i)%nat = T !! i) /\
    (L ++ T ++ R) !! (54 + i)%nat = R !! i.
Proof.
  intros HL HT i. split; [|split].
  - intros Hi. apply lookup_app_l. lia.
  - intros Hi. rewrite lookup_app_r by lia. rewrite lookup_app_l by lia. f_equal. lia.
  - rewrite lookup_app_r by lia. rewrite lookup_app_r by lia. f_equal. lia.
Qed.

(** X3. Which pixels enter an LED's mean. On screen shots of the monitor's
    size, the colour a sampler returns for an LED is the mean
    ([segment_mean]) of a block of pixels of its edge's image, and the block
    is this. Multithreaded program ([sample_colors_vectorized], stride
    [DOWNSAMPLE] = 2 on both axes): pixel [(a, b)] of the block of LED [i] on
    the left edge is the image pixel in row [height - (i+1)*v + 2a] and column
    [2b], for [2a < v]; on the top edge the image pixel in row [2a] and column
    [i*h + 2b], for [2b < h]; on the right edge the image pixel in row
    [i*v + 2a] and column [2b], for [2a < v]; with [v = height // 19] and
    [h = width // 35]. So it reads every second row and every second column
    of the segment. Single-threaded program ([capture_and_sample]): the same
    with stride 1, every pixel of the segment. In the returned array the left
    edge is rows 0..18, the top edge rows 19..53, the right edge rows
    54..72. *)
Theorem sampled_pixels :
  (forall cap uninit imgs (i : nat),
      ScreenCapture_wf cap ->
      let w := ScreenCapture.width cap in
      let h := ScreenCapture.height cap in
      0 <= w -> 0 <= h ->
      length (left_img imgs) = Z.to_nat h ->
      Forall (fun row => length row = Z.to_nat w) (top_img imgs) ->
      length (right_img imgs) = Z.to_nat h ->
      exists colors,
        ScreenCapture.sample_colors_vectorized cap uninit imgs = Ok colors /\
        ((i < 19)%nat ->
         exists seg, colors !! i = Some (segment_mean seg) /\
           forall a b : nat,
             pixel_at seg a b
             = if 2 * Z.of_nat a <? h / 19
               then pixel_at (left_img imgs)
                      (Z.to_nat (h - (Z.of_nat i + 1) * (h / 19)) + 2 * a) (2 * b)
               else None) /\
        ((i < 35)%nat ->
         exists seg, colors !! (19 + i)%nat = Some (segment_mean seg) /\
           forall a b : nat,
             pixel_at seg a b
             = if 2 * Z.of_nat b <? w / 35
               then pixel_at (top_img imgs) (2 * a)
                      (Z.to_nat (Z.of_nat i * (w / 35)) + 2 * b)
               else None) /\
        ((i < 19)%nat ->
         exists seg, colors !! (54 + i)%nat = Some (segment_mean seg) /\
           forall a b : nat,
             pixel_at seg a b
             = if 2 * Z.of_nat a <? h / 19
               then pixel_at (right_img imgs)
                      (Z.to_nat (Z.of_nat i * (h / 19)) + 2 * a) (2 * b)
               else None)) /\
  (forall self imgs (i : nat),
      Ambilight_wf self ->
      let w := Ambilight.width self in
      let h := Ambilight.height self in
      0 <= w -> 0 <= h ->
      length (left_img imgs) = Z.to_nat h ->
      Forall (fun row => length row = Z.to_nat w) (top_img imgs) ->
      length (right_img imgs) = Z.to_nat h ->
      exists colors,
        Ambilight.capture_and_sample self imgs = Ok colors /\
        ((i < 19)%nat ->
         exists seg, colors !! i = Some (segment_mean seg) /\
           forall a b : nat,
             pixel_at seg a b
             = if Z.of_nat a <? h / 19
               then pixel_at (left_img imgs)
                      (Z.to_nat (h - (Z.of_nat i + 1) * (h / 19)) + a) b
               else None) /\
        ((i < 35)%nat ->
         exists seg, colors !! (19 + i)%nat = Some (segment_mean seg) /\
           forall a b : nat,
             pixel_at seg a b
             = if Z.of_nat b <? w / 35
               then pixel_at (top_img imgs) a (Z.to_nat (Z.of_nat i * (w / 35)) + b)
               else None) /\
        ((i < 19)%nat ->
         exists seg, colors !! (54 + i)%nat = Some (segment_mean seg) /\
           forall a b : nat,
             pixel_at seg a b
             = if Z.of_nat a <? h / 19
               then pixel_at (right_img imgs) (Z.to_nat (Z.of_nat i * (h / 19)) + a) b
               else None)).
Proof.
  assert (Hbv : forall h k, 0 <= h -> 0 <= k < 19 ->
                  0 <= h / 19 /\ 0 <= k * (h / 19) /\ k * (h / 19) + h / 19 <= h).
  { intros h k Hh Hk. pose proof (Z.div_pos h 19 Hh ltac:(lia)).
    pose proof (Z.mul_div_le h 19 ltac:(lia)). nia. }
  assert (Hbs : forall w k, 0 <= w -> 0 <= k < 35 ->
                  0 <= w / 35 /\ 0 <= k * (w / 35) /\ k * (w / 35) + w / 35 <= w).
  { intros w k Hw Hk. pose proof (Z.div_pos w 35 Hw ltac:(lia)).
    pose proof (Z.mul_div_le w 35 ltac:(lia)). nia. }
  split.
  - intros cap uninit imgs i Hwf w h Hw Hh HL HT HR.
    destruct (pro_slices cap Hwf) as (Hl & Ht & Hr). fold w h in Hl, Ht, Hr.
    eexists. split; [by apply sample_colors_vectorized_eq|].
    destruct (three_edges_lookup
                (edge_means (left_img imgs) (ScreenCapture.left_slices cap))
                (edge_means (top_img imgs) (ScreenCapture.top_slices cap))
                (edge_means (right_img imgs) (ScreenCapture.right_slices cap))
                ltac:(unfold edge_means; by rewrite length_map, Hl, length_map, py_range_length)
                ltac:(unfold edge_means; by rewrite length_map, Ht, length_map, py_range_length)
                i) as (El & Et & Er).
    split; [|split].
    + intros Hi. destruct (Hbv h (Z.of_nat i) Hh ltac:(lia)) as (? & ? & ?).
      eexists. split.
      * rewrite (El Hi). apply edge_means_lookup. rewrite Hl.
        apply lookup_map_py_range. split; [lia|done].
      * intros a b. rewrite rows_segment_pixel by (unfold DOWNSAMPLE; lia).
        unfold DOWNSAMPLE. rewrite (Z.mul_comm (Z.of_nat a) 2).
        destruct (2 * Z.of_nat a <? h / 19); [|done]. f_equal; lia.
    + intros Hi. destruct (Hbs w (Z.of_nat i) Hw ltac:(lia)) as (? & ? & ?).
      eexists. split.
      * rewrite (Et Hi). apply edge_means_lookup. rewrite Ht.
        apply lookup_map_py_range. split; [lia|done].
      * intros a b. rewrite (cols_segment_pixel _ _ _ _ w) by (unfold DOWNSAMPLE; done || lia).
        unfold DOWNSAMPLE. rewrite (Z.mul_comm (Z.of_nat b) 2).
        destruct (2 * Z.of_nat b <? w / 35); [|done]. f_equal; lia.
    + intros Hi. destruct (Hbv h (Z.of_nat i) Hh ltac:(lia)) as (? & ? & ?).
      eexists. split.
      * rewrite Er. apply edge_means_lookup. rewrite Hr.
        apply lookup_map_py_range. split; [lia|done].
      * intros a b. rewrite rows_segment_pixel by (unfold DOWNSAMPLE; lia).
        unfold DOWNSAMPLE. rewrite (Z.mul_comm (Z.of_nat a) 2).
        destruct (2 * Z.of_nat a <? h / 19); [|done]. f_equal; lia.
  - intros self imgs i Hwf w h Hw Hh HL HT HR.
    pose proof Hwf as (Hc & _ & _ & Hvs & Hhs). fold w h in Hvs, Hhs.
    unfold NUM_LEDS_LEFT in Hvs. unfold NUM_LEDS_TOP in Hhs.
    eexists. split; [by apply capture_and_sample_eq|].
    destruct (three_edges_lookup
                (edge_means (left_img imgs) (Ambilight.left_slices self))
                (edge_means (top_img imgs) (Ambilight.top_slices self))
                (edge_means (right_img imgs) (Ambilight.right_slices self))
                ltac:(unfold edge_means, Ambilight.left_slices;
                      by rewrite !length_map, py_range_length)
                ltac:(unfold edge_means, Ambilight.top_slices;
                      by rewrite !length_map, py_range_length)
                i) as (El & Et & Er).
    split; [|split].
    + intros Hi. destruct (Hbv h (Z.of_nat i) Hh ltac:(lia)) as (? & ? & ?).
      eexists. split.
      * rewrite (El Hi). apply edge_means_lookup. unfold Ambilight.left_slices.
        apply lookup_map_py_range. split; [unfold NUM_LEDS_LEFT; lia|done].
      * intros a b. unfold Ambilight.rows, Ambilight.all. fold h. rewrite Hvs.
        rewrite rows_segment_pixel by lia. rewrite !Z.mul_1_r.
        destruct (Z.of_nat a <? h / 19); [|done]. f_equal; lia.
    + intros Hi. destruct (Hbs w (Z.of_nat i) Hw ltac:(lia)) as (? & ? & ?).
      eexists. split.
      * rewrite (Et Hi). apply edge_means_lookup. unfold Ambilight.top_slices.
        apply lookup_map_py_range. split; [unfold NUM_LEDS_TOP; lia|done].
      * intros a b. unfold Ambilight.rows, Ambilight.all. rewrite Hhs.
        rewrite (cols_segment_pixel _ _ _ _ w) by (done || lia). rewrite !Z.mul_1_r.
        destruct (Z.of_nat b <? w / 35); [|done]. f_equal; lia.
    + intros Hi. destruct (Hbv h (Z.of_nat i) Hh ltac:(lia)) as (? & ? & ?).
      eexists. split.
      * rewrite Er. apply edge_means_lookup. unfold Ambilight.right_slices.
        apply lookup_map_py_range. split; [unfold NUM_LEDS_RIGHT; lia|done].
      * intros a b. unfold Ambilight.rows, Ambilight.all. rewrite Hvs.
        rewrite rows_segment_pixel by lia. rewrite !Z.mul_1_r.
        destruct (Z.of_nat a <? h / 19); [|done]. f_equal; lia.
Qed.

Lemma sampled_pixels_witness :
  exists colors,
    ScreenCapture.sample_colors_vectorized Sample.capture Sample.garbage Scenario.shots
    = Ok colors /\
    ((3 < 19)%nat ->
     exists seg, colors !! 3%nat = Some (segment_mean seg) /\
       forall a b : nat,
         pixel_at seg a b
         = if 2 * Z.of_nat a <? 1080 / 19
           then pixel_at (left_img Scenario.shots)
                  (Z.to_nat (1080 - (Z.of_nat 3 + 1) * (1080 / 19)) + 2 * a) (2 * b)
           else None) /\
    ((3 < 35)%nat ->
     exists seg, colors !! (19 + 3)%nat = Some (segment_mean seg) /\
       forall a b : nat,
         pixel_at seg a b
         = if 2 * Z.of_nat b <? 1920 / 35
           then pixel_at (top_img Scenario.shots) (2 * a)
                  (Z.to_nat (Z.of_nat 3 * (1920 / 35)) + 2 * b)
           else None) /\
    ((3 < 19)%nat ->
     exists seg, colors !! (54 + 3)%nat = Some (segment_mean seg) /\
       forall a b : nat,
         pixel_at seg a b
         = if 2 * Z.of_nat a <? 1080 / 19
           then pixel_at (right_img Scenario.shots)
                  (Z.to_nat (Z.of_nat 3 * (1080 / 19)) + 2 * a) (2 * b)
           else None).
Proof.
  apply (proj1 sampled_pixels Sample.capture Sample.garbage Scenario.shots 3%nat).
  - reflexivity.
  - simpl. lia.
  - simpl. lia.
  - apply length_replicate.
  - apply Forall_replicate. apply length_replicate.
  - apply length_replicate.
Defined.

(** X4. Where the segment of LED [i] lies, with [v = height // 19] and
    [h = width // 35], in both programs: on the left edge the rows
    [height - (i + 1) * v, height - i * v), so LED 0 is at the bottom and the
    LEDs go up; on the top edge the columns [i * h, (i + 1) * h), left to
    right; on the right edge the rows [i * v, (i + 1) * v), top to bottom.
    Across the edge, the segment spans the whole depth of the captured strip. *)
Theorem segment_ranges :
  (forall cap (i : nat) ys xs p q,
      ScreenCapture_wf cap ->
      0 <= ScreenCapture.width cap -> 0 <= ScreenCapture.height cap ->
      let w := ScreenCapture.width cap in
      let h := ScreenCapture.height cap in
      (ScreenCapture.left_slices cap !! i = Some (ys, xs) ->
       (in_segment ys h p <-> h - (Z.of_nat i + 1) * (h / 19) <= p < h - Z.of_nat i * (h / 19)) /\
       (in_segment xs CAPTURE_DEPTH q <-> 0 <= q < CAPTURE_DEPTH)) /\
      (ScreenCapture.top_slices cap !! i = Some (ys, xs) ->
       (in_segment xs w p <-> Z.of_nat i * (w / 35) <= p < (Z.of_nat i + 1) * (w / 35)) /\
       (in_segment ys CAPTURE_DEPTH q <-> 0 <= q < CAPTURE_DEPTH)) /\
      (ScreenCapture.right_slices cap !! i = Some (ys, xs) ->
       (in_segment ys h p <-> Z.of_nat i * (h / 19) <= p < (Z.of_nat i + 1) * (h / 19)) /\
       (in_segment xs CAPTURE_DEPTH q <-> 0 <= q < CAPTURE_DEPTH))) /\
  (forall self (i : nat) ys xs p q,
      Ambilight_wf self ->
      0 <= Ambilight.width self -> 0 <= Ambilight.height self ->
      let w := Ambilight.width self in
      let h := Ambilight.height self in
      (Ambilight.left_slices self !! i = Some (ys, xs) ->
       (in_segment ys h p <-> h - (Z.of_nat i + 1) * (h / 19) <= p < h - Z.of_nat i * (h / 19)) /\
       (in_segment xs CAPTURE_DEPTH q <-> 0 <= q < CAPTURE_DEPTH)) /\
      (Ambilight.top_slices self !! i = Some (ys, xs) ->
       (in_segment xs w p <-> Z.of_nat i * (w / 35) <= p < (Z.of_nat i + 1) * (w / 35)) /\
       (in_segment ys CAPTURE_DEPTH q <-> 0 <= q < CAPTURE_DEPTH)) /\
      (Ambilight.right_slices self !! i = Some (ys, xs) ->
       (in_segment ys h p <-> Z.of_nat i * (h / 19) <= p < (Z.of_nat i + 1) * (h / 19)) /\
       (in_segment xs CAPTURE_DEPTH q <-> 0 <= q < CAPTURE_DEPTH))).
Proof.
  split.
  - intros cap i ys xs p q Hwf Hw Hh w h. fold w h in Hw, Hh.
    destruct (pro_slices cap Hwf) as (Hl & Ht & Hr). fold w h in Hl, Ht, Hr.
    pose proof (Z.div_pos h 19 Hh ltac:(lia)) as Hv.
    pose proof (Z.div_pos w 35 Hw ltac:(lia)) as Hs.
    pose proof (Z.mul_div_le h 19 ltac:(lia)) as Hvm.
    pose proof (Z.mul_div_le w 35 ltac:(lia)) as Hsm.
    rewrite Hl, Ht, Hr.
    assert (forall k, 0 <= k < 19 -> 0 <= k * (h / 19) /\ k * (h / 19) + h / 19 <= h) as Hbv
      by (intros k Hk; nia).
    assert (forall k, 0 <= k < 35 -> 0 <= k * (w / 35) /\ k * (w / 35) + w / 35 <= w) as Hbs
      by (intros k Hk; nia).
    split; [|split]; intros Hi;
      apply lookup_map_py_range in Hi as [Hi [= -> ->]];
      (split; [|by apply in_segment_all]);
      [ pose proof (Hbv (Z.of_nat i) ltac:(lia)) | pose proof (Hbs (Z.of_nat i) ltac:(lia))
      | pose proof (Hbv (Z.of_nat i) ltac:(lia)) ];
      rewrite in_segment_range by lia; lia.
  - intros self i ys xs p q (_ & _ & _ & Hvs & Hhs) Hw Hh w h. fold w h in Hw, Hh, Hvs, Hhs.
    unfold NUM_LEDS_LEFT in Hvs. unfold NUM_LEDS_TOP in Hhs.
    unfold Ambilight.left_slices, Ambilight.top_slices, Ambilight.right_slices, Ambilight.rows.
    fold w h. rewrite Hvs, Hhs.
    pose proof (Z.div_pos h 19 Hh ltac:(lia)) as Hv.
    pose proof (Z.div_pos w 35 Hw ltac:(lia)) as Hs.
    pose proof (Z.mul_div_le h 19 ltac:(lia)) as Hvm.
    pose proof (Z.mul_div_le w 35 ltac:(lia)) as Hsm.
    assert (forall k, 0 <= k < 19 -> 0 <= k * (h / 19) /\ k * (h / 19) + h / 19 <= h) as Hbv
      by (intros k Hk; nia).
    assert (forall k, 0 <= k < 35 -> 0 <= k * (w / 35) /\ k * (w / 35) + w / 35 <= w) as Hbs
      by (intros k Hk; nia).
    split; [|split]; intros Hi;
      apply lookup_map_py_range in Hi as [Hi [= -> ->]];
      unfold NUM_LEDS_LEFT, NUM_LEDS_TOP, NUM_LEDS_RIGHT in *;
      (split; [|by apply in_segment_all]);
      [ pose proof (Hbv (Z.of_nat i) ltac:(lia)) | pose proof (Hbs (Z.of_nat i) ltac:(lia))
      | pose proof (Hbv (Z.of_nat i) ltac:(lia)) ];
      rewrite in_segment_range by lia; lia.
Qed.

Lemma segment_ranges_witness :
  (in_segment {| start := Some 1024; stop := Some 1080; step := 2 |} 1080 1050 <->
   1080 - (Z.of_nat 0 + 1) * (1080 / 19) <= 1050 < 1080 - Z.of_nat 0 * (1080 / 19)) /\
  (in_segment {| start := None; stop := None; step := 2 |} CAPTURE_DEPTH 7 <->
   0 <= 7 < CAPTURE_DEPTH).
Proof.
  apply (proj1 (proj1 segment_ranges Sample.capture 0%nat
                  {| start := Some 1024; stop := Some 1080; step := 2 |}
                  {| start := None; stop := None; step := 2 |} 1050 7
                  eq_refl ltac:(done) ltac:(done))).
  reflexivity.
Defined.

(** ** The payload of a frame *)

Lemma tobytes_cons r g b (colors : list rgb8) :
  tobytes ((r, g, b) :: colors) = r :: g :: b :: tobytes colors.
Proof. done. Qed.

Lemma tobytes_lookup (colors : list rgb8) : forall (i : nat) r g b,
  colors !! i = Some (r, g, b) ->
  tobytes colors !! (3 * i)%nat = Some r /\
  tobytes colors !! (3 * i + 1)%nat = Some g /\
  tobytes colors !! (3 * i + 2)%nat = Some b.
Proof.
  induction colors as [|[[r0 g0] b0] colors IH]; intros i r g b Hi; [done|].
  rewrite tobytes_cons. destruct i as [|i].
  - by injection Hi as -> -> ->.
  - replace (3 * S i)%nat with (S (S (S (3 * i)))) by lia. by apply IH.
Qed.

Lemma tobytes_inj (c1 : list rgb8) : forall c2, tobytes c1 = tobytes c2 -> c1 = c2.
Proof.
  induction c1 as [|[[r g] b] c1 IH]; intros [|[[r' g'] b'] c2]; try done.
  rewrite !tobytes_cons. intros [= -> -> -> H]. f_equal. by apply IH.
Qed.

(** X5. In a frame (header followed by [colors.tobytes()]) the red, green
    and blue bytes of LED [i] are the bytes 6 + 3i, 6 + 3i + 1 and 6 + 3i + 2;
    and two colour arrays that give the same frame are equal. *)
Theorem payload_layout :
  (forall (colors : list rgb8) (i : nat) r g b,
      colors !! i = Some (r, g, b) ->
      let frame := build_header ++ tobytes colors in
      frame !! (6 + 3 * i)%nat = Some r /\
      frame !! (6 + 3 * i + 1)%nat = Some g /\
      frame !! (6 + 3 * i + 2)%nat = Some b) /\
  (forall c1 c2 : list rgb8,
      build_header ++ tobytes c1 = build_header ++ tobytes c2 -> c1 = c2).
Proof.
  split.
  - intros colors i r g b Hi frame. subst frame.
    destruct (tobytes_lookup colors i r g b Hi) as (Hr & Hg & Hb).
    assert (length build_header = 6%nat) as Hlen by done.
    rewrite !lookup_app_r by (rewrite Hlen; lia). rewrite Hlen.
    replace (6 + 3 * i - 6)%nat with (3 * i)%nat by lia.
    replace (6 + 3 * i + 1 - 6)%nat with (3 * i + 1)%nat by lia.
    replace (6 + 3 * i + 2 - 6)%nat with (3 * i + 2)%nat by lia.
    done.
  - intros c1 c2 H. apply app_inv_head in H. by apply tobytes_inj.
Qed.

Lemma payload_layout_witness :
  let frame := build_header ++ tobytes [(1, 2, 3); (4, 5, 6)] in
  frame !! (6 + 3 * 1)%nat = Some 4 /\
  frame !! (6 + 3 * 1 + 1)%nat = Some 5 /\
  frame !! (6 + 3 * 1 + 2)%nat = Some 6.
Proof. apply (proj1 payload_layout [(1, 2, 3); (4, 5, 6)] 1%nat 4 5 6). reflexivity. Defined.

(** ** Traces of the multithreaded program *)

Lemma serial_write_trace data w :
  exists r w', serial_write data w = (r, w') /\
    ((r = Ok tt /\ log w' = log w ++ [EvWrite data]) \/
     (exists e, r = Raise e /\ log w' = log w /\ faults w <> [])) /\
    (faults w = [] -> faults w' = [] /\ r = Ok tt).
Proof.
  unfold serial_write. destruct (faults w) as [|[e|] rest] eqn:E.
  - eexists _, _. split; [done|]. split; [by left|]. intros _. by split.
  - eexists _, _. split; [done|]. split; [|done]. right. by exists e.
  - eexists _, _. split; [done|]. split; [by left|]. done.
Qed.

Lemma send_trace (s : SerialSender.t) out w :
  SerialSender.header s = build_header ->
  exists b w', SerialSender.send s out w = (Ok (PyBool b), w') /\
    log w' = log w ++ (if b then [frame_of out] else []) /\
    (b = false -> faults w <> []) /\
    (faults w = [] -> faults w' = []).
Proof.
  intros Hh. unfold SerialSender.send. munfold. rewrite Hh.
  destruct (serial_write_trace (build_header ++ tobytes out) w)
    as (r & w' & -> & [[-> Hlog] | (e & -> & Hlog & Hf)] & Hclean).
  - exists true, w'. split; [done|]. split; [done|]. split; [done|]. intros H. by apply Hclean.
  - exists false, w'. split; [done|]. split; [by rewrite app_nil_r|]. split; [done|].
    intros H. by apply Hclean.
Qed.

Lemma close_trace ctrl_c (s : SerialSender.t) w :
  SerialSender.header s = build_header ->
  is_open (SerialSender.serial s) = true ->
  exists r w' (b : bool), SerialSender.close ctrl_c s w = (r, w') /\
    log w' = log w ++ (if b then [frame_of zeros_uint8] else [])
                   ++ (if ctrl_c then [] else [EvClose]) /\
    (b = false -> faults w <> []) /\
    (if ctrl_c then r = Raise KeyboardInterrupt
     else exists s', r = Ok s' /\ is_open (SerialSender.serial s') = false).
Proof.
  intros Hh Ho. unfold SerialSender.close. rewrite Ho. unfold bindM at 1.
  destruct (send_trace s zeros_uint8 w Hh) as (b & w1 & -> & Hlog & Hb & _).
  destruct ctrl_c; munfold; simpl.
  - eexists _, _, b. split; [done|]. split; [by rewrite app_nil_r|]. done.
  - eexists _, _, b. split; [done|]. split; [by rewrite Hlog, <- app_assoc|].
    split; [done|]. by eexists.
Qed.

Lemma frame_time_cases fps :
  (exists ft, frame_time fps = Ok ft) \/
  frame_time fps = Raise ZeroDivisionError \/
  frame_time fps = Raise OverflowError.
Proof.
  unfold frame_time, py_truediv_float_int, py_float, py_truediv.
  destruct (F64.of_Z fps); simpl; try destruct (F64.eqb _ _); eauto.
Qed.

Lemma frame_time_zero : frame_time 0 = Raise ZeroDivisionError.
Proof. reflexivity. Qed.

Lemma pending_le_1 self : (pending self <= 1)%nat.
Proof. unfold pending. destruct (0 <? _); lia. Qed.

Section ProTrace.
Variable Inv : ColorProcessor.t -> Prop.
Variable Good : list rgb8 -> Prop.
Hypothesis HIQ : forall pr colors,
  Inv pr -> Inv (ColorProcessor.process pr colors).2 /\ Good (ColorProcessor.process pr colors).1.
Implicit Types (self : AmbilightPro.t) (w : world).

Lemma capture_step_trace self uninit imgs :
  AmbilightPro_wf self ->
  AmbilightPro_wf (AmbilightPro.capture_step self uninit imgs) /\
  AmbilightPro.sender (AmbilightPro.capture_step self uninit imgs) = AmbilightPro.sender self /\
  AmbilightPro.running (AmbilightPro.capture_step self uninit imgs) = AmbilightPro.running self /\
  AmbilightPro.processor (AmbilightPro.capture_step self uninit imgs)
  = AmbilightPro.processor self.
Proof.
  intros Hwf. destruct (capture_step_wf self uninit imgs Hwf) as (? & ? & ?).
  split; [done|]. split; [done|]. split; [done|].
  unfold AmbilightPro.capture_step.
  destruct (AmbilightPro.running self && AmbilightPro.capture_alive self); [|done].
  by destruct (let* colors := _ in _).
Qed.

Lemma consume_trace self w :
  AmbilightPro_wf self -> Inv (AmbilightPro.processor self) ->
  exists go self' w' outs,
    AmbilightPro.consume (self, w) = (Ok go, (self', w')) /\
    AmbilightPro_wf self' /\ Inv (AmbilightPro.processor self') /\
    AmbilightPro.sender self' = AmbilightPro.sender self /\
    AmbilightPro.running self' = AmbilightPro.running self /\
    pending self' = 0%nat /\
    log w' = log w ++ map frame_of outs /\
    Forall Good outs /\ Forall rows73 outs /\
    (length outs <= pending self)%nat /\
    (go = false -> faults w <> []) /\
    (faults w = [] -> faults w' = []).
Proof.
  intros Hwf HI. pose proof Hwf as (Hcap & Hprev & Hh & Hinv & Hall).
  unfold AmbilightPro.consume. munfold.
  destruct (get_rows _ Hinv Hall) as (r & rb' & Hget & Hinv' & Hall' & Hr).
  destruct (get_inv _ Hinv) as (r0 & rb0 & Hget0 & _ & _ & Hnone & Hcount).
  rewrite Hget in Hget0. injection Hget0 as <- <-. rewrite Hget.
  assert (forall self1, AmbilightPro.color_buffer self1 = rb' -> pending self1 = 0%nat) as Hpend.
  { intros self1 E. unfold pending. by rewrite E, Hcount. }
  destruct r as [colors|]; simpl.
  - destruct (process_rows (AmbilightPro.processor self) colors Hr Hprev) as [Hout Hprev'].
    destruct (HIQ (AmbilightPro.processor self) colors HI) as [HI' HQ].
    destruct (ColorProcessor.process (AmbilightPro.processor self) colors) as [out pr'].
    simpl in *.
    destruct (send_trace (AmbilightPro.sender self) out w Hh) as (b & w' & -> & Hlog & Hb & Hcl).
    assert (pending self = 1%nat) as Hp1.
    { unfold pending. destruct Hinv as (_ & _ & Hc & _).
      destruct (0 <? _) eqn:E; [done|].
      assert (RingBuffer.count (AmbilightPro.color_buffer self) = 0) as E0 by lia.
      by apply Hnone in E0. }
    simpl. destruct b; simpl.
    + exists true, (AmbilightPro.set_processor (AmbilightPro.set_color_buffer self rb') pr'),
        w', [out].
      split; [done|]. split; [by unfold AmbilightPro_wf|].
      splits; try done; try (by apply Hpend); try (by repeat constructor); simpl; lia.
    + exists false, (AmbilightPro.set_processor (AmbilightPro.set_color_buffer self rb') pr'),
        w', [].
      split; [done|]. split; [by unfold AmbilightPro_wf|].
      splits; try done; try (by apply Hpend); try (by intros _; apply Hb); simpl; lia.
  - exists true, (AmbilightPro.set_color_buffer self rb'), w, [].
    split; [done|]. split; [by unfold AmbilightPro_wf|].
    splits; try done; try (by apply Hpend); try (by rewrite app_nil_r); simpl; lia.
Qed.

Lemma loop_trace sched : forall self w,
  AmbilightPro_wf self -> Inv (AmbilightPro.processor self) ->
  AmbilightPro.running self = true ->
  exists r self' w' outs,
    AmbilightPro.loop sched (self, w) = (r, (self', w')) /\
    (r = Raise KeyboardInterrupt \/ r = Ok Pending \/ r = Ok Broke) /\
    AmbilightPro_wf self' /\ Inv (AmbilightPro.processor self') /\
    AmbilightPro.sender self' = AmbilightPro.sender self /\
    AmbilightPro.running self' = true /\
    log w' = log w ++ map frame_of outs /\
    Forall Good outs /\ Forall rows73 outs /\
    (length outs + pending self' <= pending self + captures sched)%nat /\
    (length outs <= consumes sched)%nat /\
    (r = Raise KeyboardInterrupt -> AmbilightPro.Interrupt ∈ sched) /\
    (r = Ok Broke -> faults w <> []) /\
    (faults w = [] ->
     faults w' = [] /\ (AmbilightPro.Interrupt ∈ sched -> r = Raise KeyboardInterrupt)).
Proof.
  induction sched as [|tk sched IH]; intros self w Hwf HI Hrun.
  - simpl. munfold. rewrite Hrun. simpl.
    exists (Ok Pending), self, w, []. split; [done|]. split; [by right; left|].
    splits; try done; try (by rewrite app_nil_r); try (simpl; lia).
    intros Hf. split; [done|]. intros H. by apply elem_of_nil in H.
  - simpl. munfold. rewrite Hrun. simpl.
    destruct tk as [uninit imgs| |].
    + destruct (capture_step_trace self uninit imgs Hwf) as (Hwf1 & Hs1 & Hr1 & Hp1).
      destruct (IH (AmbilightPro.capture_step self uninit imgs) w Hwf1
                  ltac:(by rewrite Hp1) ltac:(by rewrite Hr1))
        as (r & self' & w' & outs & -> & Hr & Hwf' & HI' & Hs' & Hrun' & Hlog & HQ & Hrows
            & Hcap & Hcons & Hint & Hbr & Hcl).
      exists r, self', w', outs. split; [done|]. split; [done|].
      splits; try done.
      * congruence.
      * pose proof (pending_le_1 (AmbilightPro.capture_step self uninit imgs)). simpl. lia.
      * intros H. apply list_elem_of_further. by apply Hint.
      * intros H. destruct (Hcl H) as [Hf Hi]. split; [done|]. intros Hin. apply Hi.
        by apply elem_of_cons in Hin as [Hin|Hin].
    + destruct (consume_trace self w Hwf HI)
        as (go & self1 & w1 & outs1 & -> & Hwf1 & HI1 & Hs1 & Hr1 & Hp1 & Hlog1 & HQ1 & Hrows1
            & Hlen1 & Hgo & Hcl1).
      pose proof (pending_le_1 self) as Hle1.
      destruct go.
      * destruct (IH self1 w1 Hwf1 HI1 ltac:(congruence))
          as (r & self' & w' & outs & -> & Hr & Hwf' & HI' & Hs' & Hrun' & Hlog & HQ & Hrows
              & Hcap & Hcons & Hint & Hbr & Hcl).
        exists r, self', w', (outs1 ++ outs). split; [done|]. split; [done|].
        splits; try done.
        -- congruence.
        -- by rewrite Hlog, Hlog1, map_app, app_assoc.
        -- by apply Forall_app.
        -- by apply Forall_app.
        -- rewrite length_app. simpl. lia.
        -- rewrite length_app. simpl. lia.
        -- intros H. apply list_elem_of_further. by apply Hint.
        -- intros H Hf. apply (Hbr H). by apply Hcl1.
        -- intros H. destruct (Hcl (Hcl1 H)) as [Hf Hi]. split; [done|]. intros Hin. apply Hi.
           by apply elem_of_cons in Hin as [Hin|Hin].
      * exists (Ok Broke), self1, w1, outs1. split; [done|]. split; [by right; right|].
        splits; try done.
        -- congruence.
        -- simpl. lia.
        -- simpl. lia.
        -- intros _. by apply Hgo.
        -- intros H. by destruct (Hgo eq_refl).
    + exists (Raise KeyboardInterrupt), self, w, []. split; [done|]. split; [by left|].
      splits; try done; try (by rewrite app_nil_r); try (simpl; lia);
        try (by intros; apply list_elem_of_here).
Qed.

Lemma cleanup_trace cp self w :
  AmbilightPro_wf self ->
  is_open (SerialSender.serial (AmbilightPro.sender self)) = true ->
  exists self' w' (b : bool),
    AmbilightPro.cleanup cp (self, w) = (cleanup_result cp, (self', w')) /\
    AmbilightPro.running self' = false /\
    is_open (SerialSender.serial (AmbilightPro.sender self')) = open_after_cleanup cp /\
    log w' = log w ++ cleanup_events cp b /\
    (b = false -> faults w <> []).
Proof.
  intros (Hcap & Hprev & Hh & Hinv & Hall) Ho. unfold AmbilightPro.cleanup.
  destruct cp as [[| |]|]; munfold; simpl.
  - exists (AmbilightPro.set_running self false), w, true.
    splits; try done. by rewrite app_nil_r.
  - destruct (close_trace true (AmbilightPro.sender self) w Hh Ho)
      as (r & w' & b & Hclose & Hlog & Hb & Hr).
    simpl in Hr. subst r. rewrite Hclose. rewrite app_nil_r in Hlog.
    eexists _, _, b. splits; try done.
  - destruct (close_trace false (AmbilightPro.sender self) w Hh Ho)
      as (r & w' & b & Hclose & Hlog & Hb & s' & -> & Hc).
    rewrite Hclose. by eexists _, _, b.
  - destruct (close_trace false (AmbilightPro.sender self) w Hh Ho)
      as (r & w' & b & Hclose & Hlog & Hb & s' & -> & Hc).
    rewrite Hclose. by eexists _, _, b.
Qed.

Lemma run_not_started sig sched (self : AmbilightPro.t) w :
  (before_try sig = Some AtEntry ->
   AmbilightPro.run sig sched (self, w) = (Raise KeyboardInterrupt, (self, w))) /\
  (forall e, before_try sig <> Some AtEntry ->
     frame_time (AmbilightPro.target_fps self) = Raise e ->
     AmbilightPro.run sig sched (self, w)
     = (Raise e, (AmbilightPro.set_running self true, w))) /\
  (forall ft, frame_time (AmbilightPro.target_fps self) = Ok ft ->
     before_try sig = Some AfterFrameTime ->
     AmbilightPro.run sig sched (self, w)
     = (Raise KeyboardInterrupt, (AmbilightPro.set_running self true, w))).
Proof.
  unfold AmbilightPro.run. split; [|split].
  - by intros ->.
  - intros e Hsig He.
    destruct (before_try sig) as [[|]|]; [done|..]; munfold;
      cbn [AmbilightPro.target_fps AmbilightPro.set_running]; by rewrite He.
  - intros ft Hft ->. munfold.
    cbn [AmbilightPro.target_fps AmbilightPro.set_running]. by rewrite Hft.
Qed.

Lemma run_trace sig sched self w ft :
  AmbilightPro_wf self -> Inv (AmbilightPro.processor self) ->
  is_open (SerialSender.serial (AmbilightPro.sender self)) = true ->
  frame_time (AmbilightPro.target_fps self) = Ok ft ->
  before_try sig = None ->
  exists l self' w' outs tail,
    AmbilightPro.run sig sched (self, w) = (run_result (in_cleanup sig) l, (self', w')) /\
    log w' = log w ++ map frame_of outs ++ tail /\
    Forall Good outs /\ Forall rows73 outs /\
    (length outs <= pending self + captures sched)%nat /\
    (length outs <= consumes sched)%nat /\
    (l = Pending \/ l = Interrupted \/ l = Broke) /\
    (l = Pending ->
     tail = [] /\ AmbilightPro.running self' = true /\
     is_open (SerialSender.serial (AmbilightPro.sender self')) = true) /\
    (l <> Pending ->
     AmbilightPro.running self' = false /\
     is_open (SerialSender.serial (AmbilightPro.sender self'))
     = open_after_cleanup (in_cleanup sig) /\
     exists b : bool, tail = cleanup_events (in_cleanup sig) b /\
                      (b = false -> faults w <> [])) /\
    (l = Interrupted -> AmbilightPro.Interrupt ∈ sched) /\
    (l = Broke -> faults w <> []) /\
    (faults w = [] -> AmbilightPro.Interrupt ∈ sched -> l = Interrupted).
Proof.
  intros Hwf HI Ho Hft Hsig. unfold AmbilightPro.run. rewrite Hsig. munfold.
  cbn [AmbilightPro.target_fps AmbilightPro.set_running]. rewrite Hft.
  destruct (loop_trace sched (AmbilightPro.set_running self true) w
              (set_running_wf self true Hwf) HI eq_refl)
    as (r & self1 & w1 & outs & -> & Hr & Hwf1 & HI1 & Hs1 & Hrun1 & Hlog1 & HQ & Hrows
        & Hcap & Hcons & Hint & Hbr & Hcl).
  assert (pending (AmbilightPro.set_running self true) = pending self) as Hpe by done.
  rewrite Hpe in Hcap.
  assert (is_open (SerialSender.serial (AmbilightPro.sender self1)) = true) as Ho1
    by (by rewrite Hs1).
  destruct (cleanup_trace (in_cleanup sig) self1 w1 Hwf1 Ho1)
    as (self2 & w2 & b & Hclean & Hr2 & Ho2 & Hlog2 & Hb).
  assert (Hb' : b = false -> faults w <> []).
  { intros E Hf. destruct (Hcl Hf) as [Hf1 _]. by apply Hb. }
  destruct Hr as [-> | [-> | ->]].
  - rewrite Hclean.
    exists Interrupted, self2, w2, outs, (cleanup_events (in_cleanup sig) b).
    split; [by destruct (in_cleanup sig)|]. split; [by rewrite Hlog2, Hlog1, <- !app_assoc|].
    splits; try done; try lia; try (by right; left); try (by intros _; apply Hint).
    intros _. split; [done|]. split; [done|]. by exists b.
  - exists Pending, self1, w1, outs, [].
    split; [done|]. split; [by rewrite app_nil_r|].
    splits; try done; try lia; try (by left).
    intros Hf Hin. discriminate (proj2 (Hcl Hf) Hin).
  - rewrite Hclean.
    exists Broke, self2, w2, outs, (cleanup_events (in_cleanup sig) b).
    split; [by destruct (in_cleanup sig)|]. split; [by rewrite Hlog2, Hlog1, <- !app_assoc|].
    splits; try done; try lia; try (by right; right); try (by intros _; apply Hbr).
    + intros _. split; [done|]. split; [done|]. by exists b.
    + intros Hf. by destruct (Hbr eq_refl).
Qed.
End ProTrace.

(** ** Traces of the single-threaded program *)

Lemma basic_send_trace colors (self : Ambilight.t) w :
  Ambilight.header self = build_header ->
  exists self' w' (b : bool),
    Ambilight.send colors (self, w) = (Ok PyNone, (self', w')) /\
    self' = (if b then self else Ambilight.set_running self false) /\
    log w' = log w ++ (if b then [frame_of colors] else []) /\
    (b = false -> faults w <> []) /\
    (faults w = [] -> faults w' = []).
Proof.
  intros Hh. unfold Ambilight.send. munfold. rewrite Hh.
  destruct (serial_write_trace (build_header ++ tobytes colors) w)
    as (r & w' & -> & [[-> Hlog] | (e & -> & Hlog & Hf)] & Hclean).
  - exists self, w', true. split; [done|]. split; [done|]. split; [done|]. split; [done|].
    intros H. by apply Hclean.
  - exists (Ambilight.set_running self false), w', false. split; [done|]. split; [done|].
    split; [by rewrite app_nil_r|]. split; [done|]. intros H. by apply Hclean.
Qed.

Lemma basic_sample_rows (self : Ambilight.t) imgs :
  Ambilight_wf self ->
  exists colors, Ambilight.capture_and_sample self imgs = Ok colors /\ rows73 colors.
Proof.
  intros Hwf. rewrite capture_and_sample_eq by apply Hwf. eexists. split; [done|].
  unfold rows73, Ambilight.left_slices, Ambilight.top_slices, Ambilight.right_slices.
  by rewrite !length_app, !edge_means_length, !length_map, !py_range_length.
Qed.

Section BasicTrace.
Variable Inv : Ambilight.t -> Prop.
Variable Good : list rgb8 -> Prop.
Hypothesis HIQ : forall self colors,
  Inv self ->
  Inv (Ambilight.process_colors (Ambilight.set_colors self colors)).2 /\
  Good (Ambilight.process_colors (Ambilight.set_colors self colors)).1.
Hypothesis HIrun : forall self b, Inv self -> Inv (Ambilight.set_running self b).
Implicit Types (self : Ambilight.t) (w : world).

Lemma basic_loop_trace sched : forall self w,
  Ambilight_wf self -> Inv self ->
  exists r self' w' outs,
    Ambilight.loop sched (self, w) = (r, (self', w')) /\
    (r = Raise KeyboardInterrupt \/ r = Ok Pending \/ r = Ok LoopEnded) /\
    Ambilight_wf self' /\ Inv self' /\
    Ambilight.serial self' = Ambilight.serial self /\
    log w' = log w ++ map frame_of outs /\
    Forall Good outs /\ Forall rows73 outs /\
    (length outs <= frames_before_interrupt sched)%nat /\
    (r = Raise KeyboardInterrupt -> Ambilight.Interrupt ∈ sched) /\
    (r = Ok LoopEnded -> Ambilight.running self = false \/ faults w <> []) /\
    (faults w = [] -> Ambilight.running self = true ->
     faults w' = [] /\ length outs = frames_before_interrupt sched /\
     (Ambilight.Interrupt ∈ sched -> r = Raise KeyboardInterrupt)).
Proof.
  induction sched as [|tk sched IH]; intros self w Hwf HI.
  - simpl. munfold. destruct (Ambilight.running self) eqn:Hrun; simpl.
    + exists (Ok Pending), self, w, []. split; [done|]. split; [by right; left|].
      splits; try done; try (by rewrite app_nil_r).
      intros Hf _. split; [done|]. split; [done|]. intros H. by apply elem_of_nil in H.
    + exists (Ok LoopEnded), self, w, []. split; [done|]. split; [by right; right|].
      splits; try done; try (by rewrite app_nil_r); try (by left).
  - simpl. munfold. destruct (Ambilight.running self) eqn:Hrun; simpl; cycle 1.
    { exists (Ok LoopEnded), self, w, []. split; [done|]. split; [by right; right|].
      splits; try done; try (by rewrite app_nil_r); try (by left); simpl; lia. }
    destruct tk as [imgs|].
    + destruct (basic_sample_rows self imgs Hwf) as (colors & -> & Hc).
      assert (Ambilight_wf (Ambilight.set_colors self colors)) as Hwf1.
      { destruct Hwf as (? & ? & ? & ? & ?). by unfold Ambilight_wf. }
      destruct (process_colors_wf _ Hwf1) as (Hout & Hwf2 & Hrun2 & Hser).
      destruct (HIQ self colors HI) as [HI2 HQ2].
      destruct (Ambilight.process_colors (Ambilight.set_colors self colors)) as [out self2].
      simpl in *.
      destruct (basic_send_trace out self2 w (proj1 (proj2 (proj2 Hwf2))))
        as (self3 & w3 & b & -> & Hself3 & Hlog3 & Hb & Hcl3).
      assert (Ambilight_wf self3 /\ Ambilight.serial self3 = Ambilight.serial self /\ Inv self3
              /\ (b = true -> Ambilight.running self3 = true))
        as (Hwf3 & Hser3 & HI3 & Hrun3).
      { rewrite Hself3. destruct b; splits; try done; try (by apply HIrun).
        intros _. by rewrite Hrun2. }
      destruct (IH self3 w3 Hwf3 HI3)
        as (r & self' & w' & outs & -> & Hr & Hwf' & HI' & Hs' & Hlog & HQ & Hrows
            & Hlen & Hint & Hend & Hcl).
      exists r, self', w', ((if b then [out] else []) ++ outs).
      split; [done|]. split; [done|]. splits; try done.
      * congruence.
      * rewrite Hlog, Hlog3, map_app, app_assoc. by destruct b.
      * apply Forall_app. split; [|done]. destruct b; by repeat constructor.
      * apply Forall_app. split; [|done]. destruct b; by repeat constructor.
      * rewrite length_app. destruct b; simpl; lia.
      * intros H. apply list_elem_of_further. by apply Hint.
      * intros H. right. destruct b; [|by apply Hb].
        destruct (Hend H) as [Hf|Hf]; [by rewrite Hrun3 in Hf|].
        intros Hw. by apply Hf, Hcl3.
      * intros Hf _. destruct b; [|by destruct (Hb eq_refl)].
        destruct (Hcl (Hcl3 Hf) (Hrun3 eq_refl)) as (Hf' & Hlen' & Hi').
        split; [done|]. split; [rewrite length_app; simpl; lia|].
        intros Hin. apply Hi'. by apply elem_of_cons in Hin as [Hin|Hin].
    + exists (Raise KeyboardInterrupt), self, w, []. split; [done|]. split; [by left|].
      splits; try done; try (by rewrite app_nil_r); try (by intros; apply list_elem_of_here).
Qed.

Lemma basic_cleanup_trace cp self w :
  Ambilight_wf self ->
  is_open (Ambilight.serial self) = true ->
  exists self' w' (b : bool),
    Ambilight.cleanup cp (self, w) = (cleanup_result cp, (self', w')) /\
    Ambilight.running self' = false /\
    is_open (Ambilight.serial self') = open_after_cleanup cp /\
    log w' = log w ++ cleanup_events cp b /\
    (b = false -> faults w <> []).
Proof.
  intros Hwf Ho. unfold Ambilight.cleanup.
  unfold bindM at 1 2, get_self at 1, set_self at 1. cbn beta iota.
  assert (cp = Some BeforeBlack \/ cp <> Some BeforeBlack) as [-> | Hcp]
    by (destruct cp as [[| |]|]; auto).
  { exists (Ambilight.set_running self false), w, true. simpl.
    splits; try done. by rewrite app_nil_r. }
  assert (forall X (a b : X), match cp with Some BeforeBlack => a | _ => b end = b) as ->
    by (intros; by destruct cp as [[| |]|]).
  unfold bindM at 1, get_self at 1. cbn beta iota. cbn [Ambilight.serial Ambilight.set_running].
  rewrite Ho. unfold bindM at 1.
  destruct (basic_send_trace zeros_uint8 (Ambilight.set_running self false) w
              (proj1 (proj2 (proj2 Hwf))))
    as (self1 & w1 & b & -> & Hself1 & Hlog & Hb & _).
  rewrite Hself1.
  destruct cp as [[| |]|]; try done; munfold; simpl; eexists _, _, b;
    destruct b; simpl; splits; try done; by rewrite Hlog, ?app_nil_r, <- ?app_assoc.
Qed.

Lemma basic_run_not_started sig sched (self : Ambilight.t) w :
  (before_try sig = Some AtEntry ->
   Ambilight.run sig sched (self, w) = (Raise KeyboardInterrupt, (self, w))) /\
  (forall e, before_try sig <> Some AtEntry ->
     frame_time (Ambilight.target_fps self) = Raise e ->
     Ambilight.run sig sched (self, w)
     = (Raise e, (Ambilight.set_running self true, w))) /\
  (forall ft, frame_time (Ambilight.target_fps self) = Ok ft ->
     before_try sig = Some AfterFrameTime ->
     Ambilight.run sig sched (self, w)
     = (Raise KeyboardInterrupt, (Ambilight.set_running self true, w))).
Proof.
  unfold Ambilight.run. split; [|split].
  - by intros ->.
  - intros e Hsig He.
    destruct (before_try sig) as [[|]|]; [done|..]; munfold;
      cbn [Ambilight.target_fps Ambilight.set_running]; by rewrite He.
  - intros ft Hft ->. munfold.
    cbn [Ambilight.target_fps Ambilight.set_running]. by rewrite Hft.
Qed.

Lemma basic_run_trace sig sched self w ft :
  Ambilight_wf self -> Inv self ->
  is_open (Ambilight.serial self) = true ->
  frame_time (Ambilight.target_fps self) = Ok ft ->
  before_try sig = None ->
  exists l self' w' outs tail,
    Ambilight.run sig sched (self, w) = (run_result (in_cleanup sig) l, (self', w')) /\
    log w' = log w ++ map frame_of outs ++ tail /\
    Forall Good outs /\ Forall rows73 outs /\
    (length outs <= frames_before_interrupt sched)%nat /\
    (l = Pending \/ l = Interrupted \/ l = LoopEnded) /\
    (l = Pending -> tail = [] /\ is_open (Ambilight.serial self') = true) /\
    (l <> Pending ->
     Ambilight.running self' = false /\
     is_open (Ambilight.serial self') = open_after_cleanup (in_cleanup sig) /\
     exists b : bool, tail = cleanup_events (in_cleanup sig) b /\
                      (b = false -> faults w <> [])) /\
    (l = Interrupted -> Ambilight.Interrupt ∈ sched) /\
    (l = LoopEnded -> faults w <> []) /\
    (faults w = [] ->
     length outs = frames_before_interrupt sched /\
     (Ambilight.Interrupt ∈ sched -> l = Interrupted)).
Proof.
  intros Hwf HI Ho Hft Hsig. unfold Ambilight.run. rewrite Hsig. munfold.
  cbn [Ambilight.target_fps Ambilight.set_running]. rewrite Hft.
  destruct (basic_loop_trace sched (Ambilight.set_running self true) w
              (set_running_basic_wf self true Hwf) (HIrun self true HI))
    as (r & self1 & w1 & outs & -> & Hr & Hwf1 & HI1 & Hs1 & Hlog1 & HQ & Hrows
        & Hlen & Hint & Hend & Hcl).
  assert (is_open (Ambilight.serial self1) = true) as Ho1 by (by rewrite Hs1).
  destruct (basic_cleanup_trace (in_cleanup sig) self1 w1 Hwf1 Ho1)
    as (self2 & w2 & b & Hclean & Hr2 & Ho2 & Hlog2 & Hb).
  assert (Hb' : b = false -> faults w <> []).
  { intros E Hf. destruct (Hcl Hf eq_refl) as [Hf1 _]. by apply Hb. }
  assert (Hclean' : faults w = [] ->
                    length outs = frames_before_interrupt sched /\
                    (Ambilight.Interrupt ∈ sched -> r = Raise KeyboardInterrupt)).
  { intros Hf. by destruct (Hcl Hf eq_refl) as (_ & ? & ?). }
  destruct Hr as [-> | [-> | ->]].
  - rewrite Hclean.
    exists Interrupted, self2, w2, outs, (cleanup_events (in_cleanup sig) b).
    split; [by destruct (in_cleanup sig)|]. split; [by rewrite Hlog2, Hlog1, <- !app_assoc|].
    splits; try done; try (by right; left); try (by intros _; apply Hint).
    + intros _. split; [done|]. split; [done|]. by exists b.
    + intros Hf. by destruct (Hclean' Hf).
  - exists Pending, self1, w1, outs, [].
    split; [done|]. split; [by rewrite app_nil_r|].
    splits; try done; try (by left).
    intros Hf. destruct (Hclean' Hf) as [? Hi]. split; [done|].
    intros Hin. discriminate (Hi Hin).
  - rewrite Hclean.
    exists LoopEnded, self2, w2, outs, (cleanup_events (in_cleanup sig) b).
    split; [by destruct (in_cleanup sig)|]. split; [by rewrite Hlog2, Hlog1, <- !app_assoc|].
    assert (faults w <> []) as Hfw by (by destruct (Hend eq_refl)).
    splits; try done; try (by right; right).
    intros _. split; [done|]. split; [done|]. by exists b.
Qed.
End BasicTrace.

(** ** Opening the port *)

Lemma open_serial_cases q w :
  (openable w q = true /\
   open_serial q w = (Ok {| port := q; is_open := true |}, set_log w (log w ++ [EvOpen q]))) \/
  (openable w q = false /\
   open_serial q w = (Raise SerialException, set_log w (log w ++ [EvOpen q]))).
Proof.
  unfold open_serial. munfold. simpl. destruct (openable w q); [by left|by right].
Qed.

Lemma connect_some q w :
  (openable w q = true /\
   SerialSender._connect (Some q) w
   = (Ok {| port := q; is_open := true |}, set_log w (log w ++ [EvOpen q]))) \/
  (openable w q = false /\
   SerialSender._connect (Some q) w
   = (Raise (SystemExit 1), set_log w (log w ++ [EvOpen q; EvListPorts]))).
Proof.
  unfold SerialSender._connect, bindM, ret, try_exceptM. cbn beta iota.
  destruct (open_serial_cases q w) as [[Ho ->] | [Ho ->]]; [by left|right].
  split; [done|]. munfold. simpl. by rewrite <- app_assoc.
Qed.

Lemma connect_serial_some q w :
  (openable w q = true /\
   Ambilight.connect_serial (Some q) w
   = (Ok {| port := q; is_open := true |}, set_log w (log w ++ [EvOpen q]))) \/
  (openable w q = false /\
   Ambilight.connect_serial (Some q) w
   = (Raise (SystemExit 1), set_log w (log w ++ [EvOpen q]))).
Proof.
  unfold Ambilight.connect_serial, bindM, ret, try_exceptM. cbn beta iota.
  destruct (open_serial_cases q w) as [[Ho ->] | [Ho ->]]; [by left|by right].
Qed.

Lemma connect_open port w ser w' :
  SerialSender._connect port w = (Ok ser, w') -> is_open ser = true.
Proof.
  unfold SerialSender._connect. unfold bindM, try_exceptM.
  destruct (match port with Some p => ret p | None => SerialSender._auto_detect end w)
    as [[q|e] w0]; [|done].
  destruct (open_serial_cases q w0) as [[Ho ->] | [Ho ->]].
  - by intros [= <- <-].
  - munfold. done.
Qed.

Lemma connect_serial_open port w ser w' :
  Ambilight.connect_serial port w = (Ok ser, w') -> is_open ser = true.
Proof.
  unfold Ambilight.connect_serial. unfold bindM, try_exceptM.
  destruct (match port with Some p => ret p | None => Ambilight.auto_detect end w)
    as [[q|e] w0]; [|done].
  destruct (open_serial_cases q w0) as [[Ho ->] | [Ho ->]].
  - by intros [= <- <-].
  - munfold. done.
Qed.

Lemma pro_init_facts port monitor fps br sat sm w self w1 :
  AmbilightPro.__init__ port monitor fps br sat sm w = (Ok self, w1) ->
  AmbilightPro_wf self /\
  is_open (SerialSender.serial (AmbilightPro.sender self)) = true /\
  (exists b, py_truediv_int_float br (F64.of_Z 255) = Ok b /\
             AmbilightPro.processor self = ColorProcessor.__init__ b sat sm) /\
  pending self = 0%nat /\
  AmbilightPro.target_fps self = Z.min fps 60.
Proof.
  intros Hinit. split; [by eapply pro_init_wf|]. revert Hinit.
  unfold AmbilightPro.__init__, SerialSender.__init__. munfold.
  destruct (ScreenCapture.__init__ (monitors w) monitor) as [cap|e] eqn:Ecap; [|done].
  destruct (py_truediv_int_float br (F64.of_Z 255)) as [b|e] eqn:Eb; [|done].
  destruct (SerialSender._connect port w) as [[ser|e] w2] eqn:Econ; [|done].
  intros [= <- <-]. simpl. split; [by eapply connect_open|].
  split; [by exists b|done].
Qed.

Lemma basic_init_facts port monitor fps br sat sm w self w1 :
  Ambilight.__init__ port monitor fps br sat sm w = (Ok self, w1) ->
  Ambilight_wf self /\
  is_open (Ambilight.serial self) = true /\
  py_truediv_int_float br (F64.of_Z 255) = Ok (Ambilight.brightness self) /\
  Ambilight.prev_colors self = zeros_float32 /\
  Ambilight.target_fps self = Z.min fps 60.
Proof.
  intros Hinit. split; [by eapply basic_init_wf|]. revert Hinit.
  unfold Ambilight.__init__. munfold.
  destruct (py_truediv_int_float br (F64.of_Z 255)) as [b|e] eqn:Eb; [|done].
  destruct (Ambilight._setup_monitor (monitors w) monitor) as [mon|e]; [|done].
  destruct (Ambilight.connect_serial port w) as [[ser|e] w2] eqn:Econ; [|done].
  intros [= <- <-]. simpl. split; [by eapply connect_serial_open|done].
Qed.






(** X8. Frame skipping. What [run] does to the outside world is a sequence
    of colour frames followed by nothing, by the black frame and [close()],
    by [close()] alone, or, if Ctrl+C cuts [cleanup] short, by the black
    frame alone. In the multithreaded program the colour frames are at most
    as many as the iterations of the capture thread and at most as many as
    the iterations of the main loop: a sample is sent at most once, and an
    iteration that finds no new sample sends nothing. In the single-threaded
    program they are at most as many as the iterations before the first
    Ctrl+C, and exactly as many when no write raises and the loop is entered
    ([frame_time] is computed, no Ctrl+C before the [try:]); a [run] that
    does not enter its loop writes nothing. *)
Theorem one_frame_per_sample :
  (forall port monitor fps br sat sm w self w1 sig sched,
      AmbilightPro.__init__ port monitor fps br sat sm w = (Ok self, w1) ->
      exists outs tail,
        log (AmbilightPro.run sig sched (self, w1)).2.2
        = log w1 ++ map frame_of outs ++ tail /\
        (tail = [] \/ tail = [frame_of zeros_uint8; EvClose] \/ tail = [EvClose] \/
         tail = [frame_of zeros_uint8] /\ in_cleanup sig = Some BeforeClose) /\
        (length outs <= captures sched)%nat /\
        (length outs <= consumes sched)%nat /\
        ((forall ft, frame_time (AmbilightPro.target_fps self) <> Ok ft) \/
         before_try sig <> None -> outs = [] /\ tail = [])) /\
  (forall port monitor fps br sat sm w self w1 sig sched,
      Ambilight.__init__ port monitor fps br sat sm w = (Ok self, w1) ->
      exists outs tail,
        log (Ambilight.run sig sched (self, w1)).2.2
        = log w1 ++ map frame_of outs ++ tail /\
        (tail = [] \/ tail = [frame_of zeros_uint8; EvClose] \/ tail = [EvClose] \/
         tail = [frame_of zeros_uint8] /\ in_cleanup sig = Some BeforeClose) /\
        (length outs <= frames_before_interrupt sched)%nat /\
        (forall ft, frame_time (Ambilight.target_fps self) = Ok ft ->
                    before_try sig = None -> faults w1 = [] ->
                    length outs = frames_before_interrupt sched) /\
        ((forall ft, frame_time (Ambilight.target_fps self) <> Ok ft) \/
         before_try sig <> None -> outs = [] /\ tail = [])).
Proof.
  assert (Htail : forall cp (b : bool),
             cleanup_events cp b = [] \/
             cleanup_events cp b = [frame_of zeros_uint8; EvClose] \/
             cleanup_events cp b = [EvClose] \/
             cleanup_events cp b = [frame_of zeros_uint8] /\ cp = Some BeforeClose).
  { intros [[| |]|] []; simpl; auto. }
  split.
  - intros port monitor fps br sat sm w self w1 sig sched Hinit.
    destruct (pro_init_facts _ _ _ _ _ _ _ _ _ Hinit) as (Hwf & Ho & _ & Hp0 & _).
    destruct (run_not_started sig sched self w1) as (Hentry & Hraise & Hpre).
    assert (Hnot : forall e s, AmbilightPro.run sig sched (self, w1) = (Raise e, (s, w1)) ->
                   exists outs tail,
                     log (AmbilightPro.run sig sched (self, w1)).2.2
                     = log w1 ++ map frame_of outs ++ tail /\
                     (tail = [] \/ tail = [frame_of zeros_uint8; EvClose] \/ tail = [EvClose] \/
                      tail = [frame_of zeros_uint8] /\ in_cleanup sig = Some BeforeClose) /\
                     (length outs <= captures sched)%nat /\
                     (length outs <= consumes sched)%nat /\
                     ((forall ft, frame_time (AmbilightPro.target_fps self) <> Ok ft) \/
                      before_try sig <> None -> outs = [] /\ tail = [])).
    { intros e s ->. exists [], []. simpl. rewrite app_nil_r.
      splits; try done; try (by left); lia. }
    destruct (before_try sig) as [[|]|] eqn:Hsig; [exact (Hnot _ _ (Hentry eq_refl))|..];
      (destruct (frame_time_cases (AmbilightPro.target_fps self)) as [[ft Hft] | Hfail];
       [|destruct Hfail as [Hfail | Hfail]; exact (Hnot _ _ (Hraise _ ltac:(done) Hfail))]);
      [exact (Hnot _ _ (Hpre ft Hft eq_refl))|].
    destruct (run_trace (fun _ => True) (fun _ => True) (fun _ _ _ => conj I I)
                sig sched self w1 ft Hwf I Ho Hft Hsig)
      as (l & self' & w' & outs & tail & Hrun & Hlog & _ & _ & Hcap & Hcons & Hl & Hpend
          & Hend & _).
    exists outs, tail. rewrite Hrun. simpl. split; [done|]. split.
    + destruct l; try (by left; apply Hpend);
        (destruct Hend as (_ & _ & b & -> & _); [done|apply Htail]).
    + split; [lia|]. split; [lia|]. intros [Hno | ?]; [|done]. by destruct (Hno ft).
  - intros port monitor fps br sat sm w self w1 sig sched Hinit.
    destruct (basic_init_facts _ _ _ _ _ _ _ _ _ Hinit) as (Hwf & Ho & _).
    destruct (basic_run_not_started sig sched self w1) as (Hentry & Hraise & Hpre).
    assert (Hnot : forall e s, Ambilight.run sig sched (self, w1) = (Raise e, (s, w1)) ->
                   (forall ft, frame_time (Ambilight.target_fps self) = Ok ft ->
                               before_try sig = None -> False) ->
                   exists outs tail,
                     log (Ambilight.run sig sched (self, w1)).2.2
                     = log w1 ++ map frame_of outs ++ tail /\
                     (tail = [] \/ tail = [frame_of zeros_uint8; EvClose] \/ tail = [EvClose] \/
                      tail = [frame_of zeros_uint8] /\ in_cleanup sig = Some BeforeClose) /\
                     (length outs <= frames_before_interrupt sched)%nat /\
                     (forall ft, frame_time (Ambilight.target_fps self) = Ok ft ->
                                 before_try sig = None -> faults w1 = [] ->
                                 length outs = frames_before_interrupt sched) /\
                     ((forall ft, frame_time (Ambilight.target_fps self) <> Ok ft) \/
                      before_try sig <> None -> outs = [] /\ tail = [])).
    { intros e s -> Hno. exists [], []. simpl. rewrite app_nil_r.
      splits; try done; try (by left); try lia.
      intros ft Hft Hsig. by destruct (Hno ft). }
    destruct (before_try sig) as [[|]|] eqn:Hsig;
      [exact (Hnot _ _ (Hentry eq_refl) ltac:(done))|..];
      (destruct (frame_time_cases (Ambilight.target_fps self)) as [[ft Hft] | Hfail];
       [|destruct Hfail as [Hfail | Hfail];
         refine (Hnot _ _ (Hraise _ ltac:(done) Hfail) _);
         intros ft Hft; by rewrite Hfail in Hft]);
      [exact (Hnot _ _ (Hpre ft Hft eq_refl) ltac:(done))|].
    destruct (basic_run_trace (fun _ => True) (fun _ => True) (fun _ _ _ => conj I I)
                (fun _ _ _ => I) sig sched self w1 ft Hwf I Ho Hft Hsig)
      as (l & self' & w' & outs & tail & Hrun & Hlog & _ & _ & Hlen & Hl & Hpend & Hend
          & _ & _ & Hcl).
    exists outs, tail. rewrite Hrun. simpl. split; [done|]. split.
    + destruct l; try (by left; apply Hpend);
        (destruct Hend as (_ & _ & b & -> & _); [done|apply Htail]).
    + split; [done|]. split; [intros ft' _ _ Hf; by destruct (Hcl Hf)|].
      intros [Hno | ?]; [|done]. by destruct (Hno ft).
Qed.

Lemma one_frame_per_sample_witness :
  exists outs tail,
    log (AmbilightPro.run no_signals Scenario.two_then_one (Sample.pro, Sample.w1)).2.2
    = log Sample.w1 ++ map frame_of outs ++ tail /\
    (tail = [] \/ tail = [frame_of zeros_uint8; EvClose] \/ tail = [EvClose] \/
     tail = [frame_of zeros_uint8] /\ in_cleanup no_signals = Some BeforeClose) /\
    (length outs <= captures Scenario.two_then_one)%nat /\
    (length outs <= consumes Scenario.two_then_one)%nat /\
    ((forall ft, frame_time (AmbilightPro.target_fps Sample.pro) <> Ok ft) \/
     before_try no_signals <> None -> outs = [] /\ tail = []).
Proof.
  apply (proj1 one_frame_per_sample (Some "COM3"%string) 0 30 255
           (F64.of_ratio 12 10) (F64.of_ratio 6 10) Sample.w0 Sample.pro Sample.w1
           no_signals Scenario.two_then_one).
  vm_compute. reflexivity.
Defined.

(** ** Brightness 0 *)

Lemma dark_mul_l x y : dark x -> dark (F32.mul x y).
Proof. by destruct x as [s| | |s m e], y as [s'| | |s' m' e']. Qed.

Lemma dark_mul_r x y : dark y -> dark (F32.mul x y).
Proof. by destruct x as [s| | |s m e], y as [s'| | |s' m' e']. Qed.

Lemma dark_add x y : dark x -> dark y -> dark (F32.add x y).
Proof.
  destruct x as [s| | |s m e], y as [s'| | |s' m' e']; try done.
  intros _ _. by destruct s, s'.
Qed.

Lemma dark_sub x y : dark x -> dark y -> dark (F32.sub x y).
Proof.
  destruct x as [s| | |s m e], y as [s'| | |s' m' e']; try done.
  intros _ _. by destruct s, s'.
Qed.

Lemma dark_clip x : dark x -> dark (F32.clip x (F32.of_Z 0) (F32.of_Z 255)).
Proof. by destruct x as [[|]| | |s m e]. Qed.

Lemma dark_to_uint8 x : dark x -> F32.to_uint8 x = 0.
Proof. by destruct x as [s| | |s m e]. Qed.

Lemma brightness_zero :
  F32.of_f64 (F64.div (F64.of_Z 0) (F64.of_Z 255)) = S754_zero false /\
  F64.eqb (F64.div (F64.of_Z 0) (F64.of_Z 255)) F64.one = false.
Proof. split; by vm_compute. Qed.

Lemma adjust_dark sat (colors : list rgb32) :
  Forall dark_row (adjust sat (F64.div (F64.of_Z 0) (F64.of_Z 255)) colors).
Proof.
  unfold adjust. destruct brightness_zero as [Hz ->]. cbn [negb].
  apply Forall_map, Forall_true. intros [[r g] b]. unfold brighten, rgb_map, dark_row.
  rewrite Hz.
  splits; by apply dark_mul_r.
Qed.

Lemma ema_dark alpha (prev cur : list rgb32) :
  Forall dark_row prev -> Forall dark_row cur ->
  Forall dark_row (zip_with (ColorProcessor.ema alpha) prev cur).
Proof.
  intros Hp. revert cur. induction Hp as [|[[r g] b] prev (Hr & Hg & Hb) Hp IH];
    intros cur Hc; [constructor|].
  destruct Hc as [|[[r' g'] b'] cur (Hr' & Hg' & Hb') Hc]; [constructor|].
  simpl. constructor; [|by apply IH].
  unfold dark_row, ColorProcessor.ema, rgb_map2.
  splits; apply dark_add; try done; by apply dark_mul_r, dark_sub.
Qed.

Lemma blend_dark alpha (prev cur : list rgb32) :
  Forall dark_row prev -> Forall dark_row cur ->
  Forall dark_row (zip_with (Ambilight.blend alpha) prev cur).
Proof.
  intros Hp. revert cur. induction Hp as [|[[r g] b] prev (Hr & Hg & Hb) Hp IH];
    intros cur Hc; [constructor|].
  destruct Hc as [|[[r' g'] b'] cur (Hr' & Hg' & Hb') Hc]; [constructor|].
  simpl. constructor; [|by apply IH].
  unfold dark_row, Ambilight.blend, rgb_map2.
  splits; apply dark_add; by apply dark_mul_l.
Qed.

Lemma dark_output (colors : list rgb32) :
  Forall dark_row colors ->
  Forall (fun c => c = (0, 0, 0)) (map astype_uint8 (map clip_row colors)).
Proof.
  intros H. apply Forall_map, Forall_map. eapply Forall_impl; [exact H|].
  intros [[r g] b] (Hr & Hg & Hb). unfold clip_row, rgb_map, astype_uint8.
  by rewrite !dark_to_uint8 by by apply dark_clip.
Qed.

Lemma all_black (out : list rgb8) :
  rows73 out -> Forall (fun c => c = (0, 0, 0)) out -> out = zeros_uint8.
Proof.
  intros Hlen H.
  assert (out = replicate (length out) (0, 0, 0)) as E.
  { clear Hlen. induction H as [|c out Hc H IH]; [done|]. simpl. by f_equal. }
  rewrite E. unfold rows73 in Hlen. by rewrite Hlen.
Qed.

Lemma zeros_dark : Forall dark_row zeros_float32.
Proof. unfold zeros_float32. apply Forall_map, Forall_true. intros _. by vm_compute. Qed.

(** The processor was built with brightness 0 and its smoothing state is dark. *)
Lemma dark_processor (pr : ColorProcessor.t) (colors : list rgb32) :
  (ColorProcessor.brightness pr = F64.div (F64.of_Z 0) (F64.of_Z 255) /\
   match ColorProcessor.prev_colors pr with
   | Some prev => Forall dark_row prev
   | None => True
   end) ->
  (ColorProcessor.brightness (ColorProcessor.process pr colors).2
   = F64.div (F64.of_Z 0) (F64.of_Z 255) /\
   match ColorProcessor.prev_colors (ColorProcessor.process pr colors).2 with
   | Some prev => Forall dark_row prev
   | None => True
   end) /\
  Forall (fun c => c = (0, 0, 0)) (ColorProcessor.process pr colors).1.
Proof.
  intros [Hb Hprev]. unfold ColorProcessor.process. rewrite Hb.
  pose proof (adjust_dark (ColorProcessor.saturation pr) colors) as Hadj.
  destruct (ColorProcessor.prev_colors pr) as [prev|]; simpl.
  - pose proof (ema_dark (ColorProcessor.smoothing pr) prev _ Hprev Hadj) as He.
    split; [done|]. by apply dark_output.
  - split; [done|]. by apply dark_output.
Qed.

Lemma dark_basic (self : Ambilight.t) (colors : list rgb32) :
  (Ambilight.brightness self = F64.div (F64.of_Z 0) (F64.of_Z 255) /\
   Forall dark_row (Ambilight.prev_colors self)) ->
  (Ambilight.brightness (Ambilight.process_colors (Ambilight.set_colors self colors)).2
   = F64.div (F64.of_Z 0) (F64.of_Z 255) /\
   Forall dark_row
     (Ambilight.prev_colors (Ambilight.process_colors (Ambilight.set_colors self colors)).2)) /\
  Forall (fun c => c = (0, 0, 0))
    (Ambilight.process_colors (Ambilight.set_colors self colors)).1.
Proof.
  intros [Hb Hprev]. unfold Ambilight.process_colors. simpl. rewrite Hb.
  pose proof (adjust_dark (Ambilight.saturation self) colors) as Hadj.
  destruct (Ambilight.first_frame self); simpl.
  - split; [done|]. by apply dark_output.
  - pose proof (blend_dark (Ambilight.smoothing self) _ _ Hprev Hadj) as He.
    split; [done|]. by apply dark_output.
Qed.

Lemma cleanup_events_black cp (b : bool) data :
  EvWrite data ∈ cleanup_events cp b -> data = build_header ++ tobytes zeros_uint8.
Proof.
  unfold frame_of. destruct cp as [[| |]|], b; simpl; intros Hin;
    repeat (apply elem_of_cons in Hin as [Hin|Hin];
            [first [discriminate Hin | by injection Hin]|]);
    by apply elem_of_nil in Hin.
Qed.

Lemma black_events (outs : list (list rgb8)) (tail : list event) :
  Forall rows73 outs -> Forall (Forall (fun c => c = (0, 0, 0))) outs ->
  tail = [] \/ (exists cp (b : bool), tail = cleanup_events cp b) ->
  forall data, EvWrite data ∈ map frame_of outs ++ tail ->
               data = build_header ++ tobytes zeros_uint8.
Proof.
  intros Hrows Hz Htail data Hin. apply elem_of_app in Hin as [Hin|Hin].
  - apply list_elem_of_fmap in Hin as (out & [= ->] & Hout).
    rewrite (all_black out); [done| |].
    + by eapply (proj1 (Forall_forall _ _) Hrows).
    + by eapply (proj1 (Forall_forall _ _) Hz).
  - destruct Htail as [-> | (cp & b & ->)].
    + by apply elem_of_nil in Hin.
    + by eapply cleanup_events_black.
Qed.

Lemma brightness_zero_float :
  py_truediv_int_float 0 (F64.of_Z 255) = Ok (F64.div (F64.of_Z 0) (F64.of_Z 255)).
Proof. reflexivity. Qed.

(** X9. With [--brightness 0] every LED is off whatever the screen shows,
    for every saturation and smoothing: [process] on a first sample of 73 rows
    returns the all-zero array, and every frame a run of either program
    writes is the black frame (the header followed by 219 zero bytes). *)
Theorem brightness_zero_is_black :
  (forall (pr : ColorProcessor.t) (colors : list rgb32),
      ColorProcessor.brightness pr = F64.div (F64.of_Z 0) (F64.of_Z 255) ->
      ColorProcessor.prev_colors pr = None ->
      rows73 colors ->
      (ColorProcessor.process pr colors).1 = zeros_uint8) /\
  (forall port monitor fps sat sm w self w1 sig sched,
      AmbilightPro.__init__ port monitor fps 0 sat sm w = (Ok self, w1) ->
      exists evs,
        did evs w1 (AmbilightPro.run sig sched (self, w1)).2.2 /\
        forall data, EvWrite data ∈ evs -> data = build_header ++ tobytes zeros_uint8) /\
  (forall port monitor fps sat sm w self w1 sig sched,
      Ambilight.__init__ port monitor fps 0 sat sm w = (Ok self, w1) ->
      exists evs,
        did evs w1 (Ambilight.run sig sched (self, w1)).2.2 /\
        forall data, EvWrite data ∈ evs -> data = build_header ++ tobytes zeros_uint8).
Proof.
  split; [|split].
  - intros pr colors Hb Hp Hc. apply all_black.
    + apply process_rows; [done|]. by rewrite Hp.
    + apply dark_processor. split; [done|]. by rewrite Hp.
  - intros port monitor fps sat sm w self w1 sig sched Hinit.
    destruct (pro_init_facts _ _ _ _ _ _ _ _ _ Hinit) as (Hwf & Ho & (b & Hb & Hpr) & _).
    rewrite brightness_zero_float in Hb. injection Hb as <-.
    destruct (run_not_started sig sched self w1) as (Hentry & Hraise & Hpre).
    assert (Hnot : forall e s, AmbilightPro.run sig sched (self, w1) = (Raise e, (s, w1)) ->
                   exists evs,
                     did evs w1 (AmbilightPro.run sig sched (self, w1)).2.2 /\
                     forall data, EvWrite data ∈ evs ->
                                  data = build_header ++ tobytes zeros_uint8).
    { intros e s ->. exists []. split; [by unfold did; simpl; rewrite app_nil_r|].
      intros data Hin. by apply elem_of_nil in Hin. }
    destruct (before_try sig) as [[|]|] eqn:Hsig; [exact (Hnot _ _ (Hentry eq_refl))|..];
      (destruct (frame_time_cases (AmbilightPro.target_fps self)) as [[ft Hft] | Hfail];
       [|destruct Hfail as [Hfail | Hfail]; exact (Hnot _ _ (Hraise _ ltac:(done) Hfail))]);
      [exact (Hnot _ _ (Hpre ft Hft eq_refl))|].
    destruct (run_trace _ _ dark_processor sig sched self w1 ft Hwf ltac:(by rewrite Hpr)
                Ho Hft Hsig)
      as (l & self' & w' & outs & tail & Hrun & Hlog & Hz & Hrows & _ & _ & _ & Hpend & Hend & _).
    exists (map frame_of outs ++ tail). rewrite Hrun. split; [done|].
    apply black_events; [done|done|].
    destruct l; try (by left; apply Hpend);
      (destruct Hend as (_ & _ & b & -> & _); [done|right; by eexists _, _]).
  - intros port monitor fps sat sm w self w1 sig sched Hinit.
    destruct (basic_init_facts _ _ _ _ _ _ _ _ _ Hinit) as (Hwf & Ho & Hbr & Hprev & _).
    rewrite brightness_zero_float in Hbr. injection Hbr as Hbr. symmetry in Hbr.
    destruct (basic_run_not_started sig sched self w1) as (Hentry & Hraise & Hpre).
    assert (Hnot : forall e s, Ambilight.run sig sched (self, w1) = (Raise e, (s, w1)) ->
                   exists evs,
                     did evs w1 (Ambilight.run sig sched (self, w1)).2.2 /\
                     forall data, EvWrite data ∈ evs ->
                                  data = build_header ++ tobytes zeros_uint8).
    { intros e s ->. exists []. split; [by unfold did; simpl; rewrite app_nil_r|].
      intros data Hin. by apply elem_of_nil in Hin. }
    destruct (before_try sig) as [[|]|] eqn:Hsig; [exact (Hnot _ _ (Hentry eq_refl))|..];
      (destruct (frame_time_cases (Ambilight.target_fps self)) as [[ft Hft] | Hfail];
       [|destruct Hfail as [Hfail | Hfail]; exact (Hnot _ _ (Hraise _ ltac:(done) Hfail))]);
      [exact (Hnot _ _ (Hpre ft Hft eq_refl))|].
    destruct (basic_run_trace _ _ dark_basic ltac:(done) sig sched self w1 ft Hwf
                ltac:(split; [exact Hbr|rewrite Hprev; apply zeros_dark]) Ho Hft Hsig)
      as (l & self' & w' & outs & tail & Hrun & Hlog & Hz & Hrows & _ & _ & Hpend & Hend & _).
    exists (map frame_of outs ++ tail). rewrite Hrun. split; [done|].
    apply black_events; [done|done|].
    destruct l; try (by left; apply Hpend);
      (destruct Hend as (_ & _ & b & -> & _); [done|right; by eexists _, _]).
Qed.

Lemma brightness_zero_is_black_witness :
  (ColorProcessor.process
     (ColorProcessor.__init__ (F64.div (F64.of_Z 0) (F64.of_Z 255)) (F64.of_ratio 12 10)
        (F64.of_ratio 6 10))
     (Sample.solid 200 100 100)).1 = zeros_uint8.
Proof.
  apply (proj1 brightness_zero_is_black
           (ColorProcessor.__init__ (F64.div (F64.of_Z 0) (F64.of_Z 255)) (F64.of_ratio 12 10)
              (F64.of_ratio 6 10))
           (Sample.solid 200 100 100)); reflexivity.
Defined.

(** ** Start-up *)

Lemma find_Some_elem {X} (f : X -> bool) (l : list X) (x : X) :
  find f l = Some x -> x ∈ l /\ f x = true.
Proof. intros H. apply find_some in H as [H ?]. by apply list_elem_of_In in H. Qed.

Lemma find_None_elem {X} (f : X -> bool) (l : list X) :
  find f l = None -> forall x, x ∈ l -> f x = false.
Proof. intros H x Hx. apply (find_none f l H). by apply list_elem_of_In. Qed.

(** X10. Auto-detection only enumerates the ports (it opens nothing). It
    fails, with [sys.exit(1)], exactly when there is no serial port at all;
    otherwise it returns the device of an enumerated port: one that matches a
    keyword, or the first port when none matches. Both programs. *)
Theorem auto_detect_returns_an_enumerated_port :
  (forall w, exists r,
      SerialSender._auto_detect w = (r, set_log w (log w ++ [EvAutoDetect])) /\
      (r = Raise (SystemExit 1) <-> comports w = []) /\
      (forall d, r = Ok d ->
         exists p, p ∈ comports w /\ device p = d /\
           (SerialSender.matches p = true \/
            head (comports w) = Some p /\
            forall q, q ∈ comports w -> SerialSender.matches q = false)) /\
      (forall e, r = Raise e -> e = SystemExit 1)) /\
  (forall w, exists r,
      Ambilight.auto_detect w = (r, set_log w (log w ++ [EvAutoDetect])) /\
      (r = Raise (SystemExit 1) <-> comports w = []) /\
      (forall d, r = Ok d ->
         exists p, p ∈ comports w /\ device p = d /\
           (Ambilight.matches p = true \/
            head (comports w) = Some p /\
            forall q, q ∈ comports w -> Ambilight.matches q = false)) /\
      (forall e, r = Raise e -> e = SystemExit 1)).
Proof.
  split.
  - intros w. unfold SerialSender._auto_detect. munfold. simpl.
    destruct (find SerialSender.matches (comports w)) as [p|] eqn:Ef.
    + apply find_Some_elem in Ef as [Hin Hm].
      exists (Ok (device p)). split; [done|]. split.
      * split; [done|]. intros E. rewrite E in Hin. by apply elem_of_nil in Hin.
      * split; [|done]. intros d [= <-]. exists p. split; [done|]. split; [done|]. by left.
    + pose proof (find_None_elem _ _ Ef) as Hno.
      destruct (comports w) as [|p rest] eqn:Ec.
      * exists (Raise (SystemExit 1)). split; [done|]. split; [done|]. split; [done|].
        by intros e [= <-].
      * exists (Ok (device p)). split; [done|]. split; [done|]. split; [|done].
        intros d [= <-]. exists p. split; [by apply list_elem_of_here|]. split; [done|].
        by right.
  - intros w. unfold Ambilight.auto_detect. munfold. simpl.
    destruct (find Ambilight.matches (comports w)) as [p|] eqn:Ef.
    + apply find_Some_elem in Ef as [Hin Hm].
      exists (Ok (device p)). split; [by destruct (comports w)|]. split.
      * split; [done|]. intros E. rewrite E in Hin. by apply elem_of_nil in Hin.
      * split; [|done]. intros d [= <-]. exists p. split; [done|]. split; [done|]. by left.
    + pose proof (find_None_elem _ _ Ef) as Hno.
      destruct (comports w) as [|p rest] eqn:Ec.
      * exists (Raise (SystemExit 1)). split; [done|]. split; [done|]. split; [done|].
        by intros e [= <-].
      * exists (Ok (device p)). split; [done|]. split; [done|]. split; [|done].
        intros d [= <-]. exists p. split; [by apply list_elem_of_here|]. split; [done|].
        by right.
Qed.

Lemma setup_monitor_same (monitors : list monitor) (monitor_num : Z) :
  match Ambilight._setup_monitor monitors monitor_num with
  | Ok mon => exists regs, ScreenCapture._setup_monitor monitors monitor_num = Ok (mon, regs)
  | Raise e => ScreenCapture._setup_monitor monitors monitor_num = Raise e
  end.
Proof.
  unfold Ambilight._setup_monitor, ScreenCapture._setup_monitor.
  destruct (py_getitem monitors _) as [mon|e]; simpl; [by eexists|done].
Qed.

Lemma screen_capture_init_cases (monitors : list monitor) (monitor_num : Z) :
  match Ambilight._setup_monitor monitors monitor_num with
  | Ok mon => exists cap, ScreenCapture.__init__ monitors monitor_num = Ok cap
  | Raise e => ScreenCapture.__init__ monitors monitor_num = Raise e
  end.
Proof.
  pose proof (setup_monitor_same monitors monitor_num) as H.
  unfold ScreenCapture.__init__.
  destruct (Ambilight._setup_monitor monitors monitor_num) as [mon|e].
  - destruct H as [regs ->]. simpl. by eexists.
  - by rewrite H.
Qed.

Lemma brightness_cases br :
  (exists b, py_truediv_int_float br (F64.of_Z 255) = Ok b) \/
  py_truediv_int_float br (F64.of_Z 255) = Raise OverflowError.
Proof.
  unfold py_truediv_int_float, py_float, py_truediv.
  replace (F64.eqb (F64.of_Z 255) (F64.of_Z 0)) with false by reflexivity.
  destruct (F64.of_Z br); simpl; eauto.
Qed.

Lemma pro_init_cases q monitor fps br sat sm w :
  match Ambilight._setup_monitor (monitors w) monitor with
  | Raise e => AmbilightPro.__init__ (Some q) monitor fps br sat sm w = (Raise e, w)
  | Ok _ =>
      match py_truediv_int_float br (F64.of_Z 255) with
      | Raise e => AmbilightPro.__init__ (Some q) monitor fps br sat sm w = (Raise e, w)
      | Ok _ =>
          if openable w q then
            exists self, AmbilightPro.__init__ (Some q) monitor fps br sat sm w
                         = (Ok self, set_log w (log w ++ [EvOpen q]))
          else AmbilightPro.__init__ (Some q) monitor fps br sat sm w
               = (Raise (SystemExit 1), set_log w (log w ++ [EvOpen q; EvListPorts]))
      end
  end.
Proof.
  pose proof (screen_capture_init_cases (monitors w) monitor) as H.
  unfold AmbilightPro.__init__, SerialSender.__init__.
  unfold bindM, get_state, lift_result.
  destruct (Ambilight._setup_monitor (monitors w) monitor) as [mon|e].
  - destruct H as [cap ->].
    destruct (py_truediv_int_float br (F64.of_Z 255)) as [b|e]; [|done].
    destruct (connect_some q w) as [[-> ->] | [-> ->]]; [by eexists|done].
  - by rewrite H.
Qed.

Lemma basic_init_cases q monitor fps br sat sm w :
  match py_truediv_int_float br (F64.of_Z 255) with
  | Raise e => Ambilight.__init__ (Some q) monitor fps br sat sm w = (Raise e, w)
  | Ok _ =>
      match Ambilight._setup_monitor (monitors w) monitor with
      | Raise e => Ambilight.__init__ (Some q) monitor fps br sat sm w = (Raise e, w)
      | Ok _ =>
          if openable w q then
            exists self, Ambilight.__init__ (Some q) monitor fps br sat sm w
                         = (Ok self, set_log w (log w ++ [EvOpen q]))
          else Ambilight.__init__ (Some q) monitor fps br sat sm w
               = (Raise (SystemExit 1), set_log w (log w ++ [EvOpen q]))
      end
  end.
Proof.
  unfold Ambilight.__init__. unfold bindM, get_state, lift_result.
  destruct (py_truediv_int_float br (F64.of_Z 255)) as [b|e]; [|done].
  destruct (Ambilight._setup_monitor (monitors w) monitor) as [mon|e]; [|done].
  destruct (connect_serial_some q w) as [[-> ->] | [-> ->]]; [by eexists|done].
Qed.

(** X11. How [main] can end before the loop starts, in both programs. With
    [--list-ports] it only lists the ports and returns, whatever the other
    options. Otherwise three things can fail, none of them after anything
    was written. [brightness / 255.0] raises [OverflowError] when the
    brightness has no float (10**400 has none): in the single-threaded
    program this is the first thing to fail, in the multithreaded one it
    comes after the monitor has been set up; no port has been touched. When
    the monitor cannot be set up, the exception leaves [main] before any
    serial port is touched. When the brightness has a float, the monitor is
    found and the port cannot be opened, [main] ends with [sys.exit(1)]: the
    multithreaded program has opened the port and then listed the ports, the
    single-threaded one has only tried to open the port. *)
Theorem startup_failures :
  (forall c w sig,
      cli_list_ports c = true ->
      (forall sched, AmbilightPro.main c sig sched w
                     = (Ok tt, set_log w (log w ++ [EvListPorts]))) /\
      (forall sched, Ambilight.main c sig sched w
                     = (Ok tt, set_log w (log w ++ [EvListPorts])))) /\
  py_truediv_int_float (10 ^ 400) (F64.of_Z 255) = Raise OverflowError /\
  (forall c w e sig,
      cli_list_ports c = false ->
      py_truediv_int_float (arg_brightness (parse_args c)) (F64.of_Z 255) = Raise e ->
      e = OverflowError /\
      (forall sched, Ambilight.main c sig sched w = (Raise OverflowError, w)) /\
      (forall sched mon,
          Ambilight._setup_monitor (monitors w) (arg_monitor (parse_args c)) = Ok mon ->
          AmbilightPro.main c sig sched w = (Raise OverflowError, w))) /\
  (forall c w e sig,
      cli_list_ports c = false ->
      Ambilight._setup_monitor (monitors w) (arg_monitor (parse_args c)) = Raise e ->
      (forall sched, AmbilightPro.main c sig sched w = (Raise e, w)) /\
      (forall sched b,
          py_truediv_int_float (arg_brightness (parse_args c)) (F64.of_Z 255) = Ok b ->
          Ambilight.main c sig sched w = (Raise e, w))) /\
  (forall c w mon b sig,
      cli_list_ports c = false ->
      py_truediv_int_float (arg_brightness (parse_args c)) (F64.of_Z 255) = Ok b ->
      Ambilight._setup_monitor (monitors w) (arg_monitor (parse_args c)) = Ok mon ->
      openable w (arg_port (parse_args c)) = false ->
      let q := arg_port (parse_args c) in
      (forall sched, AmbilightPro.main c sig sched w
                     = (Raise (SystemExit 1), set_log w (log w ++ [EvOpen q; EvListPorts]))) /\
      (forall sched, Ambilight.main c sig sched w
                     = (Raise (SystemExit 1), set_log w (log w ++ [EvOpen q])))).
Proof.
  assert (Hcases : forall c w,
             cli_list_ports c = false ->
             match Ambilight._setup_monitor (monitors w) (arg_monitor (parse_args c)) with
             | Raise e => forall sig sched, AmbilightPro.main c sig sched w = (Raise e, w)
             | Ok _ =>
                 match py_truediv_int_float (arg_brightness (parse_args c)) (F64.of_Z 255) with
                 | Raise e => forall sig sched, AmbilightPro.main c sig sched w = (Raise e, w)
                 | Ok _ =>
                     openable w (arg_port (parse_args c)) = false ->
                     forall sig sched,
                       AmbilightPro.main c sig sched w
                       = (Raise (SystemExit 1),
                          set_log w (log w ++ [EvOpen (arg_port (parse_args c)); EvListPorts]))
                 end
             end /\
             match py_truediv_int_float (arg_brightness (parse_args c)) (F64.of_Z 255) with
             | Raise e => forall sig sched, Ambilight.main c sig sched w = (Raise e, w)
             | Ok _ =>
                 match Ambilight._setup_monitor (monitors w) (arg_monitor (parse_args c)) with
                 | Raise e => forall sig sched, Ambilight.main c sig sched w = (Raise e, w)
                 | Ok _ =>
                     openable w (arg_port (parse_args c)) = false ->
                     forall sig sched,
                       Ambilight.main c sig sched w
                       = (Raise (SystemExit 1),
                          set_log w (log w ++ [EvOpen (arg_port (parse_args c))]))
                 end
             end).
  { intros c w Hl.
    pose proof (pro_init_cases (arg_port (parse_args c)) (arg_monitor (parse_args c))
                  (arg_fps (parse_args c)) (arg_brightness (parse_args c))
                  (arg_saturation (parse_args c)) (arg_smoothing (parse_args c)) w) as Hp.
    pose proof (basic_init_cases (arg_port (parse_args c)) (arg_monitor (parse_args c))
                  (arg_fps (parse_args c)) (arg_brightness (parse_args c))
                  (arg_saturation (parse_args c)) (arg_smoothing (parse_args c)) w) as Hb.
    unfold AmbilightPro.main, Ambilight.main.
    replace (arg_list_ports (parse_args c)) with false by done.
    unfold bindM.
    destruct (Ambilight._setup_monitor _ _) as [mon|e],
             (py_truediv_int_float _ _) as [b|e'];
      (split; [try (intros Hopen; rewrite Hopen in Hp); intros sig sched; by rewrite Hp
              |try (intros Hopen; rewrite Hopen in Hb); intros sig sched; by rewrite Hb]). }
  split; [|split; [by vm_compute|split; [|split]]].
  - intros c w sig Hl. unfold AmbilightPro.main, Ambilight.main. simpl. by rewrite Hl.
  - intros c w e sig Hl Hbr.
    assert (e = OverflowError) as ->.
    { destruct (brightness_cases (arg_brightness (parse_args c))) as [[b Hb] | Hb];
        congruence. }
    destruct (Hcases c w Hl) as [Hp Hb]. rewrite Hbr in Hp, Hb.
    split; [done|]. split; [done|]. intros sched mon Hmon. rewrite Hmon in Hp. apply Hp.
  - intros c w e sig Hl Hmon.
    destruct (Hcases c w Hl) as [Hp Hb]. rewrite Hmon in Hp, Hb.
    split; [done|]. intros sched b Hbr. rewrite Hbr in Hb. apply Hb.
  - intros c w mon b sig Hl Hbr Hmon Hopen q.
    destruct (Hcases c w Hl) as [Hp Hb]. rewrite Hmon, Hbr in Hp, Hb.
    split; intros sched; [by apply Hp|by apply Hb].
Qed.

Lemma startup_failures_witness :
  (forall sched, AmbilightPro.main Sample.no_options no_signals sched Scenario.w_unplugged
                 = (Raise (SystemExit 1),
                    set_log Scenario.w_unplugged
                      (log Scenario.w_unplugged ++ [EvOpen "COM3"%string; EvListPorts]))) /\
  (forall sched, Ambilight.main Sample.no_options no_signals sched Scenario.w_unplugged
                 = (Raise (SystemExit 1),
                    set_log Scenario.w_unplugged
                      (log Scenario.w_unplugged ++ [EvOpen "COM3"%string]))).
Proof.
  apply (proj2 (proj2 (proj2 (proj2 startup_failures))) Sample.no_options
           Scenario.w_unplugged Sample.primary (F64.div (F64.of_Z 255) (F64.of_Z 255))
           no_signals);
    reflexivity.
Defined.

(** ** Frame pacing *)

(** X12. [--fps 0] is accepted by the command line and by [__init__]; the
    monitor is set up and the serial port is opened, and then
    [frame_time = 1.0 / self.target_fps] raises [ZeroDivisionError] before the
    [try:] of [run]: [run] has set [running] and done nothing else, [main]
    ends with that exception, no frame and no black frame is written and
    the port is not closed. (The brightness must have a float and the monitor
    must exist, or [__init__] raises first; and a Ctrl+C while [run] prints
    its banner ends it with [KeyboardInterrupt] before the division.) Both
    programs. *)
Theorem zero_fps_raises_after_connecting :
  (forall sig sched (self : AmbilightPro.t) w,
      AmbilightPro.target_fps self = 0 ->
      before_try sig <> Some AtEntry ->
      AmbilightPro.run sig sched (self, w)
      = (Raise ZeroDivisionError, (AmbilightPro.set_running self true, w))) /\
  (forall sig sched (self : Ambilight.t) w,
      Ambilight.target_fps self = 0 ->
      before_try sig <> Some AtEntry ->
      Ambilight.run sig sched (self, w)
      = (Raise ZeroDivisionError, (Ambilight.set_running self true, w))) /\
  (forall c w mon b,
      cli_list_ports c = false ->
      cli_fps c = Some 0 ->
      py_truediv_int_float (arg_brightness (parse_args c)) (F64.of_Z 255) = Ok b ->
      Ambilight._setup_monitor (monitors w) (arg_monitor (parse_args c)) = Ok mon ->
      openable w (arg_port (parse_args c)) = true ->
      let q := arg_port (parse_args c) in
      (forall sig sched,
          before_try sig <> Some AtEntry ->
          AmbilightPro.main c sig sched w
          = (Raise ZeroDivisionError, set_log w (log w ++ [EvOpen q]))) /\
      (forall sig sched,
          before_try sig <> Some AtEntry ->
          Ambilight.main c sig sched w
          = (Raise ZeroDivisionError, set_log w (log w ++ [EvOpen q])))).
Proof.
  assert (Hpro : forall sig sched (self : AmbilightPro.t) w,
             AmbilightPro.target_fps self = 0 ->
             before_try sig <> Some AtEntry ->
             AmbilightPro.run sig sched (self, w)
             = (Raise ZeroDivisionError, (AmbilightPro.set_running self true, w))).
  { intros sig sched self w Hz Hsig.
    apply (proj1 (proj2 (run_not_started sig sched self w))); [done|].
    rewrite Hz. apply frame_time_zero. }
  assert (Hbasic : forall sig sched (self : Ambilight.t) w,
             Ambilight.target_fps self = 0 ->
             before_try sig <> Some AtEntry ->
             Ambilight.run sig sched (self, w)
             = (Raise ZeroDivisionError, (Ambilight.set_running self true, w))).
  { intros sig sched self w Hz Hsig.
    apply (proj1 (proj2 (basic_run_not_started sig sched self w))); [done|].
    rewrite Hz. apply frame_time_zero. }
  split; [exact Hpro|]. split; [exact Hbasic|].
  intros c w mon b Hl Hfps Hbr Hmon Hopen q.
  pose proof (pro_init_cases (arg_port (parse_args c)) (arg_monitor (parse_args c))
                (arg_fps (parse_args c)) (arg_brightness (parse_args c))
                (arg_saturation (parse_args c)) (arg_smoothing (parse_args c)) w) as Hp.
  pose proof (basic_init_cases (arg_port (parse_args c)) (arg_monitor (parse_args c))
                (arg_fps (parse_args c)) (arg_brightness (parse_args c))
                (arg_saturation (parse_args c)) (arg_smoothing (parse_args c)) w) as Hb.
  rewrite Hmon, Hbr, Hopen in Hp, Hb. destruct Hp as [pro Hp]. destruct Hb as [basic Hb].
  assert (arg_fps (parse_args c) = 0) as Hz by (simpl; by rewrite Hfps).
  destruct (pro_init_facts _ _ _ _ _ _ _ _ _ Hp) as (_ & _ & _ & _ & Hfp).
  destruct (basic_init_facts _ _ _ _ _ _ _ _ _ Hb) as (_ & _ & _ & _ & Hfb).
  rewrite Hz in Hfp, Hfb.
  unfold AmbilightPro.main, Ambilight.main.
  replace (arg_list_ports (parse_args c)) with false by done.
  unfold bindM. rewrite Hp, Hb. split; intros sig sched Hsig.
  - by rewrite (Hpro sig sched pro _ Hfp Hsig).
  - by rewrite (Hbasic sig sched basic _ Hfb Hsig).
Qed.

Lemma zero_fps_raises_after_connecting_witness :
  (forall sig sched,
      before_try sig <> Some AtEntry ->
      AmbilightPro.main Scenario.fps_zero sig sched Sample.w0
      = (Raise ZeroDivisionError,
         set_log Sample.w0 (log Sample.w0 ++ [EvOpen "COM3"%string]))) /\
  (forall sig sched,
      before_try sig <> Some AtEntry ->
      Ambilight.main Scenario.fps_zero sig sched Sample.w0
      = (Raise ZeroDivisionError,
         set_log Sample.w0 (log Sample.w0 ++ [EvOpen "COM3"%string]))).
Proof.
  apply (proj2 (proj2 zero_fps_raises_after_connecting) Scenario.fps_zero Sample.w0
           Sample.primary (F64.div (F64.of_Z 255) (F64.of_Z 255)));
    reflexivity.
Defined.

(** ** Monitor selection *)

(** X13. For a monitor index [n >= -1] and a non-empty monitor list, neither
    [_setup_monitor] raises and both select [monitors[min(n + 1, len - 1)]]:
    an index beyond the last monitor selects the last one. Both programs then
    capture the same three rectangles of that monitor: strips
    [CAPTURE_DEPTH] = 30 pixels deep, the right one ending at the monitor's
    right border. *)
Theorem monitor_index_is_clamped_above :
  forall (monitors : list monitor) (n : Z),
    monitors <> [] -> -1 <= n ->
    exists mon regs,
      Ambilight._setup_monitor monitors n = Ok mon /\
      ScreenCapture._setup_monitor monitors n = Ok (mon, regs) /\
      monitors !! Z.to_nat (Z.min (n + 1) (Z.of_nat (length monitors) - 1)) = Some mon /\
      (Z.of_nat (length monitors) - 2 <= n -> last monitors = Some mon) /\
      (forall ser fps br sat sm,
          let self := Ambilight.make mon ser n fps br sat sm in
          ScreenCapture.left regs = Ambilight.left_region self /\
          ScreenCapture.top regs = Ambilight.top_region self /\
          ScreenCapture.right regs = Ambilight.right_region self) /\
      reg_left (ScreenCapture.right regs) + reg_width (ScreenCapture.right regs)
      = mon_left mon + mon_width mon /\
      reg_width (ScreenCapture.left regs) = CAPTURE_DEPTH /\
      reg_height (ScreenCapture.top regs) = CAPTURE_DEPTH.
Proof.
  intros monitors n Hne Hn.
  destruct (setup_monitor_in_range monitors n Hne Hn) as (mon & Hb & Hlook & regs & Hp).
  exists mon, regs. split; [done|]. split; [done|]. split; [done|].
  split.
  { intros Hlast. rewrite last_lookup, <- Hlook. f_equal. lia. }
  unfold ScreenCapture._setup_monitor in Hp.
  destruct (py_getitem monitors _) as [mon'|e]; [|done].
  simpl in Hp. injection Hp as -> <-. simpl. split; [done|]. split; [|done].
  unfold CAPTURE_DEPTH. lia.
Qed.

Lemma monitor_index_is_clamped_above_witness :
  exists mon regs,
    Ambilight._setup_monitor Sample.two_monitors 7 = Ok mon /\
    ScreenCapture._setup_monitor Sample.two_monitors 7 = Ok (mon, regs) /\
    Sample.two_monitors
      !! Z.to_nat (Z.min (7 + 1) (Z.of_nat (length Sample.two_monitors) - 1)) = Some mon /\
    (Z.of_nat (length Sample.two_monitors) - 2 <= 7 -> last Sample.two_monitors = Some mon) /\
    (forall ser fps br sat sm,
        let self := Ambilight.make mon ser 7 fps br sat sm in
        ScreenCapture.left regs = Ambilight.left_region self /\
        ScreenCapture.top regs = Ambilight.top_region self /\
        ScreenCapture.right regs = Ambilight.right_region self) /\
    reg_left (ScreenCapture.right regs) + reg_width (ScreenCapture.right regs)
    = mon_left mon + mon_width mon /\
    reg_width (ScreenCapture.left regs) = CAPTURE_DEPTH /\
    reg_height (ScreenCapture.top regs) = CAPTURE_DEPTH.
Proof. apply (monitor_index_is_clamped_above Sample.two_monitors 7); [done|lia]. Defined.

(** ** Clipping and the conversion to bytes *)

Lemma digits2_pos_bound (m : positive) : Z.pos m < 2 ^ Z.pos (digits2_pos m).
Proof.
  induction m as [m IH|m IH|]; simpl digits2_pos;
    try change (PosDef.Pos.succ (digits2_pos m)) with (Pos.succ (digits2_pos m));
    rewrite ?Pos2Z.inj_succ, ?Z.pow_succ_r by lia; lia.
Qed.

Lemma valid_mantissa s m e :
  valid_binary F32.prec F32.emax (S754_finite s m e) = true -> Z.pos m < 2 ^ 24.
Proof.
  unfold valid_binary, bounded, canonical_mantissa, fexp, emin, F32.prec, F32.emax.
  intros H. apply andb_true_iff in H as [H _]. apply Z.eqb_eq in H.
  change (IntDef.Z.max ?a ?b) with (Z.max a b) in H.
  pose proof (digits2_pos_bound m) as Hd.
  assert (Z.pos (digits2_pos m) <= 24) as Hle by lia.
  pose proof (Z.pow_le_mono_r 2 (Z.pos (digits2_pos m)) 24 ltac:(lia) Hle). lia.
Qed.

(** X14. [np.clip(colors, 0, 255)] followed by [astype(np.uint8)] saturates:
    for a valid [float32] [x], a value below 0 gives 0, a value above 255
    gives 255 (infinities included), and a value in between gives its integer
    part, which lies in [0, 255], so the conversion to a byte never wraps
    around. *)
Theorem clipped_conversion_never_wraps (x : F32.t) :
  valid_binary F32.prec F32.emax x = true ->
  let y := F32.clip x (F32.of_Z 0) (F32.of_Z 255) in
  (F32.ltb x (F32.of_Z 0) = true -> F32.to_uint8 y = 0) /\
  (F32.ltb (F32.of_Z 255) x = true -> F32.to_uint8 y = 255) /\
  (F32.ltb x (F32.of_Z 0) = false -> F32.ltb (F32.of_Z 255) x = false -> x <> S754_nan ->
   exists z, F32.trunc x = Some z /\ 0 <= z <= 255 /\ F32.to_uint8 y = z).
Proof.
  intros Hvalid y. subst y. unfold F32.clip.
  change (F32.of_Z 0) with (S754_zero false).
  change (F32.of_Z 255) with (S754_finite false 16711680 (-16)).
  split; [|split].
  - by intros ->.
  - intros H255. destruct x as [s|[|]| |[|] m e]; try done.
    by rewrite H255.
  - intros H0 H255 Hnan. rewrite H0, H255.
    destruct x as [s|[|]| |[|] m e]; try done.
    + exists 0. by destruct s.
    + pose proof (valid_mantissa _ _ _ Hvalid) as Hm.
      unfold F32.ltb, SFltb, SFcompare in H255.
      unfold F32.to_uint8, F32.trunc.
      assert (e <= -16 /\ (e = -16 -> Z.pos m <= 16711680)) as [He Hm16].
      { destruct (Z.compare_spec (-16) e) as [<-|Hlt|Hgt]; [|done|lia].
        split; [lia|]. intros _.
        change (PosDef.Pos.compare_cont Eq 16711680 m) with (Pos.compare 16711680 m) in H255.
        destruct (Pos.compare_spec 16711680 m) as [<-|Hlt|Hgt]; [lia|done|lia]. }
      destruct (0 <=? e) eqn:E0; [lia|].
      rewrite Z.shiftr_div_pow2 by lia.
      assert (0 <= Z.pos m / 2 ^ (- e) <= 255) as Hr.
      { split; [apply Z.div_pos; lia|].
        destruct (Z.eq_dec e (-16)) as [->|Hne].
        - change (2 ^ (- -16)) with 65536.
          apply Z.lt_succ_r, Z.div_lt_upper_bound; lia.
        - assert (2 ^ 17 <= 2 ^ (- e)) by (apply Z.pow_le_mono_r; lia).
          apply Z.lt_succ_r, Z.div_lt_upper_bound; [lia|].
          change (2 ^ 24) with (2 ^ 17 * 128) in Hm. nia. }
      exists (Z.pos m / 2 ^ (- e)). split; [done|]. split; [done|].
      apply Z.mod_small. lia.
Qed.

Lemma clipped_conversion_never_wraps_witness :
  let y := F32.clip (F32.of_f64 (F64.of_ratio 2007 10)) (F32.of_Z 0) (F32.of_Z 255) in
  (F32.ltb (F32.of_f64 (F64.of_ratio 2007 10)) (F32.of_Z 0) = true -> F32.to_uint8 y = 0) /\
  (F32.ltb (F32.of_Z 255) (F32.of_f64 (F64.of_ratio 2007 10)) = true -> F32.to_uint8 y = 255) /\
  (F32.ltb (F32.of_f64 (F64.of_ratio 2007 10)) (F32.of_Z 0) = false ->
   F32.ltb (F32.of_Z 255) (F32.of_f64 (F64.of_ratio 2007 10)) = false ->
   F32.of_f64 (F64.of_ratio 2007 10) <> S754_nan ->
   exists z, F32.trunc (F32.of_f64 (F64.of_ratio 2007 10)) = Some z /\ 0 <= z <= 255 /\
             F32.to_uint8 y = z).
Proof.
  apply (clipped_conversion_never_wraps (F32.of_f64 (F64.of_ratio 2007 10))).
  vm_compute. reflexivity.
Defined.

(** ** A static screen *)

Lemma sub_self (x : F32.t) :
  no_infinity x = true ->
  x = S754_nan \/ exists s, F32.sub x x = S754_zero s.
Proof.
  destruct x as [s| | |s m e]; try done; intros _.
  - right. exists false. by destruct s.
  - by left.
  - right. exists false. unfold F32.sub, SFsub. by rewrite Z.sub_diag.
Qed.

Lemma add_zero (x : F32.t) s :
  is_finite x = true -> same_value (F32.add x (S754_zero s)) x.
Proof.
  destruct x as [s0| | |s0 m e]; try done; intros _; [|by left].
  right. destruct s0, s; by eexists _, _.
Qed.

Lemma mul_zero (alpha : F32.t) s :
  is_finite alpha = true -> exists s', F32.mul alpha (S754_zero s) = S754_zero s'.
Proof. destruct alpha as [sa| | |sa ma ea]; try done; intros _; by eexists. Qed.

Lemma ema_same (alpha p c : F32.t) :
  is_finite alpha = true -> no_infinity c = true -> same_value p c ->
  same_value (F32.add p (F32.mul alpha (F32.sub c p))) c.
Proof.
  intros Ha Hc [-> | (s & s' & -> & ->)].
  - destruct (sub_self c Hc) as [-> | [s ->]]; [by left|].
    destruct (mul_zero alpha s Ha) as [s' ->].
    destruct c as [s0| | |s0 m e]; try done; [|by left|by apply add_zero].
    by apply add_zero.
  - assert (exists s0, F32.sub (S754_zero s') (S754_zero s) = S754_zero s0) as [s0 ->].
    { destruct s, s'; by eexists. }
    destruct (mul_zero alpha s0 Ha) as [s1 ->].
    right. destruct s, s1; by eexists _, _.
Qed.

Lemma same_output (x y : F32.t) :
  same_value x y ->
  F32.to_uint8 (F32.clip x (F32.of_Z 0) (F32.of_Z 255))
  = F32.to_uint8 (F32.clip y (F32.of_Z 0) (F32.of_Z 255)).
Proof. intros [-> | (s & s' & -> & ->)]; [done|]. by destruct s, s'. Qed.

Lemma ema_rows_same alpha (a : list rgb32) :
  is_finite (F32.of_f64 alpha) = true ->
  Forall (fun c => no_infinity_row c = true) a ->
  forall prev, Forall2 same_row prev a ->
               Forall2 same_row (zip_with (ColorProcessor.ema alpha) prev a) a.
Proof.
  intros Ha Hfin prev H. induction H as [|[[pr pg] pb] [[r g] b] prev a (Hr & Hg & Hb) H IH];
    [constructor|].
  apply Forall_cons in Hfin as [Hc Hfin]. simpl in Hc.
  apply andb_true_iff in Hc as [Hc Hcb]. apply andb_true_iff in Hc as [Hcr Hcg].
  simpl. constructor; [|by apply IH].
  unfold same_row. splits; by apply ema_same.
Qed.

Lemma rows_same_output (q a : list rgb32) :
  Forall2 same_row q a ->
  map astype_uint8 (map clip_row q) = map astype_uint8 (map clip_row a).
Proof.
  intros H. induction H as [|[[pr pg] pb] [[r g] b] q a (Hr & Hg & Hb) H IH]; [done|].
  cbn [map]. rewrite IH. f_equal. unfold clip_row, rgb_map, astype_uint8.
  by rewrite (same_output _ _ Hr), (same_output _ _ Hg), (same_output _ _ Hb).
Qed.

Lemma same_rows_refl (a : list rgb32) : Forall2 same_row a a.
Proof.
  induction a as [|[[r g] b] a IH]; [constructor|]. constructor; [|done].
  unfold same_row. splits; by left.
Qed.

Lemma steady_frames (n : nat) : forall (pr : ColorProcessor.t) colors prev,
  let a := adjust (ColorProcessor.saturation pr) (ColorProcessor.brightness pr) colors in
  is_finite (F32.of_f64 (ColorProcessor.smoothing pr)) = true ->
  Forall (fun c => no_infinity_row c = true) a ->
  ColorProcessor.prev_colors pr = Some prev -> Forall2 same_row prev a ->
  process_frames pr (replicate n colors)
  = replicate n (map astype_uint8 (map clip_row a)).
Proof.
  induction n as [|n IH]; intros pr colors prev a Ha Hfin Hprev Hsame; [done|].
  simpl. unfold ColorProcessor.process. rewrite Hprev. fold a.
  pose proof (ema_rows_same _ a Ha Hfin prev Hsame) as Hsame'.
  rewrite (rows_same_output _ _ Hsame'). f_equal.
  by eapply IH.
Qed.

(** X15. A static screen gives a constant output in the multithreaded
    program: when [process] is called again and again on the same sample,
    starting with the first frame, it returns every time what it returned the
    first time, provided the smoothing coefficient is finite once rounded to
    [float32] (the precision in which [process] multiplies by it; a
    coefficient such as 1e39 is a finite Python float but rounds to an
    infinity and is excluded) and the adjusted colours hold no infinity. The
    exponential average [prev + alpha * (colors - prev)] does not drift. *)
Theorem static_screen_gives_constant_output (pr : ColorProcessor.t) (colors : list rgb32)
    (n : nat) :
  ColorProcessor.prev_colors pr = None ->
  is_finite (F32.of_f64 (ColorProcessor.smoothing pr)) = true ->
  forallb no_infinity_row
    (adjust (ColorProcessor.saturation pr) (ColorProcessor.brightness pr) colors) = true ->
  process_frames pr (replicate n colors) = replicate n (ColorProcessor.process pr colors).1.
Proof.
  intros Hprev Ha Hfin.
  assert (Forall (fun c => no_infinity_row c = true)
            (adjust (ColorProcessor.saturation pr) (ColorProcessor.brightness pr) colors))
    as Hfin'.
  { apply Forall_forall. intros c Hc. apply (proj1 (forallb_forall _ _) Hfin).
    by apply list_elem_of_In. }
  destruct n as [|n]; [done|].
  cbn [replicate process_frames].
  destruct (ColorProcessor.process pr colors) as [out pr'] eqn:E.
  unfold ColorProcessor.process in E. rewrite Hprev in E. injection E as <- <-.
  cbn [fst]. f_equal.
  match goal with
  | |- process_frames ?p _ = _ =>
      apply (steady_frames n p colors
               (adjust (ColorProcessor.saturation pr) (ColorProcessor.brightness pr) colors))
  end; try done.
  apply same_rows_refl.
Qed.

Lemma static_screen_gives_constant_output_witness :
  process_frames
    (ColorProcessor.__init__ (F64.div (F64.of_Z 255) (F64.of_Z 255)) (F64.of_ratio 12 10)
       (F64.of_ratio 6 10))
    (replicate 3 (Sample.solid 200 100 100))
  = replicate 3
      (ColorProcessor.process
         (ColorProcessor.__init__ (F64.div (F64.of_Z 255) (F64.of_Z 255)) (F64.of_ratio 12 10)
            (F64.of_ratio 6 10))
         (Sample.solid 200 100 100)).1.
Proof.
  apply (static_screen_gives_constant_output
           (ColorProcessor.__init__ (F64.div (F64.of_Z 255) (F64.of_Z 255)) (F64.of_ratio 12 10)
              (F64.of_ratio 6 10))
           (Sample.solid 200 100 100) 3).
  - reflexivity.
  - vm_compute. reflexivity.
  - vm_compute. reflexivity.
Defined.
